(** * Delegacje: the financial calculation core

    A shallow embedding of the four pure calculators of the backend

      - [calculateDiet]            (core/calculateDiet.ts)
      - [calculateProjectBalance]  (core/calculateProjectBalance.ts)
      - [calculateSalaryNet]       (core/calculateSalaryNet.ts)
      - [detectDuplicateDocument]  (core/detectDuplicateDocument.ts)

    of the country table with its lookup and search (core/countries.ts),
    and of the lines of modules/projects/projects.routes.ts that look the
    country up and call the salary calculator when a project is created.

    Modelling decisions.

      - A JavaScript [number] is a value of a type [num] carrying the
        operations the code uses (class [Number]).  The calculators are
        written once, over any such type.  Two instances are given:
        exact rationals ([Q], instance [Q_Number]), on which
        the general properties are proved, and IEEE 754 binary64
        ([float], instance [Float_Number]), on which the worked scenarios
        are replayed bit for bit.  The exact instance has no NaN, no
        infinities and no rounding of arithmetic results.
      - A [Date] is its time value: milliseconds since the epoch, in [Z].
        Invalid dates are not modelled.  [new Date()] reads a clock; the
        reading is an explicit argument.
      - Strings are [string]; case mapping and trimming are the ASCII
        ones.
      - [throw new Error(msg)] is the [Throw msg] outcome of a small
        error monad.
      - The digest of the [crypto] library is a parameter [sha256]. *)

From Stdlib Require Import ZArith QArith Qround Qabs Qminmax Lia Lqa.
From Stdlib Require Import Bool List String Ascii DecimalString.
From Stdlib Require Import Sorting.Sorted Sorting.Permutation.
From Stdlib Require Import PrimFloat SpecFloat FloatOps Uint63.
Import ListNotations.

Set Warnings "-inexact-float".

(** ** Outcomes of functions that may throw *)

Inductive outcome (A : Type) : Type :=
| Return (a : A)
| Throw (message : string).
Arguments Return {A} a.
Arguments Throw {A} message.

Definition bind {A B} (m : outcome A) (k : A -> outcome B) : outcome B :=
  match m with
  | Return a => k a
  | Throw e => Throw e
  end.

Notation "x <- m ;; k" := (bind m (fun x => k))
  (at level 61, m at next level, right associativity).
Notation "' pat <- m ;; k" := (bind m (fun x => let 'pat := x in k))
  (at level 61, pat pattern, m at next level, right associativity).

(** ** The interface of JavaScript numbers *)

Class Number (num : Type) : Type := {
  (** the number a decimal literal of the source denotes *)
  ofQ : Q -> num;
  add : num -> num -> num;
  sub : num -> num -> num;
  mul : num -> num -> num;
  div : num -> num -> num;
  (** [a % b] *)
  rem : num -> num -> num;
  (** [a < b] and [a <= b]; [a > b] is [ltb b a], [a >= b] is [leb b a] *)
  ltb : num -> num -> bool;
  leb : num -> num -> bool;
  Math_floor : num -> num;
  Math_round : num -> num;
  Math_min : num -> num -> num;
  Math_max : num -> num -> num;
  Math_abs : num -> num;
  (** ToBoolean: false on zero (and NaN) *)
  truthy : num -> bool;
  (** [x.toFixed(2)] *)
  toFixed2 : num -> string;
  (** how many times the body of [for (k = 0; k < n; k++)] runs *)
  iterations : num -> nat
}.

Declare Scope js_scope.
Delimit Scope js_scope with js.
Infix "+" := add : js_scope.
Infix "-" := sub : js_scope.
Infix "*" := mul : js_scope.
Infix "/" := div : js_scope.
Infix "%%" := rem (at level 40, left associativity) : js_scope.
Infix "<?" := ltb (at level 70, no associativity) : js_scope.
Infix "<=?" := leb (at level 70, no associativity) : js_scope.
Notation "a >? b" := (ltb b a) (at level 70, no associativity) : js_scope.
Notation "a >=? b" := (leb b a) (at level 70, no associativity) : js_scope.

(** Integer literals and integer-valued quantities (lengths, time values). *)
Definition ofZ {num} `{Number num} (z : Z) : num := ofQ (inject_Z z).

(** ** Text helpers of the runtime (ASCII) *)

Definition is_white (c : ascii) : bool :=
  let n := nat_of_ascii c in
  (n =? 32)%nat || ((9 <=? n)%nat && (n <=? 13)%nat).

Fixpoint trimStart (s : string) : string :=
  match s with
  | String c s' => if is_white c then trimStart s' else s
  | EmptyString => EmptyString
  end.

Fixpoint rev_string (acc s : string) : string :=
  match s with
  | EmptyString => acc
  | String c s' => rev_string (String c acc) s'
  end.

Definition trim (s : string) : string :=
  rev_string EmptyString (trimStart (rev_string EmptyString (trimStart s))).

Definition lower_ascii (c : ascii) : ascii :=
  let n := nat_of_ascii c in
  if ((65 <=? n)%nat && (n <=? 90)%nat)%bool then ascii_of_nat (n + 32) else c.

Definition upper_ascii (c : ascii) : ascii :=
  let n := nat_of_ascii c in
  if ((97 <=? n)%nat && (n <=? 122)%nat)%bool then ascii_of_nat (n - 32) else c.

Fixpoint map_string (f : ascii -> ascii) (s : string) : string :=
  match s with
  | EmptyString => EmptyString
  | String c s' => String (f c) (map_string f s')
  end.

Definition toLowerCase : string -> string := map_string lower_ascii.
Definition toUpperCase : string -> string := map_string upper_ascii.

(** ToBoolean on strings: only the empty string is falsy. *)
Definition nonEmpty (s : string) : bool :=
  match s with EmptyString => false | String _ _ => true end.

(** Decimal digits of a non-negative integer, left-padded with zeros to at
    least [width] characters. *)
Fixpoint zeros (n : nat) : string :=
  match n with O => EmptyString | S k => String "0" (zeros k) end.

Definition digits (z : Z) : string :=
  NilZero.string_of_uint (N.to_uint (Z.to_N z)).

Definition padStart (width : nat) (s : string) : string :=
  (zeros (width - String.length s) ++ s)%string.

(** ** Dates *)

Definition Date := Z.

Definition msPerDay : Z := 86400000.

(** Calendar date (year, month, day) of a day number counted from
    1970-01-01, proleptic Gregorian, UTC. *)
Definition civilFromDays (days : Z) : Z * Z * Z :=
  let z := (days + 719468)%Z in
  let era := (z / 146097)%Z in
  let doe := (z - era * 146097)%Z in
  let yoe := ((doe - doe / 1460 + doe / 36524 - doe / 146096) / 365)%Z in
  let doy := (doe - (365 * yoe + yoe / 4 - yoe / 100))%Z in
  let mp := ((5 * doy + 2) / 153)%Z in
  let d := (doy - (153 * mp + 2) / 5 + 1)%Z in
  let m := (if mp <? 10 then mp + 3 else mp - 9)%Z in
  let y := (yoe + era * 400 + (if m <=? 2 then 1 else 0))%Z in
  (y, m, d).

(** [date.toISOString().split('T')[0]]: YYYY-MM-DD, with the expanded
    six-digit signed year outside 0..9999. *)
Definition isoDate (date : Date) : string :=
  let '(y, m, d) := civilFromDays (date / msPerDay) in
  let year :=
    if ((0 <=? y) && (y <=? 9999))%Z then padStart 4 (digits y)
    else ((if (y <? 0)%Z then "-" else "+") ++ padStart 6 (digits (Z.abs y)))%string in
  (year ++ "-" ++ padStart 2 (digits m) ++ "-" ++ padStart 2 (digits d))%string.

(** ** Exact numbers: the rational instance *)

Definition Q_ltb (a b : Q) : bool := negb (Qle_bool b a).

Definition Q_trunc (x : Q) : Z :=
  if Qle_bool 0 x then Qfloor x else Qceiling x.

Definition Q_rem (a b : Q) : Q := a - b * inject_Z (Q_trunc (a / b)).

(** [Math.round]: the nearest integer, a tie going up. *)
Definition Q_round (x : Q) : Q := inject_Z (Qfloor (x + (1 # 2))).

(** [toFixed(2)]: the integer number of hundredths nearest to [|x|]
    (the larger one on a tie), printed with two decimals. *)
Definition Q_toFixed2 (x : Q) : string :=
  let n := Qfloor (Qabs x * 100 + (1 # 2)) in
  let s := padStart 3 (digits n) in
  let k := (String.length s - 2)%nat in
  ((if Q_ltb x 0 then "-" else EmptyString)
     ++ substring 0 k s ++ "." ++ substring k 2 s)%string.

#[export] Instance Q_Number : Number Q := {|
  ofQ := fun q => q;
  add := Qplus;
  sub := Qminus;
  mul := Qmult;
  div := Qdiv;
  rem := Q_rem;
  ltb := Q_ltb;
  leb := Qle_bool;
  Math_floor := fun x => inject_Z (Qfloor x);
  Math_round := Q_round;
  Math_min := Qmin;
  Math_max := Qmax;
  Math_abs := Qabs;
  truthy := fun x => negb (Qeq_bool x 0);
  toFixed2 := Q_toFixed2;
  iterations := fun x => Z.to_nat (Qceiling x)
|}.

(** ** IEEE 754 binary64: the floating-point instance

    Arithmetic and comparisons are the primitive ones.  The [Math]
    functions, [%] and [toFixed] are computed from the exact value
    [(-1)^s * m * 2^e] of a finite float. *)

Definition float_ofZ (z : Z) : float :=
  if (0 <=? z)%Z then of_uint63 (Uint63.of_Z z)
  else PrimFloat.opp (of_uint63 (Uint63.of_Z (- z))).

(** A decimal literal denotes the double nearest to it: the correctly
    rounded quotient of numerator and denominator (both below 2^53 in
    every literal of the source). *)
Definition float_ofQ (q : Q) : float :=
  PrimFloat.div (float_ofZ (Qnum q)) (float_ofZ (Zpos (Qden q))).

Definition float_toQ (x : float) : option Q :=
  match Prim2SF x with
  | S754_zero _ => Some 0
  | S754_finite s m e =>
      Some ((if s then -1 else 1) * inject_Z (Zpos m) * Qpower 2 e)
  | _ => None
  end.

Definition float_floor (x : float) : float :=
  match Prim2SF x with
  | S754_finite s m e =>
      if (0 <=? e)%Z then x
      else
        let q := Z.shiftr (Zpos m) (- e) in
        let exact := (Z.shiftl q (- e) =? Zpos m)%Z in
        float_ofZ (if s then (if exact then - q else - q - 1) else q)%Z
  | _ => x
  end.

Definition float_round (x : float) : float :=
  match Prim2SF x with
  | S754_finite _ _ _ =>
      let f := float_floor x in
      let r := if PrimFloat.leb 0.5 (PrimFloat.sub x f)
               then PrimFloat.add f 1 else f in
      if (PrimFloat.eqb r 0 && PrimFloat.ltb x 0)%bool
      then PrimFloat.opp 0 else r
  | _ => x
  end.

Definition float_rem (x y : float) : float :=
  match Prim2SF x, Prim2SF y with
  | S754_nan, _ | _, S754_nan | S754_infinity _, _ | _, S754_zero _ => nan
  | S754_zero _, _ | _, S754_infinity _ => x
  | S754_finite sx mx ex, S754_finite _ my ey =>
      let emin := Z.min ex ey in
      let X := (Zpos mx * 2 ^ (ex - emin))%Z in
      let Y := (Zpos my * 2 ^ (ey - emin))%Z in
      let r := Z.ldexp (float_ofZ (X mod Y)) emin in
      if sx then PrimFloat.opp r else r
  end.

Definition float_is_nan (x : float) : bool := negb (PrimFloat.eqb x x).

Definition float_min (x y : float) : float :=
  if (float_is_nan x || float_is_nan y)%bool then nan
  else if PrimFloat.ltb x y then x
  else if PrimFloat.ltb y x then y
  else if get_sign x then x else y.

Definition float_max (x y : float) : float :=
  if (float_is_nan x || float_is_nan y)%bool then nan
  else if PrimFloat.ltb x y then y
  else if PrimFloat.ltb y x then x
  else if get_sign x then y else x.

(** Values of 1e21 and above print in exponent notation in JavaScript;
    that form is not produced here. *)
Definition float_toFixed2 (x : float) : string :=
  match float_toQ x with
  | Some q => Q_toFixed2 q
  | None => if float_is_nan x then "NaN"
            else if get_sign x then "-Infinity" else "Infinity"
  end%string.

(** A loop bounded by an infinite number does not end; it is cut at zero
    iterations here, as for NaN. *)
Definition float_iterations (x : float) : nat :=
  match float_toQ x with
  | Some q => Z.to_nat (Qceiling q)
  | None => O
  end.

#[export] Instance Float_Number : Number float := {|
  ofQ := float_ofQ;
  add := PrimFloat.add;
  sub := PrimFloat.sub;
  mul := PrimFloat.mul;
  div := PrimFloat.div;
  rem := float_rem;
  ltb := PrimFloat.ltb;
  leb := PrimFloat.leb;
  Math_floor := float_floor;
  Math_round := float_round;
  Math_min := float_min;
  Math_max := float_max;
  Math_abs := PrimFloat.abs;
  truthy := fun x => (negb (PrimFloat.eqb x 0) && PrimFloat.eqb x x)%bool;
  toFixed2 := float_toFixed2;
  iterations := float_iterations
|}.

(** ** Data of calculateDiet.ts *)

Inductive DietMode : Set := LIVE | PLANNED | CLOSED.

Module DietInput.
Record t {num : Type} : Type := mk {
  startDatetime : Date;
  plannedEndDatetime : option Date;
  actualEndDatetime : option Date;
  mode : DietMode;
  dailyRate : num;
  currency : string;
  breakfastCount : option num
}.
Arguments t : clear implicits.
Arguments mk {num}.
End DietInput.

Module DietBreakdown.
Record t {num : Type} : Type := mk {
  day : num;
  date : string;
  hours : num;
  multiplier : num;
  amount : num
}.
Arguments t : clear implicits.
Arguments mk {num}.
End DietBreakdown.

Module BreakdownParams.
Record t {num : Type} : Type := mk {
  fullDays : num;
  remainingHours : num;
  partialDayMultiplier : num;
  totalDays : num;
  dietBeforeBreakfast : num;
  breakfastCount : num;
  breakfastDeduction : num;
  totalDiet : num;
  currency : string;
  dailyRate : num
}.
Arguments t : clear implicits.
Arguments mk {num}.
End BreakdownParams.

(** The Polish summary text.  Its rendering prints numbers in their
    shortest decimal form, which is left out: the text built by
    [buildPolishBreakdown] is kept as the parameters it is built from. *)
Inductive Summary {num : Type} : Type :=
| Literal (text : string)
| PolishBreakdown (p : BreakdownParams.t num).
Arguments Summary : clear implicits.

Module DietResult.
Record t {num : Type} : Type := mk {
  fullDays : num;
  partialDay : num;
  partialDayMultiplier : num;
  totalDays : num;
  dietBeforeBreakfast : num;
  breakfastDeduction : num;
  totalDiet : num;
  currency : string;
  breakdown : Summary num;
  detailedBreakdown : list (DietBreakdown.t num);
  endDatetime : Date;
  isLive : bool
}.
Arguments t : clear implicits.
Arguments mk {num}.
End DietResult.

Section Diet.
Context {num : Type} `{Number num}.
Local Open Scope js_scope.

Definition getTime (d : Date) : num := ofZ d.

(** The helper the source leaves unused: its middle branch evaluates
    [0.5] and drops it. *)
Definition getPartialDayMultiplier (hours : num) : num :=
  if hours <? ofZ 8 then ofZ 1 / ofZ 3
  else ofZ 1.

Definition getMultiplierForHours (hours : num) : num :=
  if hours <? ofZ 8 then ofZ 1 / ofZ 3
  else if (hours >=? ofZ 8) && (hours <? ofZ 12) then ofQ 0.5
  else ofZ 1.

Definition msPerHour : num := ofZ 1000 * ofZ 60 * ofZ 60.

Definition calculateDiet (now : Date) (input : DietInput.t num)
  : outcome (DietResult.t num) :=
  let startDatetime := DietInput.startDatetime input in
  let dailyRate := DietInput.dailyRate input in
  let currency := DietInput.currency input in
  let breakfastCount :=
    match DietInput.breakfastCount input with
    | Some b => b
    | None => ofZ 0
    end in
  '(endDatetime, isLive) <-
    match DietInput.mode input with
    | LIVE => Return (now, true)
    | PLANNED =>
        match DietInput.plannedEndDatetime input with
        | None => Throw "plannedEndDatetime required for PLANNED mode"
        | Some e => Return (e, false)
        end
    | CLOSED =>
        match DietInput.actualEndDatetime input with
        | None => Throw "actualEndDatetime required for CLOSED mode"
        | Some e => Return (e, false)
        end
    end ;;
  if (endDatetime <=? startDatetime)%Z then
    Return {|
      DietResult.fullDays := ofZ 0;
      DietResult.partialDay := ofZ 0;
      DietResult.partialDayMultiplier := ofZ 0;
      DietResult.totalDays := ofZ 0;
      DietResult.dietBeforeBreakfast := ofZ 0;
      DietResult.breakfastDeduction := ofZ 0;
      DietResult.totalDiet := ofZ 0;
      DietResult.currency := currency;
      DietResult.breakdown :=
        Literal "Delegacja jeszcze się nie zaczęła lub ma zerowy czas trwania.";
      DietResult.detailedBreakdown := [];
      DietResult.endDatetime := endDatetime;
      DietResult.isLive := isLive
    |}
  else
    let totalMs := getTime endDatetime - getTime startDatetime in
    let totalHours := totalMs / msPerHour in
    let fullDays := Math_floor (totalHours / ofZ 24) in
    let remainingHours := totalHours %% ofZ 24 in
    let partialDayMultiplier := getMultiplierForHours remainingHours in
    let partialDayFraction :=
      if remainingHours >? ofZ 0 then partialDayMultiplier else ofZ 0 in
    let totalDays := fullDays + partialDayFraction in
    let dietBeforeBreakfast := totalDays * dailyRate in
    let breakfastDeductionPerMeal := dailyRate * ofQ 0.25 in
    let breakfastDeduction :=
      Math_min (breakfastCount * breakfastDeductionPerMeal)
               dietBeforeBreakfast in
    let totalDiet := Math_max (ofZ 0) (dietBeforeBreakfast - breakfastDeduction) in
    let fullRows :=
      map (fun day : nat =>
             {| DietBreakdown.day := ofZ (Z.of_nat day) + ofZ 1;
                DietBreakdown.date :=
                  isoDate (startDatetime + Z.of_nat day * 24 * 60 * 60 * 1000)%Z;
                DietBreakdown.hours := ofZ 24;
                DietBreakdown.multiplier := ofZ 1;
                DietBreakdown.amount := dailyRate |})
          (seq 0 (iterations fullDays)) in
    let partialRow :=
      if remainingHours >? ofZ 0 then
        [ {| DietBreakdown.day := fullDays + ofZ 1;
             DietBreakdown.date :=
               isoDate (startDatetime
                        + Z.of_nat (iterations fullDays) * 24 * 60 * 60 * 1000)%Z;
             DietBreakdown.hours :=
               Math_round (remainingHours * ofZ 10) / ofZ 10;
             DietBreakdown.multiplier := partialDayMultiplier;
             DietBreakdown.amount := dailyRate * partialDayMultiplier |} ]
      else [] in
    let breakdown :=
      PolishBreakdown {|
        BreakdownParams.fullDays := fullDays;
        BreakdownParams.remainingHours := remainingHours;
        BreakdownParams.partialDayMultiplier := partialDayMultiplier;
        BreakdownParams.totalDays := totalDays;
        BreakdownParams.dietBeforeBreakfast := dietBeforeBreakfast;
        BreakdownParams.breakfastCount := breakfastCount;
        BreakdownParams.breakfastDeduction := breakfastDeduction;
        BreakdownParams.totalDiet := totalDiet;
        BreakdownParams.currency := currency;
        BreakdownParams.dailyRate := dailyRate
      |} in
    Return {|
      DietResult.fullDays := fullDays;
      DietResult.partialDay := Math_round (remainingHours * ofZ 10) / ofZ 10;
      DietResult.partialDayMultiplier := partialDayMultiplier;
      DietResult.totalDays := Math_round (totalDays * ofZ 100) / ofZ 100;
      DietResult.dietBeforeBreakfast :=
        Math_round (dietBeforeBreakfast * ofZ 100) / ofZ 100;
      DietResult.breakfastDeduction :=
        Math_round (breakfastDeduction * ofZ 100) / ofZ 100;
      DietResult.totalDiet := Math_round (totalDiet * ofZ 100) / ofZ 100;
      DietResult.currency := currency;
      DietResult.breakdown := breakdown;
      DietResult.detailedBreakdown := fullRows ++ partialRow;
      DietResult.endDatetime := endDatetime;
      DietResult.isLive := isLive
    |}.

End Diet.

(** ** Data of calculateProjectBalance.ts *)

Inductive ProjectStatus : Set := Status_ACTIVE | Status_CLOSED | Status_DRAFT.

Module TransactionSummary.
Record t {num : Type} : Type := mk {
  id : string;
  date : Date;
  amount : num;
  category : string;
  isPrivate : bool;
  excludedFromProject : bool
}.
Arguments t : clear implicits.
Arguments mk {num}.
End TransactionSummary.

Module AdvanceSummary.
Record t {num : Type} : Type := mk {
  id : string;
  date : Date;
  amount : num
}.
Arguments t : clear implicits.
Arguments mk {num}.
End AdvanceSummary.

Module Project.
Record t {num : Type} : Type := mk {
  startDatetime : Date;
  plannedEndDatetime : option Date;
  actualEndDatetime : option Date;
  status : ProjectStatus;
  dietAmountSnapshot : num;
  hotelLimitSnapshot : num;
  currency : string;
  breakfastCount : num
}.
Arguments t : clear implicits.
Arguments mk {num}.
End Project.

Module ProjectBalanceInput.
Record t {num : Type} : Type := mk {
  project : Project.t num;
  transactions : list (TransactionSummary.t num);
  advances : list (AdvanceSummary.t num)
}.
Arguments t : clear implicits.
Arguments mk {num}.
End ProjectBalanceInput.

Module CategoryTotals.
Record t {num : Type} : Type := mk {
  FOOD : num;
  TRANSPORT : num;
  HOTEL : num;
  PARKING : num;
  FUEL : num;
  OTHER : num
}.
Arguments t : clear implicits.
Arguments mk {num}.
End CategoryTotals.

Inductive HotelStatus : Set := within_limit | over_limit | no_hotel.

Module ProjectBalanceResult.
Record t {num : Type} : Type := mk {
  advancesTotal : num;
  expensesTotal : num;
  categoryTotals : CategoryTotals.t num;
  hotelCombined : num;
  hotelLimit : num;
  hotelStatus : HotelStatus;
  hotelOverage : num;
  diet : DietResult.t num;
  balance : num;
  balanceDescription : string;
  averageDailyExpense : num;
  transactionCount : nat
}.
Arguments t : clear implicits.
Arguments mk {num}.
End ProjectBalanceResult.

Definition newline : string := String (ascii_of_nat 10) EmptyString.

Section Balance.
Context {num : Type} `{Number num}.
Local Open Scope js_scope.

Definition round2 (value : num) : num :=
  Math_round (value * ofZ 100) / ofZ 100.

Definition getDietMode (status : ProjectStatus) (actualEndDatetime : option Date)
  : DietMode :=
  match status, actualEndDatetime with
  | Status_CLOSED, Some _ => CLOSED
  | Status_ACTIVE, _ => LIVE
  | _, _ => PLANNED
  end.

Definition calculateTripHours (now : Date) (project : Project.t num) : num :=
  let endDate :=
    match Project.status project, Project.actualEndDatetime project,
          Project.plannedEndDatetime project with
    | Status_CLOSED, Some actualEnd, _ => actualEnd
    | Status_ACTIVE, _, Some _ => now
    | _, _, Some plannedEnd => plannedEnd
    | _, _, None => now
    end in
  let ms := getTime endDate - getTime (Project.startDatetime project) in
  Math_max (ofZ 0) (ms / (ofZ 1000 * ofZ 60 * ofZ 60)).

Definition buildBalanceDescription (balance : num) (currency : string)
    (advancesTotal expensesTotal dietTotal : num) : string :=
  let sign := if balance >=? ofZ 0 then "+"%string else EmptyString in
  let status :=
    if balance >? ofZ 0 then "✅ Firma dopłaci Ci do wypłaty"%string
    else if balance <? ofZ 0 then "❌ Musisz zwrócić firmie"%string
    else "✓ Rozliczenie zerowe"%string in
  String.concat newline
    [ "Zaliczki: +" ++ toFixed2 advancesTotal ++ " " ++ currency;
      "Wydatki: -" ++ toFixed2 expensesTotal ++ " " ++ currency;
      "Dieta: +" ++ toFixed2 dietTotal ++ " " ++ currency;
      "────────────────────";
      "SALDO: " ++ sign ++ toFixed2 balance ++ " " ++ currency;
      status ]%string.

(** One turn of the loop over the valid transactions: the amount goes
    to the total named by the upper-cased category, to OTHER when no
    total has that name. *)
Definition addToCategory (totals : CategoryTotals.t num)
    (t : TransactionSummary.t num) : CategoryTotals.t num :=
  let cat := toUpperCase (TransactionSummary.category t) in
  let amount := TransactionSummary.amount t in
  let '(CategoryTotals.mk food transport hotel parking fuel other) := totals in
  if (cat =? "FOOD")%string then
    CategoryTotals.mk (round2 (food + amount)) transport hotel parking fuel other
  else if (cat =? "TRANSPORT")%string then
    CategoryTotals.mk food (round2 (transport + amount)) hotel parking fuel other
  else if (cat =? "HOTEL")%string then
    CategoryTotals.mk food transport (round2 (hotel + amount)) parking fuel other
  else if (cat =? "PARKING")%string then
    CategoryTotals.mk food transport hotel (round2 (parking + amount)) fuel other
  else if (cat =? "FUEL")%string then
    CategoryTotals.mk food transport hotel parking (round2 (fuel + amount)) other
  else
    CategoryTotals.mk food transport hotel parking fuel (round2 (other + amount)).

(** [Object.values(categoryTotals)], in the order the keys were written. *)
Definition categoryValues (totals : CategoryTotals.t num) : list num :=
  [ CategoryTotals.FOOD totals; CategoryTotals.TRANSPORT totals;
    CategoryTotals.HOTEL totals; CategoryTotals.PARKING totals;
    CategoryTotals.FUEL totals; CategoryTotals.OTHER totals ].

(** [nowDiet] is the clock reading taken inside [calculateDiet],
    [nowStats] the one taken by [calculateTripHours]. *)
Definition calculateProjectBalance (nowDiet nowStats : Date)
    (input : ProjectBalanceInput.t num)
  : outcome (ProjectBalanceResult.t num) :=
  let project := ProjectBalanceInput.project input in
  let transactions := ProjectBalanceInput.transactions input in
  let advances := ProjectBalanceInput.advances input in
  let validTransactions :=
    filter (fun t => negb (TransactionSummary.isPrivate t)
                     && negb (TransactionSummary.excludedFromProject t))
           transactions in
  let advancesTotal :=
    round2 (fold_left (fun sum a => sum + AdvanceSummary.amount a)
                      advances (ofZ 0)) in
  let categoryTotals :=
    fold_left addToCategory validTransactions
      (CategoryTotals.mk (ofZ 0) (ofZ 0) (ofZ 0) (ofZ 0) (ofZ 0) (ofZ 0)) in
  let expensesTotal :=
    round2 (fold_left (fun sum v => sum + v)
                      (categoryValues categoryTotals) (ofZ 0)) in
  let hotelCombined :=
    round2 (CategoryTotals.HOTEL categoryTotals
            + CategoryTotals.PARKING categoryTotals) in
  let hotelLimit := Project.hotelLimitSnapshot project in
  let '(hotelStatus, hotelOverage) :=
    if hotelCombined >? ofZ 0 then
      if hotelCombined <=? hotelLimit then (within_limit, ofZ 0)
      else (over_limit, round2 (hotelCombined - hotelLimit))
    else (no_hotel, ofZ 0) in
  let dietMode :=
    getDietMode (Project.status project) (Project.actualEndDatetime project) in
  diet <- calculateDiet nowDiet {|
    DietInput.startDatetime := Project.startDatetime project;
    DietInput.plannedEndDatetime := Project.plannedEndDatetime project;
    DietInput.actualEndDatetime := Project.actualEndDatetime project;
    DietInput.mode := dietMode;
    DietInput.dailyRate := Project.dietAmountSnapshot project;
    DietInput.currency := Project.currency project;
    DietInput.breakfastCount := Some (Project.breakfastCount project)
  |} ;;
  let balance :=
    round2 (advancesTotal - expensesTotal + DietResult.totalDiet diet) in
  let balanceDescription :=
    buildBalanceDescription balance (Project.currency project)
      advancesTotal expensesTotal (DietResult.totalDiet diet) in
  let tripHours := calculateTripHours nowStats project in
  let tripDays := tripHours / ofZ 24 in
  let averageDailyExpense :=
    if tripDays >? ofZ 0 then round2 (expensesTotal / tripDays) else ofZ 0 in
  Return {|
    ProjectBalanceResult.advancesTotal := advancesTotal;
    ProjectBalanceResult.expensesTotal := expensesTotal;
    ProjectBalanceResult.categoryTotals := categoryTotals;
    ProjectBalanceResult.hotelCombined := hotelCombined;
    ProjectBalanceResult.hotelLimit := hotelLimit;
    ProjectBalanceResult.hotelStatus := hotelStatus;
    ProjectBalanceResult.hotelOverage := hotelOverage;
    ProjectBalanceResult.diet := diet;
    ProjectBalanceResult.balance := balance;
    ProjectBalanceResult.balanceDescription := balanceDescription;
    ProjectBalanceResult.averageDailyExpense := averageDailyExpense;
    ProjectBalanceResult.transactionCount := List.length validTransactions
  |}.

End Balance.

(** ** calculateSalaryNet.ts *)

Module TaxRates.
Record t {num : Type} : Type := mk {
  pensionRate : num;
  disabilityRate : num;
  sicknessRate : num;
  healthInsuranceRate : num;
  incomeTaxRate : num;
  taxFreeMonthly : num;
  costOfIncome : num;
  maxCostOfIncome : num
}.
Arguments t : clear implicits.
Arguments mk {num}.
End TaxRates.

Module SalaryInput.
Record t {num : Type} : Type := mk {
  brutto : num;
  voluntarySocialSecurity : bool;
  ppkEnabled : bool;
  ppkPercentage : num;
  taxRates : option (TaxRates.t num)
}.
Arguments t : clear implicits.
Arguments mk {num}.
End SalaryInput.

Module SalaryResult.
Record t {num : Type} : Type := mk {
  brutto : num;
  netto : num;
  pensionContribution : num;
  disabilityContribution : num;
  sicknessContribution : num;
  totalSocialSecurity : num;
  healthInsuranceBase : num;
  healthInsurance : num;
  incomeBase : num;
  costOfIncome : num;
  taxBase : num;
  taxBeforeDeduction : num;
  taxFreeDeduction : num;
  incomeTax : num;
  ppkEmployee : num;
  breakdown : list (string * num);
  description : string
}.
Arguments t : clear implicits.
Arguments mk {num}.
End SalaryResult.

Section Salary.
Context {num : Type} `{Number num}.
Local Open Scope js_scope.

Definition TAX_RATES_2024_2025 : TaxRates.t num := {|
  TaxRates.pensionRate := ofQ 0.0976;
  TaxRates.disabilityRate := ofQ 0.015;
  TaxRates.sicknessRate := ofQ 0.0245;
  TaxRates.healthInsuranceRate := ofQ 0.09;
  TaxRates.incomeTaxRate := ofQ 0.12;
  TaxRates.taxFreeMonthly := ofZ 300;
  TaxRates.costOfIncome := ofQ 0.20;
  TaxRates.maxCostOfIncome := ofZ 250
|}.

(** The breakdown object is read by key. *)
Fixpoint lookup (key : string) (b : list (string * num)) : num :=
  match b with
  | [] => ofZ 0
  | (k, v) :: rest => if (k =? key)%string then v else lookup key rest
  end.

Definition buildSalaryDescription (b : list (string * num))
    (voluntarySS ppkEnabled : bool) : string :=
  let pln key := (toFixed2 (lookup key b) ++ " PLN")%string in
  let lines :=
    [ "Wynagrodzenie brutto: " ++ pln "brutto";
      EmptyString;
      "SKŁADKI ZUS:";
      "  Emerytalna (9.76%): -" ++ pln "pensionContribution";
      "  Rentowa (1.5%): -" ++ pln "disabilityContribution" ]%string in
  let lines :=
    if voluntarySS
    then List.app lines [ "  Chorobowa (2.45%): -" ++ pln "sicknessContribution" ]%string
    else lines in
  let lines :=
    List.app lines
     [ "  Łącznie ZUS: -" ++ pln "totalSocialSecurity";
       EmptyString;
       "UBEZPIECZENIE ZDROWOTNE:";
       "  Podstawa: " ++ pln "healthInsuranceBase";
       "  Składka (9%): -" ++ pln "healthInsurance";
       EmptyString;
       "PODATEK DOCHODOWY:";
       "  Podstawa przychodu: " ++ pln "incomeBase";
       "  Koszty uzyskania (20%, max 250): -" ++ pln "costOfIncome";
       "  Podstawa opodatkowania: " ++ pln "taxBase";
       "  Podatek (12%): " ++ pln "taxBeforeDeduction";
       "  Kwota wolna: -" ++ pln "taxFreeDeduction";
       "  Podatek do zapłaty: -" ++ pln "incomeTax" ]%string in
  let lines :=
    if ppkEnabled
    then List.app lines [ EmptyString; "PPK (pracownik): -" ++ pln "ppkEmployee" ]%string
    else lines in
  let lines :=
    List.app lines [ EmptyString; "WYNAGRODZENIE NETTO: " ++ pln "netto" ]%string in
  String.concat newline lines.

Definition calculateSalaryNet (input : SalaryInput.t num) : SalaryResult.t num :=
  let brutto := SalaryInput.brutto input in
  let voluntarySocialSecurity := SalaryInput.voluntarySocialSecurity input in
  let ppkEnabled := SalaryInput.ppkEnabled input in
  let ppkPercentage := SalaryInput.ppkPercentage input in
  let rates :=
    match SalaryInput.taxRates input with
    | Some r => r
    | None => TAX_RATES_2024_2025
    end in
  let pensionContribution := round2 (brutto * TaxRates.pensionRate rates) in
  let disabilityContribution := round2 (brutto * TaxRates.disabilityRate rates) in
  let sicknessContribution :=
    if voluntarySocialSecurity
    then round2 (brutto * TaxRates.sicknessRate rates)
    else ofZ 0 in
  let totalSocialSecurity :=
    pensionContribution + disabilityContribution + sicknessContribution in
  let healthInsuranceBase := round2 (brutto - totalSocialSecurity) in
  let healthInsurance :=
    round2 (healthInsuranceBase * TaxRates.healthInsuranceRate rates) in
  let incomeBase := round2 (brutto - totalSocialSecurity) in
  let rawCostOfIncome := round2 (incomeBase * TaxRates.costOfIncome rates) in
  let costOfIncome := Math_min rawCostOfIncome (TaxRates.maxCostOfIncome rates) in
  let taxBase := Math_round (Math_max (ofZ 0) (incomeBase - costOfIncome)) in
  let taxBeforeDeduction := round2 (taxBase * TaxRates.incomeTaxRate rates) in
  let taxFreeDeduction :=
    Math_min taxBeforeDeduction (TaxRates.taxFreeMonthly rates) in
  let incomeTax :=
    Math_max (ofZ 0) (round2 (taxBeforeDeduction - taxFreeDeduction)) in
  let ppkEmployee :=
    if ppkEnabled then round2 (brutto * (ppkPercentage / ofZ 100)) else ofZ 0 in
  let netto :=
    round2 (brutto - totalSocialSecurity - healthInsurance - incomeTax
            - ppkEmployee) in
  let breakdown :=
    [ ("brutto", brutto);
      ("pensionContribution", pensionContribution);
      ("disabilityContribution", disabilityContribution);
      ("sicknessContribution", sicknessContribution);
      ("totalSocialSecurity", totalSocialSecurity);
      ("healthInsuranceBase", healthInsuranceBase);
      ("healthInsurance", healthInsurance);
      ("incomeBase", incomeBase);
      ("costOfIncome", costOfIncome);
      ("taxBase", taxBase);
      ("taxBeforeDeduction", taxBeforeDeduction);
      ("taxFreeDeduction", taxFreeDeduction);
      ("incomeTax", incomeTax);
      ("ppkEmployee", ppkEmployee);
      ("netto", netto) ]%string in
  let description :=
    buildSalaryDescription breakdown voluntarySocialSecurity ppkEnabled in
  {|
    SalaryResult.brutto := brutto;
    SalaryResult.netto := netto;
    SalaryResult.pensionContribution := pensionContribution;
    SalaryResult.disabilityContribution := disabilityContribution;
    SalaryResult.sicknessContribution := sicknessContribution;
    SalaryResult.totalSocialSecurity := totalSocialSecurity;
    SalaryResult.healthInsuranceBase := healthInsuranceBase;
    SalaryResult.healthInsurance := healthInsurance;
    SalaryResult.incomeBase := incomeBase;
    SalaryResult.costOfIncome := costOfIncome;
    SalaryResult.taxBase := taxBase;
    SalaryResult.taxBeforeDeduction := taxBeforeDeduction;
    SalaryResult.taxFreeDeduction := taxFreeDeduction;
    SalaryResult.incomeTax := incomeTax;
    SalaryResult.ppkEmployee := ppkEmployee;
    SalaryResult.breakdown := breakdown;
    SalaryResult.description := description
  |}.

End Salary.

(** ** The salary step of project creation (projects.routes.ts)

    The handler of [POST /api/v1/projects] reads the tax settings of the
    user, among them the contract type, and computes the net salary when
    the request carries a gross salary. *)

Inductive ContractType : Set := EMPLOYMENT | CIVIL_CONTRACT | B2B | OTHER.

Module User.
Record t {num : Type} : Type := mk {
  contractType : ContractType;
  voluntarySocialSecurity : bool;
  ppkEnabled : bool;
  ppkPercentage : num
}.
Arguments t : clear implicits.
Arguments mk {num}.
End User.

Section Routes.
Context {num : Type} `{Number num}.

(** The pair (salaryBrutto, salaryNetto) the handler goes on to encrypt
    and store; both absent when the body has no (truthy) gross salary. *)
Definition createProjectSalary (user : User.t num) (salaryBrutto : option num)
  : option num * option num :=
  match salaryBrutto with
  | Some brutto =>
      if truthy brutto then
        let salaryCalc := calculateSalaryNet {|
          SalaryInput.brutto := brutto;
          SalaryInput.voluntarySocialSecurity := User.voluntarySocialSecurity user;
          SalaryInput.ppkEnabled := User.ppkEnabled user;
          SalaryInput.ppkPercentage := User.ppkPercentage user;
          SalaryInput.taxRates := Some TAX_RATES_2024_2025
        |} in
        (Some brutto, Some (SalaryResult.netto salaryCalc))
      else (None, None)
  | None => (None, None)
  end.

End Routes.

(** ** detectDuplicateDocument.ts *)

Inductive DuplicateConfidence : Set := exact | high | medium | low.

Inductive SuggestedAction : Set := merge | add_new | review.

Module DocumentFingerprint.
Record t {num : Type} : Type := mk {
  invoiceNumber : option string;
  amount : option num;
  date : option Date;
  vendorName : option string
}.
Arguments t : clear implicits.
Arguments mk {num}.
End DocumentFingerprint.

Module ExistingDocument.
Record t {num : Type} : Type := mk {
  id : string;
  fingerprint : option string;
  invoiceNumber : option string;
  detectedAmount : option num;
  detectedDate : option Date;
  vendorName : option string;
  originalFilename : string
}.
Arguments t : clear implicits.
Arguments mk {num}.
End ExistingDocument.

Module DuplicateMatch.
Record t {num : Type} : Type := mk {
  id : string;
  invoiceNumber : option string;
  amount : option num;
  date : option Date;
  vendorName : option string;
  originalFilename : string;
  similarity : num;
  matchReason : string
}.
Arguments t : clear implicits.
Arguments mk {num}.
End DuplicateMatch.

Module DuplicateCheckResult.
Record t {num : Type} : Type := mk {
  isDuplicate : bool;
  confidence : option DuplicateConfidence;
  matchedDocuments : list (DuplicateMatch.t num);
  suggestedAction : option SuggestedAction
}.
Arguments t : clear implicits.
Arguments mk {num}.
End DuplicateCheckResult.

Section Duplicates.
Context {num : Type} `{Number num}.
(** [crypto.createHash('sha256').update(s).digest('hex')] *)
Variable sha256 : string -> string.
Local Open Scope js_scope.

Definition normalizeDate (date : Date) : string := isoDate date.

Definition generateDocumentFingerprint (doc : DocumentFingerprint.t num)
  : string :=
  let normalized :=
    String.concat "|"
      [ toLowerCase (trim (match DocumentFingerprint.invoiceNumber doc with
                           | Some s => s
                           | None => EmptyString
                           end));
        toFixed2 (match DocumentFingerprint.amount doc with
                  | Some a => a
                  | None => ofZ 0
                  end);
        match DocumentFingerprint.date doc with
        | Some d => normalizeDate d
        | None => EmptyString
        end ] in
  sha256 normalized.

Definition datesWithinDays (date1 date2 : Date) (days : num) : bool :=
  let diffMs := Math_abs (getTime date1 - getTime date2) in
  let diffDays := diffMs / (ofZ 1000 * ofZ 60 * ofZ 60 * ofZ 24) in
  diffDays <=? days.

Definition amountsMatch (amount1 amount2 : num) : bool :=
  Math_abs (amount1 - amount2) <? ofQ 0.01.

Definition getSimilarityConfidence (similarity : num) : DuplicateConfidence :=
  if similarity >=? ofQ 0.99 then exact
  else if similarity >=? ofQ 0.85 then high
  else if similarity >=? ofQ 0.70 then medium
  else low.

(** The fingerprint of the new document, [null] without enough data. *)
Definition newFingerprintOf (newDoc : DocumentFingerprint.t num)
  : option string :=
  match DocumentFingerprint.invoiceNumber newDoc,
        DocumentFingerprint.amount newDoc,
        DocumentFingerprint.date newDoc with
  | Some invoiceNumber, Some amount, Some _ =>
      if nonEmpty invoiceNumber && truthy amount
      then Some (generateDocumentFingerprint newDoc)
      else None
  | _, _, _ => None
  end.

(** Conditions of the four strategies, as the source writes them. *)
Definition fingerprintsEqual (newFingerprint : option string)
    (existing : ExistingDocument.t num) : bool :=
  match newFingerprint, ExistingDocument.fingerprint existing with
  | Some n, Some e => nonEmpty n && nonEmpty e && (n =? e)%string
  | _, _ => false
  end.

Definition amountAndDate (newDoc : DocumentFingerprint.t num)
    (existing : ExistingDocument.t num) (sameDate : Date -> Date -> bool)
  : bool :=
  match DocumentFingerprint.amount newDoc, DocumentFingerprint.date newDoc,
        ExistingDocument.detectedAmount existing,
        ExistingDocument.detectedDate existing with
  | Some amount, Some date, Some detectedAmount, Some detectedDate =>
      amountsMatch amount detectedAmount && sameDate date detectedDate
  | _, _, _, _ => false
  end.

Definition invoiceNumbersEqual (newDoc : DocumentFingerprint.t num)
    (existing : ExistingDocument.t num) : bool :=
  match DocumentFingerprint.invoiceNumber newDoc,
        ExistingDocument.invoiceNumber existing with
  | Some n, Some e =>
      nonEmpty n && nonEmpty e
      && (toLowerCase (trim n) =? toLowerCase (trim e))%string
  | _, _ => false
  end.

(** The body of the loop: the first strategy that fires gives the
    reason and the similarity; the entry pushed, if any. *)
Definition matchExisting (newDoc : DocumentFingerprint.t num)
    (newFingerprint : option string) (existing : ExistingDocument.t num)
  : option (DuplicateMatch.t num) :=
  let found : option (string * num * DuplicateConfidence) :=
    if fingerprintsEqual newFingerprint existing then
      Some ("Identyczny dokument (faktura + kwota + data)"%string, ofQ 1.0, exact)
    else if amountAndDate newDoc existing
              (fun d1 d2 => (normalizeDate d1 =? normalizeDate d2)%string) then
      Some ("Identyczna kwota i data"%string, ofQ 0.92, high)
    else if amountAndDate newDoc existing
              (fun d1 d2 => datesWithinDays d1 d2 (ofZ 1)) then
      Some ("Identyczna kwota, data ±1 dzień"%string, ofQ 0.78, medium)
    else if invoiceNumbersEqual newDoc existing then
      Some ("Identyczny numer faktury"%string, ofQ 0.6, low)
    else None in
  match found with
  | Some (matchReason, similarity, _) =>
      Some {|
        DuplicateMatch.id := ExistingDocument.id existing;
        DuplicateMatch.invoiceNumber := ExistingDocument.invoiceNumber existing;
        DuplicateMatch.amount := ExistingDocument.detectedAmount existing;
        DuplicateMatch.date := ExistingDocument.detectedDate existing;
        DuplicateMatch.vendorName := ExistingDocument.vendorName existing;
        DuplicateMatch.originalFilename :=
          ExistingDocument.originalFilename existing;
        DuplicateMatch.similarity := similarity;
        DuplicateMatch.matchReason := matchReason
      |}
  | None => None
  end.

(** [matches.sort((a, b) => b.similarity - a.similarity)]: the sort of
    the language is stable; [a] stays before [b] unless the comparator
    is positive. *)
Definition comparator (a b : DuplicateMatch.t num) : num :=
  DuplicateMatch.similarity b - DuplicateMatch.similarity a.

Fixpoint insertMatch (a : DuplicateMatch.t num)
    (sorted : list (DuplicateMatch.t num)) : list (DuplicateMatch.t num) :=
  match sorted with
  | [] => [a]
  | b :: rest =>
      if comparator a b >? ofZ 0 then b :: insertMatch a rest
      else a :: b :: rest
  end.

Fixpoint sortMatches (matches : list (DuplicateMatch.t num))
  : list (DuplicateMatch.t num) :=
  match matches with
  | [] => []
  | a :: rest => insertMatch a (sortMatches rest)
  end.

Fixpoint collectMatches (newDoc : DocumentFingerprint.t num)
    (newFingerprint : option string)
    (existingDocs : list (ExistingDocument.t num))
  : list (DuplicateMatch.t num) :=
  match existingDocs with
  | [] => []
  | existing :: rest =>
      match matchExisting newDoc newFingerprint existing with
      | Some m => m :: collectMatches newDoc newFingerprint rest
      | None => collectMatches newDoc newFingerprint rest
      end
  end.

Definition detectDuplicateDocument (newDoc : DocumentFingerprint.t num)
    (existingDocs : list (ExistingDocument.t num))
  : DuplicateCheckResult.t num :=
  match existingDocs with
  | [] => {| DuplicateCheckResult.isDuplicate := false;
             DuplicateCheckResult.confidence := None;
             DuplicateCheckResult.matchedDocuments := [];
             DuplicateCheckResult.suggestedAction := None |}
  | _ :: _ =>
      let newFingerprint := newFingerprintOf newDoc in
      let matches :=
        sortMatches (collectMatches newDoc newFingerprint existingDocs) in
      match matches with
      | [] => {| DuplicateCheckResult.isDuplicate := false;
                 DuplicateCheckResult.confidence := None;
                 DuplicateCheckResult.matchedDocuments := [];
                 DuplicateCheckResult.suggestedAction := None |}
      | bestMatch :: _ =>
          let confidence :=
            getSimilarityConfidence (DuplicateMatch.similarity bestMatch) in
          let suggestedAction :=
            match confidence with
            | exact | high => merge
            | medium => review
            | low => add_new
            end in
          {| DuplicateCheckResult.isDuplicate := true;
             DuplicateCheckResult.confidence := Some confidence;
             DuplicateCheckResult.matchedDocuments := matches;
             DuplicateCheckResult.suggestedAction := Some suggestedAction |}
      end
  end.

End Duplicates.

(** ** countries.ts *)

Module CountryDiet.
Record t {num : Type} : Type := mk {
  code : string;
  name : string;
  nameEn : string;
  currency : string;
  dailyRate : num;
  accommodation : num
}.
Arguments t : clear implicits.
Arguments mk {num}.
End CountryDiet.


(** [new Map(entries).get(key)]: of two entries with one key the later
    one stays. *)
Fixpoint mapGet {V : Type} (key : string) (entries : list (string * V))
  : option V :=
  match entries with
  | [] => None
  | (k, v) :: rest =>
      match mapGet key rest with
      | Some later => Some later
      | None => if (k =? key)%string then Some v else None
      end
  end.

Section Countries.
Context {num : Type} `{Number num}.

Definition country (code name nameEn currency : string)
    (dailyRate accommodation : Z) : CountryDiet.t num :=
  CountryDiet.mk code name nameEn currency (ofZ dailyRate) (ofZ accommodation).

Definition COUNTRIES : list (CountryDiet.t num) :=
  [
    country "PL" "Polska" "Poland" "PLN" 45 270;
    country "AT" "Austria" "Austria" "EUR" 52 170;
    country "BE" "Belgia" "Belgium" "EUR" 50 170;
    country "BG" "Bułgaria" "Bulgaria" "EUR" 40 100;
    country "HR" "Chorwacja" "Croatia" "EUR" 45 130;
    country "CY" "Cypr" "Cyprus" "EUR" 43 160;
    country "CZ" "Czechy" "Czech Republic" "EUR" 41 130;
    country "DK" "Dania" "Denmark" "DKK" 406 1400;
    country "EE" "Estonia" "Estonia" "EUR" 45 130;
    country "FI" "Finlandia" "Finland" "EUR" 56 170;
    country "FR" "Francja" "France" "EUR" 50 180;
    country "GR" "Grecja" "Greece" "EUR" 48 130;
    country "ES" "Hiszpania" "Spain" "EUR" 50 160;
    country "NL" "Holandia" "Netherlands" "EUR" 50 170;
    country "IE" "Irlandia" "Ireland" "EUR" 53 200;
    country "IS" "Islandia" "Iceland" "EUR" 57 250;
    country "LT" "Litwa" "Lithuania" "EUR" 45 120;
    country "LU" "Luksemburg" "Luxembourg" "EUR" 50 180;
    country "LV" "Łotwa" "Latvia" "EUR" 45 130;
    country "MT" "Malta" "Malta" "EUR" 43 130;
    country "DE" "Niemcy" "Germany" "EUR" 49 170;
    country "NO" "Norwegia" "Norway" "NOK" 500 1700;
    country "PT" "Portugalia" "Portugal" "EUR" 46 130;
    country "RO" "Rumunia" "Romania" "EUR" 40 120;
    country "SK" "Słowacja" "Slovakia" "EUR" 43 130;
    country "SI" "Słowenia" "Slovenia" "EUR" 43 130;
    country "SE" "Szwecja" "Sweden" "SEK" 500 1700;
    country "CH" "Szwajcaria" "Switzerland" "CHF" 88 280;
    country "HU" "Węgry" "Hungary" "EUR" 40 120;
    country "IT" "Włochy" "Italy" "EUR" 48 160;
    country "GB" "Wielka Brytania" "United Kingdom" "GBP" 45 220;
    country "AL" "Albania" "Albania" "EUR" 40 100;
    country "BA" "Bośnia i Hercegowina" "Bosnia and Herzegovina" "EUR" 40 100;
    country "BY" "Białoruś" "Belarus" "EUR" 40 100;
    country "RS" "Serbia" "Serbia" "EUR" 40 100;
    country "UA" "Ukraina" "Ukraine" "EUR" 43 130;
    country "TR" "Turcja" "Turkey" "USD" 45 140;
    country "US" "USA" "United States" "USD" 59 200;
    country "CA" "Kanada" "Canada" "USD" 55 180;
    country "MX" "Meksyk" "Mexico" "USD" 48 150;
    country "BR" "Brazylia" "Brazil" "USD" 48 150;
    country "AR" "Argentyna" "Argentina" "USD" 46 140;
    country "CN" "Chiny" "China" "USD" 50 140;
    country "JP" "Japonia" "Japan" "USD" 61 220;
    country "KR" "Korea Południowa" "South Korea" "USD" 52 170;
    country "IN" "Indie" "India" "USD" 45 130;
    country "SG" "Singapur" "Singapore" "USD" 64 230;
    country "AE" "Zjednoczone Emiraty Arabskie" "United Arab Emirates" "USD" 56 200;
    country "IL" "Izrael" "Israel" "USD" 56 200;
    country "TH" "Tajlandia" "Thailand" "USD" 48 130;
    country "VN" "Wietnam" "Vietnam" "USD" 45 120;
    country "PH" "Filipiny" "Philippines" "USD" 45 120;
    country "MY" "Malezja" "Malaysia" "USD" 47 130;
    country "ID" "Indonezja" "Indonesia" "USD" 45 120;
    country "SA" "Arabia Saudyjska" "Saudi Arabia" "USD" 56 200;
    country "ZA" "Republika Południowej Afryki" "South Africa" "USD" 45 130;
    country "EG" "Egipt" "Egypt" "USD" 43 120;
    country "MA" "Maroko" "Morocco" "USD" 43 120;
    country "NG" "Nigeria" "Nigeria" "USD" 45 130;
    country "KE" "Kenia" "Kenya" "USD" 43 120;
    country "AU" "Australia" "Australia" "AUD" 88 280;
    country "NZ" "Nowa Zelandia" "New Zealand" "NZD" 83 250;
    country "RU" "Rosja" "Russia" "EUR" 47 140;
    country "KZ" "Kazachstan" "Kazakhstan" "USD" 45 130
  ]%string.

Definition COUNTRIES_BY_CODE : list (string * CountryDiet.t num) :=
  map (fun c => (CountryDiet.code c, c)) COUNTRIES.

Definition COUNTRIES_BY_NAME : list (string * CountryDiet.t num) :=
  map (fun c => (toLowerCase (CountryDiet.name c), c)) COUNTRIES.

Definition getCountryByCode (code : string) : option (CountryDiet.t num) :=
  mapGet (toUpperCase code) COUNTRIES_BY_CODE.


End Countries.

(** ** The country step of project creation (projects.routes.ts)

    The handler looks the country up and freezes its currency, daily rate
    and accommodation limit in the project; an unknown code is answered
    with status 400. *)

Module CountrySnapshot.
Record t {num : Type} : Type := mk {
  countryName : string;
  currency : string;
  dietAmountSnapshot : num;
  hotelLimitSnapshot : num
}.
Arguments t : clear implicits.
Arguments mk {num}.
End CountrySnapshot.

Section CountryRoutes.
Context {num : Type} `{Number num}.


End CountryRoutes.

(** * Vocabulary of the properties

    Names for the quantities the statements below speak about, and the
    inputs of the worked examples. *)

(** The end instant that governs the calculation in each mode. *)
Definition effectiveEnd {num : Type} (now : Date) (input : DietInput.t num)
  : option Date :=
  match DietInput.mode input with
  | LIVE => Some now
  | PLANNED => DietInput.plannedEndDatetime input
  | CLOSED => DietInput.actualEndDatetime input
  end.

(** The message of a trip that has not started. *)
Definition notStartedText : string :=
  "Delegacja jeszcze się nie zaczęła lub ma zerowy czas trwania.".

Section Quantities.
Context {num : Type} `{Number num}.
Local Open Scope js_scope.

(** The diet input that [calculateProjectBalance] hands over. *)
Definition dietInputOf (project : Project.t num) : DietInput.t num := {|
  DietInput.startDatetime := Project.startDatetime project;
  DietInput.plannedEndDatetime := Project.plannedEndDatetime project;
  DietInput.actualEndDatetime := Project.actualEndDatetime project;
  DietInput.mode :=
    getDietMode (Project.status project) (Project.actualEndDatetime project);
  DietInput.dailyRate := Project.dietAmountSnapshot project;
  DietInput.currency := Project.currency project;
  DietInput.breakfastCount := Some (Project.breakfastCount project)
|}.

(** The quantities [calculateDiet] computes on the way, as functions of
    the elapsed hours. *)
Definition hoursBetween (startDatetime endDatetime : Date) : num :=
  (getTime endDatetime - getTime startDatetime) / msPerHour.

Definition remainingHoursOf (totalHours : num) : num := totalHours %% ofZ 24.

Definition totalDaysOf (totalHours : num) : num :=
  Math_floor (totalHours / ofZ 24)
  + (if remainingHoursOf totalHours >? ofZ 0
     then getMultiplierForHours (remainingHoursOf totalHours)
     else ofZ 0).

Definition grossDietOf (dailyRate totalHours : num) : num :=
  totalDaysOf totalHours * dailyRate.

Definition totalDietOf (dailyRate breakfastCount totalHours : num) : num :=
  let dietBeforeBreakfast := grossDietOf dailyRate totalHours in
  Math_max (ofZ 0)
    (dietBeforeBreakfast
     - Math_min (breakfastCount * (dailyRate * ofQ 0.25)) dietBeforeBreakfast).

Definition breakfastsOf (input : DietInput.t num) : num :=
  match DietInput.breakfastCount input with
  | Some b => b
  | None => ofZ 0
  end.

End Quantities.

(** ** Quantities in exact arithmetic *)

(** Elapsed hours between two instants, and their remainder modulo 24. *)
Definition elapsedHours (startDatetime endDatetime : Date) : Q :=
  inject_Z (endDatetime - startDatetime) / 3600000.

Definition hoursMod24 (hours : Q) : Q :=
  hours - 24 * inject_Z (Qfloor (hours / 24)).

(** The fraction of a day granted for a remainder. *)
Definition partialDayFractionOf (x : Q) : Q :=
  if Q_ltb 0 x then getMultiplierForHours x else 0.

(** The figures of a diet result in exact arithmetic. *)
Definition dietFiguresAre (r : DietResult.t Q)
    (fullDays multiplier totalDays gross deduction total : Q) : Prop :=
  DietResult.fullDays r == fullDays
  /\ DietResult.partialDayMultiplier r == multiplier
  /\ DietResult.totalDays r == totalDays
  /\ DietResult.dietBeforeBreakfast r == gross
  /\ DietResult.breakfastDeduction r == deduction
  /\ DietResult.totalDiet r == total.

(** The same figures as doubles. *)
Definition dietDoubles (r : DietResult.t float) : list float :=
  [ DietResult.fullDays r; DietResult.partialDayMultiplier r;
    DietResult.totalDays r; DietResult.dietBeforeBreakfast r;
    DietResult.breakfastDeduction r; DietResult.totalDiet r ].

(** The figures of a salary result, exact and as doubles. *)
Definition salaryFiguresAre (r : SalaryResult.t Q)
    (pension disability social healthBase health cost taxBase taxBefore
       taxFree incomeTax netto : Q) : Prop :=
  SalaryResult.pensionContribution r == pension
  /\ SalaryResult.disabilityContribution r == disability
  /\ SalaryResult.totalSocialSecurity r == social
  /\ SalaryResult.healthInsuranceBase r == healthBase
  /\ SalaryResult.healthInsurance r == health
  /\ SalaryResult.costOfIncome r == cost
  /\ SalaryResult.taxBase r == taxBase
  /\ SalaryResult.taxBeforeDeduction r == taxBefore
  /\ SalaryResult.taxFreeDeduction r == taxFree
  /\ SalaryResult.incomeTax r == incomeTax
  /\ SalaryResult.netto r == netto.

Definition salaryDoubles (r : SalaryResult.t float) : list float :=
  [ SalaryResult.pensionContribution r; SalaryResult.disabilityContribution r;
    SalaryResult.totalSocialSecurity r; SalaryResult.healthInsuranceBase r;
    SalaryResult.healthInsurance r; SalaryResult.costOfIncome r;
    SalaryResult.taxBase r; SalaryResult.taxBeforeDeduction r;
    SalaryResult.taxFreeDeduction r; SalaryResult.incomeTax r;
    SalaryResult.netto r ].

(** The user with another contract type, the tax settings unchanged. *)
Definition withContractType {num : Type} (contractType : ContractType)
    (user : User.t num) : User.t num := {|
  User.contractType := contractType;
  User.voluntarySocialSecurity := User.voluntarySocialSecurity user;
  User.ppkEnabled := User.ppkEnabled user;
  User.ppkPercentage := User.ppkPercentage user
|}.

(** "At least as similar as": the order of the result list. *)
Definition descending (a b : DuplicateMatch.t Q) : Prop :=
  DuplicateMatch.similarity b <= DuplicateMatch.similarity a.

(** The action the specification attaches to a confidence tier. *)
Definition actionFor (confidence : DuplicateConfidence) : SuggestedAction :=
  match confidence with
  | exact | high => merge
  | medium => review
  | low => add_new
  end.

(** The reason text of the exact-fingerprint strategy. *)
Definition exactReason : string := "Identyczny dokument (faktura + kwota + data)".

(** An existing document with its stored fingerprint removed. *)
Definition withoutFingerprint (existing : ExistingDocument.t Q)
  : ExistingDocument.t Q := {|
  ExistingDocument.id := ExistingDocument.id existing;
  ExistingDocument.fingerprint := None;
  ExistingDocument.invoiceNumber := ExistingDocument.invoiceNumber existing;
  ExistingDocument.detectedAmount := ExistingDocument.detectedAmount existing;
  ExistingDocument.detectedDate := ExistingDocument.detectedDate existing;
  ExistingDocument.vendorName := ExistingDocument.vendorName existing;
  ExistingDocument.originalFilename := ExistingDocument.originalFilename existing
|}.

(** A stand-in for the digest in the examples. *)
Definition plainDigest (s : string) : string := s.

(** A string of white space only. *)
Fixpoint allWhite (s : string) : bool :=
  match s with
  | EmptyString => true
  | String c s' => is_white c && allWhite s'
  end.

(** How pressing a suggestion is: none, add_new, review, merge. *)
Definition urgency (action : option SuggestedAction) : nat :=
  match action with
  | None => 0
  | Some add_new => 1
  | Some review => 2
  | Some merge => 3
  end.

(** A new document with the given invoice number and amount, the other
    fields kept. *)
Definition withInvoice (invoiceNumber : string) (amount : Q)
    (doc : DocumentFingerprint.t Q) : DocumentFingerprint.t Q := {|
  DocumentFingerprint.invoiceNumber := Some invoiceNumber;
  DocumentFingerprint.amount := Some amount;
  DocumentFingerprint.date := DocumentFingerprint.date doc;
  DocumentFingerprint.vendorName := DocumentFingerprint.vendorName doc
|}.

(** The conditions of the second, third and fourth strategy. *)
Definition sameAmountSameDay (newDoc : DocumentFingerprint.t Q)
    (existing : ExistingDocument.t Q) : bool :=
  amountAndDate newDoc existing
    (fun d1 d2 => (normalizeDate d1 =? normalizeDate d2)%string).

Definition sameAmountNearDay (newDoc : DocumentFingerprint.t Q)
    (existing : ExistingDocument.t Q) : bool :=
  amountAndDate newDoc existing
    (fun d1 d2 => @datesWithinDays Q _ d1 d2 (ofZ 1)).

(** The reason text of the invoice-number strategy. *)
Definition invoiceReason : string := "Identyczny numer faktury".

(** The sum of a list of amounts. *)
Definition sumQ (amounts : list Q) : Q := fold_right Qplus 0 amounts.

(** Whether an amount is a whole number of cents. *)
Definition wholeCents (x : Q) : bool :=
  Qeq_bool (inject_Z (Qfloor (x * 100))) (x * 100).

(** The transactions that count: neither private nor excluded. *)
Definition isValid {num : Type} (t : TransactionSummary.t num) : bool :=
  negb (TransactionSummary.isPrivate t)
  && negb (TransactionSummary.excludedFromProject t).

(** The category total a transaction is booked under. *)
Definition bucketOf (category : string) : string :=
  let cat := toUpperCase category in
  if (cat =? "FOOD")%string then cat
  else if (cat =? "TRANSPORT")%string then cat
  else if (cat =? "HOTEL")%string then cat
  else if (cat =? "PARKING")%string then cat
  else if (cat =? "FUEL")%string then cat
  else "OTHER"%string.

(** The amounts of the valid transactions booked under a total. *)
Definition amountsIn (bucket : string) (transactions : list (TransactionSummary.t Q))
  : list Q :=
  map TransactionSummary.amount
      (filter (fun t => (bucketOf (TransactionSummary.category t) =? bucket)%string)
              (filter isValid transactions)).

(** The input with another list of transactions. *)
Definition withTransactions {num : Type} (input : ProjectBalanceInput.t num)
    (transactions : list (TransactionSummary.t num)) : ProjectBalanceInput.t num :=
  {| ProjectBalanceInput.project := ProjectBalanceInput.project input;
     ProjectBalanceInput.transactions := transactions;
     ProjectBalanceInput.advances := ProjectBalanceInput.advances input |}.

(** [Object.entries(categoryTotals)]. *)
Definition categoryEntries {num : Type} (totals : CategoryTotals.t num)
  : list (string * num) :=
  [ ("FOOD", CategoryTotals.FOOD totals);
    ("TRANSPORT", CategoryTotals.TRANSPORT totals);
    ("HOTEL", CategoryTotals.HOTEL totals);
    ("PARKING", CategoryTotals.PARKING totals);
    ("FUEL", CategoryTotals.FUEL totals);
    ("OTHER", CategoryTotals.OTHER totals) ]%string.

(** Every category total is a whole number of cents. *)
Definition centTotals (totals : CategoryTotals.t Q) : Prop :=
  Forall (fun v => wholeCents v = true) (categoryValues totals).

(** What a transaction adds to the total of a given name. *)
Definition shareOf (bucket : string) (t : TransactionSummary.t Q) : Q :=
  if (bucketOf (TransactionSummary.category t) =? bucket)%string
  then TransactionSummary.amount t else 0.

(** The rates a salary calculation uses. *)
Definition ratesOf {num : Type} `{Number num} (input : SalaryInput.t num)
  : TaxRates.t num :=
  match SalaryInput.taxRates input with
  | Some r => r
  | None => TAX_RATES_2024_2025
  end.




(** ** Example inputs *)

(** The trip 2024-01-10T08:00Z to 2024-01-12T14:00Z, 54 hours, at 45 a day
    with one breakfast.  Both end fields carry the end; [mode] selects
    which one governs. *)
Definition winterTrip {num : Type} `{Number num} (mode : DietMode)
  : DietInput.t num := {|
  DietInput.startDatetime := 1704873600000%Z;
  DietInput.plannedEndDatetime := Some 1705068000000%Z;
  DietInput.actualEndDatetime := Some 1705068000000%Z;
  DietInput.mode := mode;
  DietInput.dailyRate := ofZ 45;
  DietInput.currency := "PLN";
  DietInput.breakfastCount := Some (ofZ 1)
|}.

Definition winterTripEnd : Date := 1705068000000%Z.

(** A closed trip whose actual end equals its start. *)
Definition zeroLengthTrip : DietInput.t Q := {|
  DietInput.startDatetime := 1704873600000%Z;
  DietInput.plannedEndDatetime := None;
  DietInput.actualEndDatetime := Some 1704873600000%Z;
  DietInput.mode := CLOSED;
  DietInput.dailyRate := 45;
  DietInput.currency := "PLN";
  DietInput.breakfastCount := None
|}.

(** A closed trip of 32 hours: one full day and a remainder of exactly
    eight hours. *)
Definition trip32h : DietInput.t Q := {|
  DietInput.startDatetime := 1704873600000%Z;
  DietInput.plannedEndDatetime := None;
  DietInput.actualEndDatetime := Some (1704873600000 + 32 * 3600000)%Z;
  DietInput.mode := CLOSED;
  DietInput.dailyRate := 45;
  DietInput.currency := "PLN";
  DietInput.breakfastCount := None
|}.

(** The 54-hour trip of [winterTrip], closed, and the same trip, with its
    breakfast, cut short after 32 hours. *)
Definition trip54h : DietInput.t Q := winterTrip CLOSED.

Definition trip32hBreakfast : DietInput.t Q := {|
  DietInput.startDatetime := 1704873600000%Z;
  DietInput.plannedEndDatetime := None;
  DietInput.actualEndDatetime := Some (1704873600000 + 32 * 3600000)%Z;
  DietInput.mode := CLOSED;
  DietInput.dailyRate := 45;
  DietInput.currency := "PLN";
  DietInput.breakfastCount := Some 1
|}.

(** A closed trip with one hotel bill of 300 against a limit of 270. *)
Definition hotelOverLimit : ProjectBalanceInput.t Q := {|
  ProjectBalanceInput.project := {|
    Project.startDatetime := 1704873600000%Z;
    Project.plannedEndDatetime := Some 1705068000000%Z;
    Project.actualEndDatetime := Some 1705068000000%Z;
    Project.status := Status_CLOSED;
    Project.dietAmountSnapshot := 45;
    Project.hotelLimitSnapshot := 270;
    Project.currency := "PLN";
    Project.breakfastCount := 1
  |};
  ProjectBalanceInput.transactions :=
    [ TransactionSummary.mk "t1" 1704900000000%Z 300 "HOTEL" false false;
      TransactionSummary.mk "t2" 1704900000000%Z 50 "FOOD" false false;
      TransactionSummary.mk "t3" 1704900000000%Z 80 "HOTEL" true false ];
  ProjectBalanceInput.advances :=
    [ AdvanceSummary.mk "a1" 1704800000000%Z 500 ]
|}.

(** Gross 5000, no voluntary sickness insurance, no PPK. *)
Definition gross5000 {num : Type} `{Number num} (ppkPercentage : num)
    (rates : option (TaxRates.t num)) : SalaryInput.t num := {|
  SalaryInput.brutto := ofZ 5000;
  SalaryInput.voluntarySocialSecurity := false;
  SalaryInput.ppkEnabled := false;
  SalaryInput.ppkPercentage := ppkPercentage;
  SalaryInput.taxRates := rates
|}.

(** A user of the given contract type, without voluntary insurance and
    without PPK. *)
Definition userOn (contractType : ContractType) : User.t Q := {|
  User.contractType := contractType;
  User.voluntarySocialSecurity := false;
  User.ppkEnabled := false;
  User.ppkPercentage := 2
|}.

(** A receipt of 120.50 dated 2024-03-01, without invoice number. *)
Definition receipt120 : DocumentFingerprint.t Q :=
  DocumentFingerprint.mk None (Some 120.50) (Some 1709251200000%Z) None.

(** Receipts of the same amount dated the next day and the same day. *)
Definition nextDayReceipt : ExistingDocument.t Q :=
  ExistingDocument.mk "r1" None None (Some 120.50)
    (Some 1709337600000%Z) None "a.jpg".

Definition sameDayReceipt : ExistingDocument.t Q :=
  ExistingDocument.mk "r2" None None (Some 120.50)
    (Some 1709251200000%Z) None "b.jpg".

(** A stored receipt that shares nothing with it. *)
Definition unrelatedReceipt : ExistingDocument.t Q :=
  ExistingDocument.mk "r9" None (Some "FV/9"%string) (Some 40)
    (Some 1701388800000%Z) None "lunch.jpg".

(** An invoice of amount zero, and the same invoice as stored earlier,
    with the fingerprint the upload path computed for it. *)
Definition zeroInvoice : DocumentFingerprint.t Q :=
  DocumentFingerprint.mk (Some "FV/1"%string) (Some 0) (Some 1709251200000%Z) None.

Definition storedZeroInvoice : ExistingDocument.t Q :=
  ExistingDocument.mk "r1"
    (Some (generateDocumentFingerprint plainDigest zeroInvoice))
    (Some "fv/1"%string) (Some 0) (Some 1709251200000%Z) None "fv1.pdf".

(** An upload of which only the invoice number was read, and a stored
    invoice with that number in another spelling. *)
Definition invoiceOnly : DocumentFingerprint.t Q :=
  DocumentFingerprint.mk (Some " fv/7 "%string) None None None.

Definition storedInvoice7 : ExistingDocument.t Q :=
  ExistingDocument.mk "r7" (Some "abc"%string) (Some "FV/7"%string) (Some 99)
    (Some 1709251200000%Z) None "fv7.pdf".

(** A planned trip of exactly two days. *)
Definition trip48h : DietInput.t Q := {|
  DietInput.startDatetime := 1704873600000%Z;
  DietInput.plannedEndDatetime := Some (1704873600000 + 2 * 86400000)%Z;
  DietInput.actualEndDatetime := None;
  DietInput.mode := PLANNED;
  DietInput.dailyRate := 45;
  DietInput.currency := "PLN";
  DietInput.breakfastCount := None
|}.

(** A gross salary of 1234.56 with voluntary sickness insurance and
    PPK at 2 per cent, at the default rates. *)
Definition salary1234 : SalaryInput.t Q := {|
  SalaryInput.brutto := 1234.56;
  SalaryInput.voluntarySocialSecurity := true;
  SalaryInput.ppkEnabled := true;
  SalaryInput.ppkPercentage := 2;
  SalaryInput.taxRates := None
|}.

(** * Properties *)

(** ** Facts about the exact instance *)

Lemma Q_ltb_lt (a b : Q) : Q_ltb a b = true <-> a < b.
Proof.
  unfold Q_ltb. rewrite negb_true_iff.
  split; intro Hab.
  - apply Qnot_le_lt. intro Hle. apply Qle_bool_iff in Hle. congruence.
  - destruct (Qle_bool b a) eqn:E; [|reflexivity].
    apply Qle_bool_iff in E. exfalso. exact (Qlt_not_le _ _ Hab E).
Qed.

Lemma Q_ltb_ge (a b : Q) : Q_ltb a b = false <-> b <= a.
Proof.
  unfold Q_ltb. rewrite negb_false_iff. apply Qle_bool_iff.
Qed.

Lemma Q_leb_gt (a b : Q) : Qle_bool a b = false <-> b < a.
Proof.
  rewrite <- Q_ltb_lt. unfold Q_ltb. destruct (Qle_bool a b); simpl; intuition congruence.
Qed.

Lemma Q_round_mono (a b : Q) : a <= b -> Q_round a <= Q_round b.
Proof.
  intro Hab. unfold Q_round. rewrite <- Zle_Qle.
  apply Qfloor_resp_le. lra.
Qed.

Lemma Q_round_nonneg (a : Q) : 0 <= a -> 0 <= Q_round a.
Proof.
  intro Ha. apply (Q_round_mono 0 a Ha).
Qed.

Lemma round2_Q (v : Q) : round2 v = Q_round (v * 100) / 100.
Proof. reflexivity. Qed.

Lemma round2_mono (a b : Q) : a <= b -> round2 a <= round2 b.
Proof.
  intro Hab. rewrite !round2_Q.
  apply Qmult_le_compat_r; [|discriminate].
  apply Q_round_mono. lra.
Qed.

Lemma round2_nonneg (a : Q) : 0 <= a -> 0 <= round2 a.
Proof.
  intro Ha. apply Qle_trans with (round2 0); [discriminate|].
  now apply round2_mono.
Qed.

Ltac bool_to_Q :=
  repeat match goal with
    | H : Q_ltb _ _ = true |- _ => apply Q_ltb_lt in H
    | H : Q_ltb _ _ = false |- _ => apply Q_ltb_ge in H
    | H : Qle_bool _ _ = true |- _ => apply Qle_bool_iff in H
    | H : Qle_bool _ _ = false |- _ => apply Q_leb_gt in H
    end.

(** ** The diet calculator: outcomes *)

Section DietOutcomes.
Context {num : Type} `{Number num}.

Lemma calculateDiet_Throw (now : Date) (input : DietInput.t num) (msg : string) :
  calculateDiet now input = Throw msg ->
  effectiveEnd now input = None.
Proof.
  unfold calculateDiet, effectiveEnd.
  destruct (DietInput.mode input); cbn.
  - destruct (now <=? _)%Z; discriminate.
  - destruct (DietInput.plannedEndDatetime input) as [e|]; cbn; [|reflexivity].
    destruct (e <=? _)%Z; discriminate.
  - destruct (DietInput.actualEndDatetime input) as [e|]; cbn; [|reflexivity].
    destruct (e <=? _)%Z; discriminate.
Qed.

Lemma calculateDiet_no_end (now : Date) (input : DietInput.t num) :
  effectiveEnd now input = None ->
  exists msg, calculateDiet now input = Throw msg.
Proof.
  unfold calculateDiet, effectiveEnd.
  destruct (DietInput.mode input); cbn.
  - discriminate.
  - intros ->. cbn. eauto.
  - intros ->. cbn. eauto.
Qed.

Lemma effectiveEnd_None (now : Date) (input : DietInput.t num) :
  effectiveEnd now input = None <->
  (DietInput.mode input = PLANNED /\ DietInput.plannedEndDatetime input = None)
  \/ (DietInput.mode input = CLOSED /\ DietInput.actualEndDatetime input = None).
Proof.
  unfold effectiveEnd.
  destruct (DietInput.mode input); intuition congruence.
Qed.

Lemma calculateDiet_not_started (now : Date) (input : DietInput.t num) (e : Date) :
  effectiveEnd now input = Some e ->
  (e <= DietInput.startDatetime input)%Z ->
  calculateDiet now input =
  Return {|
    DietResult.fullDays := ofZ 0;
    DietResult.partialDay := ofZ 0;
    DietResult.partialDayMultiplier := ofZ 0;
    DietResult.totalDays := ofZ 0;
    DietResult.dietBeforeBreakfast := ofZ 0;
    DietResult.breakfastDeduction := ofZ 0;
    DietResult.totalDiet := ofZ 0;
    DietResult.currency := DietInput.currency input;
    DietResult.breakdown := Literal notStartedText;
    DietResult.detailedBreakdown := [];
    DietResult.endDatetime := e;
    DietResult.isLive :=
      match DietInput.mode input with LIVE => true | _ => false end
  |}.
Proof.
  unfold calculateDiet, effectiveEnd.
  intros He Hle. apply Z.leb_le in Hle.
  destruct (DietInput.mode input); cbn.
  - injection He as ->. now rewrite Hle.
  - rewrite He. cbn. now rewrite Hle.
  - rewrite He. cbn. now rewrite Hle.
Qed.

(** C5.  [calculateDiet] throws exactly in PLANNED mode without a
    planned end and in CLOSED mode without an actual end.  When the
    governing end is not after the start it returns: every figure of
    the result is zero and the breakdown is the fixed "not started"
    message. *)
Theorem calculateDiet_error_taxonomy (now : Date) (input : DietInput.t num) :
  ((exists msg, calculateDiet now input = Throw msg) <->
   (DietInput.mode input = PLANNED /\ DietInput.plannedEndDatetime input = None)
   \/ (DietInput.mode input = CLOSED /\ DietInput.actualEndDatetime input = None))
  /\
  (forall e : Date,
     effectiveEnd now input = Some e ->
     (e <= DietInput.startDatetime input)%Z ->
     exists r,
       calculateDiet now input = Return r
       /\ DietResult.fullDays r = ofZ 0
       /\ DietResult.partialDay r = ofZ 0
       /\ DietResult.partialDayMultiplier r = ofZ 0
       /\ DietResult.totalDays r = ofZ 0
       /\ DietResult.dietBeforeBreakfast r = ofZ 0
       /\ DietResult.breakfastDeduction r = ofZ 0
       /\ DietResult.totalDiet r = ofZ 0
       /\ DietResult.breakdown r = Literal notStartedText).
Proof.
  split.
  - rewrite <- effectiveEnd_None. split.
    + intros [msg Hmsg]. exact (calculateDiet_Throw _ _ _ Hmsg).
    + apply calculateDiet_no_end.
  - intros e He Hle. eexists. split.
    + exact (calculateDiet_not_started _ _ _ He Hle).
    + cbn. repeat split.
Qed.

End DietOutcomes.

Lemma calculateDiet_error_taxonomy_witness :
  exists r,
    calculateDiet 0%Z zeroLengthTrip = Return r
    /\ DietResult.totalDiet r = 0
    /\ DietResult.breakdown r = Literal notStartedText.
Proof.
  destruct (proj2 (calculateDiet_error_taxonomy 0%Z zeroLengthTrip)
              1704873600000%Z eq_refl ltac:(simpl; lia))
    as (r & Hr & _ & _ & _ & _ & _ & _ & Hdiet & Htext).
  exists r. repeat split; assumption.
Defined.

(** ** The project balance *)

Section BalanceOutcomes.
Context {num : Type} `{Number num}.
Local Open Scope js_scope.

(** The hotel figures of a returned balance are decided by its
    [hotelCombined] and [hotelLimit] alone, and the balance is formed
    from the three totals of the same result. *)
Lemma calculateProjectBalance_Return (nowDiet nowStats : Date)
    (input : ProjectBalanceInput.t num) (r : ProjectBalanceResult.t num) :
  calculateProjectBalance nowDiet nowStats input = Return r ->
  calculateDiet nowDiet (dietInputOf (ProjectBalanceInput.project input))
    = Return (ProjectBalanceResult.diet r)
  /\ ProjectBalanceResult.hotelLimit r
     = Project.hotelLimitSnapshot (ProjectBalanceInput.project input)
  /\ ProjectBalanceResult.categoryTotals r
     = fold_left addToCategory
         (filter (fun t => negb (TransactionSummary.isPrivate t)
                           && negb (TransactionSummary.excludedFromProject t))
                 (ProjectBalanceInput.transactions input))
         (CategoryTotals.mk (ofZ 0) (ofZ 0) (ofZ 0) (ofZ 0) (ofZ 0) (ofZ 0))
  /\ ProjectBalanceResult.hotelCombined r
     = round2 (CategoryTotals.HOTEL (ProjectBalanceResult.categoryTotals r)
               + CategoryTotals.PARKING (ProjectBalanceResult.categoryTotals r))
  /\ (ProjectBalanceResult.hotelStatus r, ProjectBalanceResult.hotelOverage r)
     = (if ProjectBalanceResult.hotelCombined r >? ofZ 0 then
          if ProjectBalanceResult.hotelCombined r
             <=? ProjectBalanceResult.hotelLimit r
          then (within_limit, ofZ 0)
          else (over_limit,
                round2 (ProjectBalanceResult.hotelCombined r
                        - ProjectBalanceResult.hotelLimit r))
        else (no_hotel, ofZ 0))
  /\ ProjectBalanceResult.balance r
     = round2 (ProjectBalanceResult.advancesTotal r
               - ProjectBalanceResult.expensesTotal r
               + DietResult.totalDiet (ProjectBalanceResult.diet r)).
Proof.
  unfold calculateProjectBalance.
  fold (dietInputOf (ProjectBalanceInput.project input)).
  set (totals := fold_left addToCategory _ _).
  set (hotelCombined :=
         round2 (CategoryTotals.HOTEL totals + CategoryTotals.PARKING totals)).
  destruct (calculateDiet nowDiet _) as [diet|msg]; unfold bind.
  - destruct (hotelCombined >? ofZ 0) eqn:Hpos;
      [destruct (hotelCombined <=? _) eqn:Hle|];
      cbv beta iota; intro Hr; injection Hr as <-;
      cbv beta iota delta [ProjectBalanceResult.diet
        ProjectBalanceResult.hotelLimit ProjectBalanceResult.hotelStatus
        ProjectBalanceResult.hotelOverage ProjectBalanceResult.hotelCombined
        ProjectBalanceResult.balance ProjectBalanceResult.advancesTotal
        ProjectBalanceResult.expensesTotal ProjectBalanceResult.categoryTotals];
      rewrite ?Hpos, ?Hle; repeat split.
  - destruct (_ >? _); [destruct (_ <=? _)|]; discriminate.
Qed.

Lemma calculateProjectBalance_Throw (nowDiet nowStats : Date)
    (input : ProjectBalanceInput.t num) (msg : string) :
  calculateProjectBalance nowDiet nowStats input = Throw msg ->
  calculateDiet nowDiet (dietInputOf (ProjectBalanceInput.project input))
    = Throw msg.
Proof.
  unfold calculateProjectBalance.
  fold (dietInputOf (ProjectBalanceInput.project input)).
  destruct (calculateDiet nowDiet _) as [diet|msg']; unfold bind.
  - destruct (_ >? _); [destruct (_ <=? _)|]; discriminate.
  - destruct (_ >? _); [destruct (_ <=? _)|]; congruence.
Qed.

(** C1.  Whenever [calculateProjectBalance] returns, the balance of the
    result is [round2 (advancesTotal - expensesTotal + diet.totalDiet)]
    of the same result.  It returns unless the diet calculation
    throws, which happens only for a project without planned end that
    is a draft, or closed without an actual end. *)
Theorem balance_identity (nowDiet nowStats : Date)
    (input : ProjectBalanceInput.t num) :
  match calculateProjectBalance nowDiet nowStats input with
  | Return r =>
      ProjectBalanceResult.balance r
      = round2 (ProjectBalanceResult.advancesTotal r
                - ProjectBalanceResult.expensesTotal r
                + DietResult.totalDiet (ProjectBalanceResult.diet r))
  | Throw _ =>
      let project := ProjectBalanceInput.project input in
      Project.plannedEndDatetime project = None
      /\ (Project.status project = Status_DRAFT
          \/ (Project.status project = Status_CLOSED
              /\ Project.actualEndDatetime project = None))
  end.
Proof.
  destruct (calculateProjectBalance nowDiet nowStats input) as [r|msg] eqn:E.
  - apply (calculateProjectBalance_Return _ _ _ _ E).
  - apply calculateProjectBalance_Throw, calculateDiet_Throw in E.
    revert E. unfold effectiveEnd, dietInputOf, getDietMode. cbn.
    destruct (Project.status _), (Project.actualEndDatetime _);
      intro E; try discriminate; split; auto.
Qed.

End BalanceOutcomes.

Lemma hotel_figures (nowDiet nowStats : Date) (input : ProjectBalanceInput.t Q)
    (r : ProjectBalanceResult.t Q) :
  calculateProjectBalance nowDiet nowStats input = Return r ->
  let hotelCombined := ProjectBalanceResult.hotelCombined r in
  let hotelLimit := ProjectBalanceResult.hotelLimit r in
  (ProjectBalanceResult.hotelStatus r, ProjectBalanceResult.hotelOverage r)
  = (if Q_ltb 0 hotelCombined then
       if Qle_bool hotelCombined hotelLimit then (within_limit, 0)
       else (over_limit, round2 (hotelCombined - hotelLimit))
     else (no_hotel, 0)).
Proof.
  intro Hr.
  destruct (calculateProjectBalance_Return _ _ _ _ Hr) as (_ & _ & _ & _ & Hfig & _).
  exact Hfig.
Qed.

(** C8.  In a returned balance the combined hotel and parking total is
    the rounded sum of the HOTEL and PARKING totals, which are
    accumulated over the transactions that are neither private nor
    excluded.  A total of zero is [no_hotel]; a positive total up to the
    limit, the limit included, is [within_limit] with no overage; a
    total above the limit, the limit not being negative, is [over_limit]
    with the overage [round2 (hotelCombined - hotelLimit)]. *)
Theorem hotel_classification (nowDiet nowStats : Date)
    (input : ProjectBalanceInput.t Q) (r : ProjectBalanceResult.t Q) :
  calculateProjectBalance nowDiet nowStats input = Return r ->
  let hotelCombined := ProjectBalanceResult.hotelCombined r in
  let hotelLimit := ProjectBalanceResult.hotelLimit r in
  ProjectBalanceResult.categoryTotals r
  = fold_left addToCategory
      (filter (fun t => negb (TransactionSummary.isPrivate t)
                        && negb (TransactionSummary.excludedFromProject t))
              (ProjectBalanceInput.transactions input))
      (CategoryTotals.mk 0 0 0 0 0 0)
  /\ hotelCombined
     = round2 (CategoryTotals.HOTEL (ProjectBalanceResult.categoryTotals r)
               + CategoryTotals.PARKING (ProjectBalanceResult.categoryTotals r))
  /\ hotelLimit
     = Project.hotelLimitSnapshot (ProjectBalanceInput.project input)
  /\ (hotelCombined == 0 ->
      ProjectBalanceResult.hotelStatus r = no_hotel
      /\ ProjectBalanceResult.hotelOverage r == 0)
  /\ (0 < hotelCombined -> hotelCombined <= hotelLimit ->
      ProjectBalanceResult.hotelStatus r = within_limit
      /\ ProjectBalanceResult.hotelOverage r == 0)
  /\ (0 <= hotelLimit -> hotelLimit < hotelCombined ->
      ProjectBalanceResult.hotelStatus r = over_limit
      /\ ProjectBalanceResult.hotelOverage r
         = round2 (hotelCombined - hotelLimit)).
Proof.
  intros Hr hotelCombined hotelLimit.
  destruct (calculateProjectBalance_Return _ _ _ _ Hr)
    as (_ & Hlimit & Htotals & Hcombined & _).
  pose proof (hotel_figures _ _ _ _ Hr) as Hfig.
  cbv zeta in Hfig. fold hotelCombined hotelLimit in Hfig.
  split; [exact Htotals|]. split; [exact Hcombined|]. split; [exact Hlimit|].
  split; [|split].
  - intro Hzero.
    assert (Hnot : Q_ltb 0 hotelCombined = false) by (apply Q_ltb_ge; lra).
    rewrite Hnot in Hfig. injection Hfig as -> ->. split; reflexivity.
  - intros Hpos Hle.
    apply Q_ltb_lt in Hpos. apply Qle_bool_iff in Hle.
    rewrite Hpos, Hle in Hfig. injection Hfig as -> ->. split; reflexivity.
  - intros Hnonneg Hover.
    assert (Hpos : Q_ltb 0 hotelCombined = true) by (apply Q_ltb_lt; lra).
    apply Q_leb_gt in Hover.
    rewrite Hpos, Hover in Hfig. injection Hfig as -> ->. split; reflexivity.
Qed.

Lemma hotel_classification_witness :
  exists r,
    calculateProjectBalance 0%Z 0%Z hotelOverLimit = Return r
    /\ ProjectBalanceResult.hotelCombined r == 300
    /\ ProjectBalanceResult.hotelLimit r == 270
    /\ ProjectBalanceResult.hotelStatus r = over_limit
    /\ ProjectBalanceResult.hotelOverage r == 30.
Proof.
  eexists. split; [vm_compute; reflexivity|].
  split; [reflexivity|]. split; [reflexivity|].
  pose proof (hotel_classification 0%Z 0%Z hotelOverLimit _
                ltac:(vm_compute; reflexivity)) as (_ & _ & _ & _ & _ & Hover).
  destruct Hover as [Hstatus Hoverage];
    [vm_compute; discriminate|reflexivity|].
  split; [exact Hstatus|].
  rewrite Hoverage. reflexivity.
Defined.

(** ** Worked scenarios *)

Lemma winterTrip_dates :
  isoDate 1704873600000%Z = "2024-01-10"%string
  /\ isoDate winterTripEnd = "2024-01-12"%string
  /\ ((1704873600000 mod 86400000) / 3600000 = 8)%Z
  /\ ((winterTripEnd mod 86400000) / 3600000 = 14)%Z
  /\ ((winterTripEnd - 1704873600000) = 54 * 3600000)%Z.
Proof. repeat split. Qed.

(** The value the scenario of the specification gives for [totalDays],
    2.333, is not the one returned: the field is rounded to two
    decimals. *)
Lemma winterTrip_totalDays_not_2333 :
  exists r,
    calculateDiet winterTripEnd (winterTrip PLANNED) = Return r
    /\ DietResult.totalDays r == 2.33
    /\ ~ DietResult.totalDays r == 2.333.
Proof.
  eexists. split; [vm_compute; reflexivity|].
  split; [reflexivity|discriminate].
Qed.

(** C2, amended.  For the 54-hour trip at 45 a day with one breakfast,
    in every mode, [calculateDiet] returns 2 full days, the multiplier
    1/3 for the remaining 6 hours, totalDays 2.33, 105.00 before
    breakfast, a deduction of 11.25 and a total diet of 93.75; in exact
    arithmetic and in binary64 alike. *)
Theorem winterTrip_diet (mode : DietMode) :
  (exists r,
     calculateDiet winterTripEnd (winterTrip mode) = Return r
     /\ DietResult.partialDay r == 6
     /\ dietFiguresAre r 2 (1 # 3) 2.33 105.00 11.25 93.75)
  /\
  (exists r,
     calculateDiet winterTripEnd (winterTrip mode) = Return r
     /\ DietResult.partialDay r = 6%float
     /\ dietDoubles r
        = [2; 1 / 3; 2.33; 105; 11.25; 93.75]%float).
Proof.
  split.
  - destruct mode; (eexists; split; [vm_compute; reflexivity|]);
      repeat split.
  - destruct mode; (eexists; split; [vm_compute; reflexivity|]);
      split; vm_compute; reflexivity.
Qed.

(** C3.  For gross 5000 without voluntary insurance and without PPK,
    at the 2024/2025 rates (given as snapshot or taken by default),
    [calculateSalaryNet] returns pension 488.00, disability 75.00, social
    security 563.00, health base 4437.00, health insurance 399.33, cost
    of income 250.00 (the cap; the uncapped 20% is 887.40), tax base
    4187, the difference rounded to a whole number, on which the tax
    before deduction, 502.44, is computed, tax-free deduction 300.00,
    income tax 202.44 and netto 3835.23; in exact arithmetic and in
    binary64 alike. *)
Theorem gross5000_salary :
  (forall (ppkPercentage : Q) (snapshot : bool),
     let rates := if snapshot then Some TAX_RATES_2024_2025 else None in
     let r := calculateSalaryNet (gross5000 ppkPercentage rates) in
     salaryFiguresAre r 488.00 75.00 563.00 4437.00 399.33 250.00
                      4187 502.44 300.00 202.44 3835.23
     /\ round2 (SalaryResult.incomeBase r * 0.20) == 887.40
     /\ SalaryResult.taxBase r
        == Q_round (SalaryResult.incomeBase r - SalaryResult.costOfIncome r)
     /\ SalaryResult.taxBeforeDeduction r
        == round2 (SalaryResult.taxBase r * 0.12))
  /\
  (forall (ppkPercentage : float) (snapshot : bool),
     let rates := if snapshot then Some TAX_RATES_2024_2025 else None in
     salaryDoubles (calculateSalaryNet (gross5000 ppkPercentage rates))
     = [488; 75; 563; 4437; 399.33; 250; 4187; 502.44; 300; 202.44;
        3835.23]%float).
Proof.
  split.
  - intros p [|]; repeat split.
  - intros p [|]; vm_compute; reflexivity.
Qed.

(** ** The diet calculator: a trip that has started *)

Section DietFigures.
Context {num : Type} `{Number num}.
Local Open Scope js_scope.

Lemma calculateDiet_Return (now : Date) (input : DietInput.t num)
    (r : DietResult.t num) :
  calculateDiet now input = Return r ->
  effectiveEnd now input = Some (DietResult.endDatetime r).
Proof.
  unfold calculateDiet, effectiveEnd.
  destruct (DietInput.mode input); cbn.
  - destruct (now <=? _)%Z; intro Hr; injection Hr as <-; reflexivity.
  - destruct (DietInput.plannedEndDatetime input) as [e|]; cbn; [|discriminate].
    destruct (e <=? _)%Z; intro Hr; injection Hr as <-; reflexivity.
  - destruct (DietInput.actualEndDatetime input) as [e|]; cbn; [|discriminate].
    destruct (e <=? _)%Z; intro Hr; injection Hr as <-; reflexivity.
Qed.

Lemma calculateDiet_started (now : Date) (input : DietInput.t num) (e : Date) :
  effectiveEnd now input = Some e ->
  (DietInput.startDatetime input < e)%Z ->
  let totalHours := hoursBetween (DietInput.startDatetime input) e in
  exists r,
    calculateDiet now input = Return r
    /\ DietResult.endDatetime r = e
    /\ DietResult.fullDays r = Math_floor (totalHours / ofZ 24)
    /\ DietResult.partialDayMultiplier r
       = getMultiplierForHours (remainingHoursOf totalHours)
    /\ DietResult.totalDiet r
       = Math_round
           (totalDietOf (DietInput.dailyRate input) (breakfastsOf input)
                        totalHours * ofZ 100) / ofZ 100
    /\ exists p,
         DietResult.breakdown r = PolishBreakdown p
         /\ BreakdownParams.fullDays p = DietResult.fullDays r
         /\ BreakdownParams.partialDayMultiplier p
            = DietResult.partialDayMultiplier r
         /\ BreakdownParams.remainingHours p = remainingHoursOf totalHours
         /\ BreakdownParams.totalDays p = totalDaysOf totalHours.
Proof.
  unfold calculateDiet, effectiveEnd.
  intros He Hlt. apply Z.leb_gt in Hlt.
  destruct (DietInput.mode input); cbn.
  - injection He as ->. rewrite Hlt.
    eexists. split; [reflexivity|]. cbn. repeat split.
    eexists. repeat split.
  - rewrite He. cbn. rewrite Hlt.
    eexists. split; [reflexivity|]. cbn. repeat split.
    eexists. repeat split.
  - rewrite He. cbn. rewrite Hlt.
    eexists. split; [reflexivity|]. cbn. repeat split.
    eexists. repeat split.
Qed.

End DietFigures.

(** ** Exact arithmetic of the partial day *)

Lemma hoursBetween_elapsed (s e : Date) : hoursBetween s e == elapsedHours s e.
Proof.
  unfold hoursBetween, elapsedHours, getTime, msPerHour, ofZ. cbn.
  unfold Z.sub. rewrite inject_Z_plus, inject_Z_opp.
  unfold Qminus. reflexivity.
Qed.

Lemma elapsedHours_pos (s e : Date) : (s < e)%Z -> 0 < elapsedHours s e.
Proof.
  intro Hlt. unfold elapsedHours.
  apply Qlt_shift_div_l; [reflexivity|].
  rewrite Qmult_0_l. change 0 with (inject_Z 0). rewrite <- Zlt_Qlt. lia.
Qed.

Lemma elapsedHours_mono (s e1 e2 : Date) :
  (e1 <= e2)%Z -> elapsedHours s e1 <= elapsedHours s e2.
Proof.
  intro Hle. unfold elapsedHours.
  apply Qmult_le_compat_r; [|discriminate].
  rewrite <- Zle_Qle. lia.
Qed.

Lemma hoursMod24_range (h : Q) : 0 <= hoursMod24 h /\ hoursMod24 h < 24.
Proof.
  unfold hoursMod24.
  pose proof (Qfloor_le (h / 24)) as Hlo.
  pose proof (Qlt_floor (h / 24)) as Hhi.
  rewrite inject_Z_plus in Hhi.
  assert (Hh : h == 24 * (h / 24)) by (field; discriminate).
  set (q := h / 24) in *. set (d := inject_Z (Qfloor q)) in *.
  change (inject_Z 1) with 1 in Hhi.
  clearbody d. clearbody q.
  split; lra.
Qed.

Lemma Q_rem_24 (h : Q) : 0 <= h -> Q_rem h 24 == hoursMod24 h.
Proof.
  intro Hh. unfold Q_rem, Q_trunc, hoursMod24.
  assert (Hq : 0 <= h / 24).
  { apply Qle_shift_div_l; [reflexivity|]. lra. }
  apply Qle_bool_iff in Hq. rewrite Hq. reflexivity.
Qed.

Lemma Q_rem_Qeq (a b c : Q) : a == b -> Q_rem a c == Q_rem b c.
Proof.
  intro E. unfold Q_rem, Q_trunc.
  assert (Hq : a / c == b / c) by now rewrite E.
  rewrite (Qleb_comp 0 0 (Qeq_refl 0) _ _ Hq).
  rewrite (Qfloor_comp _ _ Hq), (Qceiling_comp _ _ Hq).
  now rewrite E.
Qed.

Lemma getMultiplierForHours_Q (x : Q) :
  getMultiplierForHours x
  = if Q_ltb x 8 then 1 / 3
    else if Qle_bool 8 x && Q_ltb x 12 then 0.5
    else 1.
Proof. reflexivity. Qed.

(** The rule of the multiplier on any remainder. *)
Lemma multiplier_rule (x : Q) :
  (x < 8 -> getMultiplierForHours x == 1 # 3)
  /\ (8 <= x -> x < 12 -> getMultiplierForHours x == 1 # 2)
  /\ (12 <= x -> getMultiplierForHours x == 1).
Proof.
  rewrite getMultiplierForHours_Q.
  repeat split.
  - intro Hx. apply Q_ltb_lt in Hx. rewrite Hx. reflexivity.
  - intros Hlo Hhi.
    assert (H8 : Q_ltb x 8 = false) by now apply Q_ltb_ge.
    apply Qle_bool_iff in Hlo. apply Q_ltb_lt in Hhi.
    rewrite H8, Hlo, Hhi. reflexivity.
  - intro Hx.
    assert (H8 : Q_ltb x 8 = false) by (apply Q_ltb_ge; lra).
    assert (H12 : Q_ltb x 12 = false) by now apply Q_ltb_ge.
    rewrite H8, H12, andb_false_r. reflexivity.
Qed.

Lemma getMultiplierForHours_Qeq (x y : Q) :
  x == y -> getMultiplierForHours x = getMultiplierForHours y.
Proof.
  intro Hxy. rewrite !getMultiplierForHours_Q.
  unfold Q_ltb.
  assert (E8 : Qle_bool 8 x = Qle_bool 8 y) by now rewrite Hxy.
  assert (E12 : Qle_bool 12 x = Qle_bool 12 y) by now rewrite Hxy.
  now rewrite E8, E12.
Qed.

Lemma totalDaysOf_Q (h : Q) :
  totalDaysOf h
  = inject_Z (Qfloor (h / 24))
    + (if Q_ltb 0 (Q_rem h 24) then getMultiplierForHours (Q_rem h 24) else 0).
Proof. reflexivity. Qed.

(** The boundaries in binary64, and the helper the source leaves unused,
    which gives a full day from 8 hours on. *)
Lemma multiplier_boundaries_binary64 :
  getMultiplierForHours 8%float = 0.5%float
  /\ getMultiplierForHours 12%float = 1%float
  /\ getMultiplierForHours 7.999%float = (1 / 3)%float
  /\ getMultiplierForHours 11.999%float = 0.5%float
  /\ getPartialDayMultiplier 10%float = 1%float.
Proof. repeat split. Qed.

(** C4.  For a trip with positive elapsed time, with [rem] the elapsed
    hours modulo 24: the partial-day multiplier of the result is 1/3
    when [rem < 8], 1/2 when [8 <= rem < 12] and 1 when [12 <= rem]; so
    exactly 8 hours give 1/2, not 1/3, and exactly 12 hours give 1, not
    1/2.  The multiplier is added to the full days when [rem] is
    positive. *)
Theorem partial_day_multiplier (now : Date) (input : DietInput.t Q)
    (r : DietResult.t Q) :
  calculateDiet now input = Return r ->
  (DietInput.startDatetime input < DietResult.endDatetime r)%Z ->
  let hours :=
    elapsedHours (DietInput.startDatetime input) (DietResult.endDatetime r) in
  let rem := hoursMod24 hours in
  let multiplier := DietResult.partialDayMultiplier r in
  (rem < 8 -> multiplier == 1 # 3)
  /\ (8 <= rem -> rem < 12 -> multiplier == 1 # 2)
  /\ (12 <= rem -> multiplier == 1)
  /\ (rem == 8 -> multiplier == 1 # 2 /\ ~ multiplier == 1 # 3)
  /\ (rem == 12 -> multiplier == 1 /\ ~ multiplier == 1 # 2)
  /\ DietResult.fullDays r == inject_Z (Qfloor (hours / 24))
  /\ exists p,
       DietResult.breakdown r = PolishBreakdown p
       /\ (0 < rem ->
           BreakdownParams.totalDays p == DietResult.fullDays r + multiplier)
       /\ (rem == 0 -> BreakdownParams.totalDays p == DietResult.fullDays r).
Proof.
  intros Hr Hlt hours rem multiplier.
  pose proof (calculateDiet_Return _ _ _ Hr) as Hend.
  destruct (calculateDiet_started now input _ Hend Hlt)
    as (r' & Hr' & _ & Hfull & Hmult & _ & p & Hp & Hpfull & Hpmult & _ & Hptotal).
  assert (r' = r) as -> by congruence.
  set (h := hoursBetween (DietInput.startDatetime input) (DietResult.endDatetime r))
    in *.
  assert (Hh : h == hours) by apply hoursBetween_elapsed.
  assert (Hpos : 0 < hours) by now apply elapsedHours_pos.
  assert (Hrem : Q_rem h 24 == rem).
  { unfold rem. rewrite <- (Q_rem_24 hours) by lra. now apply Q_rem_Qeq. }
  assert (Hm : multiplier = getMultiplierForHours rem).
  { unfold multiplier. rewrite Hmult. now apply getMultiplierForHours_Qeq. }
  destruct (multiplier_rule rem) as (Hlow & Hmid & Hhigh).
  rewrite <- Hm in Hlow, Hmid, Hhigh.
  assert (Hfloor : DietResult.fullDays r == inject_Z (Qfloor (hours / 24))).
  { rewrite Hfull. change (inject_Z (Qfloor (h / 24)) == inject_Z (Qfloor (hours / 24))).
    now rewrite Hh. }
  split; [exact Hlow|]. split; [exact Hmid|]. split; [exact Hhigh|].
  split.
  { intro H8. split; [apply Hmid; lra|].
    intro H3. rewrite Hmid in H3 by lra. discriminate. }
  split.
  { intro H12. split; [apply Hhigh; lra|].
    intro H2. rewrite Hhigh in H2 by lra. discriminate. }
  split; [exact Hfloor|].
  - exists p. split; [exact Hp|].
    rewrite Hptotal, totalDaysOf_Q.
    change (inject_Z (Qfloor (h / 24))) with (Math_floor (h / ofZ 24)%js).
    rewrite <- Hfull. unfold multiplier. rewrite Hmult.
    change (remainingHoursOf h) with (Q_rem h 24).
    split.
    + intro H0. assert (E : Q_ltb 0 (Q_rem h 24) = true)
        by (apply Q_ltb_lt; lra).
      rewrite E. reflexivity.
    + intro H0. assert (E : Q_ltb 0 (Q_rem h 24) = false)
        by (apply Q_ltb_ge; lra).
      rewrite E. lra.
Qed.

Lemma partial_day_multiplier_witness :
  exists r,
    calculateDiet 0%Z trip32h = Return r
    /\ hoursMod24 (elapsedHours (DietInput.startDatetime trip32h)
                                (DietResult.endDatetime r)) == 8
    /\ DietResult.partialDayMultiplier r == 1 # 2
    /\ ~ DietResult.partialDayMultiplier r == 1 # 3.
Proof.
  eexists. split; [vm_compute; reflexivity|].
  split; [reflexivity|].
  apply (partial_day_multiplier 0%Z trip32h _
           ltac:(vm_compute; reflexivity) ltac:(simpl; lia)).
  reflexivity.
Defined.

(** ** Monotonicity of the diet *)

Lemma partialDayFractionOf_cases (x : Q) :
  (x <= 0 /\ partialDayFractionOf x = 0)
  \/ (0 < x < 8 /\ partialDayFractionOf x = 1 / 3)
  \/ (8 <= x < 12 /\ partialDayFractionOf x = 0.5)
  \/ (12 <= x /\ partialDayFractionOf x = 1).
Proof.
  unfold partialDayFractionOf. rewrite getMultiplierForHours_Q.
  destruct (Q_ltb 0 x) eqn:E0; [|left; bool_to_Q; now split].
  destruct (Q_ltb x 8) eqn:E8; [right; left; bool_to_Q; now repeat split|].
  destruct (Q_ltb x 12) eqn:E12.
  - right; right; left. bool_to_Q.
    assert (E : Qle_bool 8 x = true) by now apply Qle_bool_iff.
    rewrite E. now repeat split.
  - right; right; right. rewrite andb_false_r. bool_to_Q. now split.
Qed.

Lemma partialDayFractionOf_bounds (x : Q) :
  0 <= partialDayFractionOf x <= 1.
Proof.
  destruct (partialDayFractionOf_cases x)
    as [[_ ->]|[[_ ->]|[[_ ->]|[_ ->]]]]; split; discriminate.
Qed.

Lemma partialDayFractionOf_mono (x y : Q) :
  x <= y -> partialDayFractionOf x <= partialDayFractionOf y.
Proof.
  intro Hxy.
  destruct (partialDayFractionOf_cases x)
    as [[Hx ->]|[[Hx ->]|[[Hx ->]|[Hx ->]]]];
  destruct (partialDayFractionOf_cases y)
    as [[Hy ->]|[[Hy ->]|[[Hy ->]|[Hy ->]]]];
  try discriminate; exfalso; lra.
Qed.

Lemma totalDaysOf_fraction (h : Q) :
  totalDaysOf h = inject_Z (Qfloor (h / 24)) + partialDayFractionOf (Q_rem h 24).
Proof. reflexivity. Qed.

Lemma partialDayFractionOf_Qeq (x y : Q) :
  x == y -> partialDayFractionOf x = partialDayFractionOf y.
Proof.
  intro Hxy. unfold partialDayFractionOf.
  rewrite (getMultiplierForHours_Qeq x y Hxy).
  unfold Q_ltb. now rewrite Hxy.
Qed.

Lemma totalDaysOf_mono (h1 h2 : Q) :
  0 <= h1 -> h1 <= h2 -> totalDaysOf h1 <= totalDaysOf h2.
Proof.
  intros H0 H12. rewrite !totalDaysOf_fraction.
  rewrite (partialDayFractionOf_Qeq _ _ (Q_rem_24 h1 H0)).
  rewrite (partialDayFractionOf_Qeq _ _ (Q_rem_24 h2 ltac:(lra))).
  assert (Hd : (Qfloor (h1 / 24) <= Qfloor (h2 / 24))%Z).
  { apply Qfloor_resp_le. apply Qmult_le_compat_r; [exact H12|discriminate]. }
  pose proof (partialDayFractionOf_bounds (hoursMod24 h1)) as [_ Hf1].
  pose proof (partialDayFractionOf_bounds (hoursMod24 h2)) as [Hf2 _].
  destruct (Z.eq_dec (Qfloor (h1 / 24)) (Qfloor (h2 / 24))) as [Heq|Hne].
  - assert (Hrem : hoursMod24 h1 <= hoursMod24 h2).
    { unfold hoursMod24. rewrite Heq. lra. }
    apply partialDayFractionOf_mono in Hrem.
    rewrite Heq. lra.
  - assert (Hlt : (Qfloor (h1 / 24) + 1 <= Qfloor (h2 / 24))%Z) by lia.
    rewrite Zle_Qle, inject_Z_plus in Hlt.
    change (inject_Z 1) with 1 in Hlt. lra.
Qed.

Lemma totalDaysOf_nonneg (h : Q) : 0 <= h -> 0 <= totalDaysOf h.
Proof.
  intro H0. rewrite totalDaysOf_fraction.
  pose proof (partialDayFractionOf_bounds (Q_rem h 24)) as [Hf _].
  assert (Hd : (0 <= Qfloor (h / 24))%Z).
  { change 0%Z with (Qfloor 0). apply Qfloor_resp_le.
    apply Qle_shift_div_l; [reflexivity|]. lra. }
  rewrite Zle_Qle in Hd. change (inject_Z 0) with 0 in Hd.
  set (d := inject_Z (Qfloor (h / 24))) in *.
  set (f := partialDayFractionOf (Q_rem h 24)) in *.
  clearbody d f. lra.
Qed.

(** The diet left after the capped breakfast deduction grows with the
    diet before breakfast. *)
Lemma afterBreakfast_mono (deduction gross1 gross2 : Q) :
  gross1 <= gross2 ->
  Qmax 0 (gross1 - Qmin deduction gross1)
  <= Qmax 0 (gross2 - Qmin deduction gross2).
Proof.
  intro Hg.
  set (m1 := Qmin deduction gross1). set (m2 := Qmin deduction gross2).
  destruct (Q.max_spec 0 (gross1 - m1)) as [[? M1]|[? M1]];
  destruct (Q.max_spec 0 (gross2 - m2)) as [[? M2]|[? M2]];
  rewrite M1, M2;
  destruct (Q.min_spec deduction gross1) as [[? E1]|[? E1]];
  destruct (Q.min_spec deduction gross2) as [[? E2]|[? E2]];
  fold m1 in E1; fold m2 in E2; clearbody m1 m2; lra.
Qed.

Lemma totalDietOf_mono (dailyRate breakfastCount h1 h2 : Q) :
  0 <= dailyRate -> 0 <= h1 -> h1 <= h2 ->
  totalDietOf dailyRate breakfastCount h1
  <= totalDietOf dailyRate breakfastCount h2.
Proof.
  intros Hrate H0 H12.
  apply afterBreakfast_mono.
  apply Qmult_le_compat_r; [|exact Hrate].
  now apply totalDaysOf_mono.
Qed.

Lemma totalDietOf_nonneg (dailyRate breakfastCount h : Q) :
  0 <= totalDietOf dailyRate breakfastCount h.
Proof. apply Q.le_max_l. Qed.

Lemma totalDiet_started (now : Date) (input : DietInput.t Q) (r : DietResult.t Q) :
  calculateDiet now input = Return r ->
  (DietInput.startDatetime input < DietResult.endDatetime r)%Z ->
  DietResult.totalDiet r
  = round2 (totalDietOf (DietInput.dailyRate input) (breakfastsOf input)
              (hoursBetween (DietInput.startDatetime input)
                            (DietResult.endDatetime r))).
Proof.
  intros Hr Hlt.
  destruct (calculateDiet_started now input _ (calculateDiet_Return _ _ _ Hr) Hlt)
    as (r' & Hr' & _ & _ & _ & Htotal & _).
  assert (r' = r) as -> by congruence.
  exact Htotal.
Qed.

Lemma totalDiet_not_started (now : Date) (input : DietInput.t Q)
    (r : DietResult.t Q) :
  calculateDiet now input = Return r ->
  (DietResult.endDatetime r <= DietInput.startDatetime input)%Z ->
  DietResult.totalDiet r = 0.
Proof.
  intros Hr Hle.
  pose proof (calculateDiet_not_started now input _
                (calculateDiet_Return _ _ _ Hr) Hle) as Hzero.
  rewrite Hr in Hzero. injection Hzero as ->. reflexivity.
Qed.

Lemma totalDiet_nonneg (now : Date) (input : DietInput.t Q) (r : DietResult.t Q) :
  calculateDiet now input = Return r -> 0 <= DietResult.totalDiet r.
Proof.
  intro Hr.
  destruct (Z_le_gt_dec (DietResult.endDatetime r) (DietInput.startDatetime input))
    as [Hle|Hgt].
  - rewrite (totalDiet_not_started _ _ _ Hr Hle). discriminate.
  - rewrite (totalDiet_started _ _ _ Hr ltac:(lia)).
    apply round2_nonneg, totalDietOf_nonneg.
Qed.

(** C9.  Two calculations with the same start, the same daily rate, not
    negative, and the same breakfast count: when the end used by the
    first is not after the end used by the second, the total diet of the
    first is at most that of the second. *)
Theorem diet_monotone (now1 now2 : Date) (input1 input2 : DietInput.t Q)
    (r1 r2 : DietResult.t Q) :
  DietInput.startDatetime input1 = DietInput.startDatetime input2 ->
  DietInput.dailyRate input1 = DietInput.dailyRate input2 ->
  DietInput.breakfastCount input1 = DietInput.breakfastCount input2 ->
  0 <= DietInput.dailyRate input1 ->
  calculateDiet now1 input1 = Return r1 ->
  calculateDiet now2 input2 = Return r2 ->
  (DietResult.endDatetime r1 <= DietResult.endDatetime r2)%Z ->
  DietResult.totalDiet r1 <= DietResult.totalDiet r2.
Proof.
  intros Hstart Hrate Hbreakfast Hnonneg Hr1 Hr2 Hends.
  destruct (Z_le_gt_dec (DietResult.endDatetime r1)
                        (DietInput.startDatetime input1)) as [Hle|Hgt].
  - rewrite (totalDiet_not_started _ _ _ Hr1 Hle).
    exact (totalDiet_nonneg _ _ _ Hr2).
  - rewrite (totalDiet_started _ _ _ Hr1 ltac:(lia)).
    rewrite (totalDiet_started _ _ _ Hr2 ltac:(lia)).
    unfold breakfastsOf. rewrite <- Hstart, <- Hrate, <- Hbreakfast.
    apply round2_mono, totalDietOf_mono.
    + exact Hnonneg.
    + rewrite hoursBetween_elapsed. apply Qlt_le_weak, elapsedHours_pos. lia.
    + rewrite !hoursBetween_elapsed. now apply elapsedHours_mono.
Qed.

Lemma diet_monotone_witness :
  exists r1 r2,
    calculateDiet 0%Z trip32hBreakfast = Return r1
    /\ calculateDiet 0%Z trip54h = Return r2
    /\ DietResult.totalDiet r1 == 56.25
    /\ DietResult.totalDiet r2 == 93.75
    /\ DietResult.totalDiet r1 <= DietResult.totalDiet r2.
Proof.
  eexists. eexists.
  split; [vm_compute; reflexivity|].
  split; [vm_compute; reflexivity|].
  split; [reflexivity|].
  split; [reflexivity|].
  apply (diet_monotone 0%Z 0%Z trip32hBreakfast trip54h _ _
           eq_refl eq_refl eq_refl
           ltac:(vm_compute; discriminate)
           ltac:(vm_compute; reflexivity)
           ltac:(vm_compute; reflexivity)).
  simpl. lia.
Defined.

(** ** The salary of a project and the contract type *)

(** C6.  The code does not do what the claim says.  A B2B user, and a
    user of contract type OTHER, who create a project with a gross salary
    of 5000 each get a computed net figure, 3835.23: the figure of a
    civil contract, contributions and all.  Nothing marks the case as
    not computable by this formula. *)
Lemma b2b_salary_is_computed :
  User.contractType (userOn B2B) = B2B
  /\ User.contractType (userOn OTHER) = OTHER
  /\ (exists netto,
        createProjectSalary (userOn B2B) (Some 5000) = (Some 5000, Some netto)
        /\ netto == 3835.23)
  /\ (exists netto,
        createProjectSalary (userOn OTHER) (Some 5000) = (Some 5000, Some netto)
        /\ netto == 3835.23)
  /\ createProjectSalary (userOn B2B) (Some 5000)
     = createProjectSalary (userOn CIVIL_CONTRACT) (Some 5000).
Proof.
  split; [reflexivity|]. split; [reflexivity|].
  split; [eexists; split; [vm_compute; reflexivity|reflexivity]|].
  split; [eexists; split; [vm_compute; reflexivity|reflexivity]|].
  reflexivity.
Qed.

Section ContractType.
Context {num : Type} `{Number num}.

(** The same on every input.  [calculateSalaryNet], which its own
    comment describes as the calculation for a civil contract, has no
    contract-type input, and the salary step of project creation reads
    the contract type of the user without using it: for every contract
    type it gives the same result, which for a (truthy) gross salary is
    the net figure of that one formula. *)
Theorem salary_ignores_contract_type (user : User.t num)
    (contractType : ContractType) (salaryBrutto : option num) :
  createProjectSalary (withContractType contractType user) salaryBrutto
  = createProjectSalary user salaryBrutto
  /\ snd (createProjectSalary (withContractType contractType user) salaryBrutto)
     = match salaryBrutto with
       | Some brutto =>
           if truthy brutto then
             Some (SalaryResult.netto
                     (calculateSalaryNet {|
                        SalaryInput.brutto := brutto;
                        SalaryInput.voluntarySocialSecurity :=
                          User.voluntarySocialSecurity user;
                        SalaryInput.ppkEnabled := User.ppkEnabled user;
                        SalaryInput.ppkPercentage := User.ppkPercentage user;
                        SalaryInput.taxRates := Some TAX_RATES_2024_2025
                      |}))
           else None
       | None => None
       end.
Proof.
  unfold createProjectSalary, withContractType.
  destruct salaryBrutto as [brutto|]; [|split; reflexivity].
  cbv beta iota delta [User.voluntarySocialSecurity User.ppkEnabled
                         User.ppkPercentage].
  destruct (truthy brutto); split; reflexivity.
Qed.

End ContractType.

(** ** The duplicate detector *)

Lemma insertMatch_Q (a b : DuplicateMatch.t Q) (rest : list (DuplicateMatch.t Q)) :
  insertMatch a (b :: rest)
  = if Q_ltb 0 (DuplicateMatch.similarity b - DuplicateMatch.similarity a)
    then b :: insertMatch a rest
    else a :: b :: rest.
Proof. reflexivity. Qed.

Lemma insertMatch_Permutation (a : DuplicateMatch.t Q)
    (l : list (DuplicateMatch.t Q)) :
  Permutation (insertMatch a l) (a :: l).
Proof.
  induction l as [|b rest IH]; [reflexivity|].
  rewrite insertMatch_Q. destruct (Q_ltb _ _); [|reflexivity].
  rewrite IH. apply perm_swap.
Qed.

Lemma sortMatches_Permutation (l : list (DuplicateMatch.t Q)) :
  Permutation (sortMatches l) l.
Proof.
  induction l as [|a rest IH]; [reflexivity|].
  cbn [sortMatches]. rewrite insertMatch_Permutation. now constructor.
Qed.

Lemma insertMatch_sorted (a : DuplicateMatch.t Q)
    (l : list (DuplicateMatch.t Q)) :
  StronglySorted descending l -> StronglySorted descending (insertMatch a l).
Proof.
  induction 1 as [|b rest Hsorted IH Hall].
  - repeat constructor.
  - rewrite insertMatch_Q.
    destruct (Q_ltb _ _) eqn:E; bool_to_Q.
    + constructor; [exact IH|].
      rewrite insertMatch_Permutation. constructor; [|exact Hall].
      unfold descending. lra.
    + constructor; [now constructor|].
      constructor; [unfold descending; lra|].
      eapply Forall_impl; [|exact Hall].
      unfold descending. intros c Hc. lra.
Qed.

Lemma sortMatches_sorted (l : list (DuplicateMatch.t Q)) :
  StronglySorted descending (sortMatches l).
Proof.
  induction l as [|a rest IH]; [constructor|].
  cbn [sortMatches]. now apply insertMatch_sorted.
Qed.

(** ** The exact-fingerprint strategy *)

Lemma matchExisting_cases (newDoc : DocumentFingerprint.t Q)
    (newFingerprint : option string) (existing : ExistingDocument.t Q)
    (m : DuplicateMatch.t Q) :
  matchExisting newDoc newFingerprint existing = Some m ->
  (fingerprintsEqual newFingerprint existing = true
   /\ DuplicateMatch.similarity m = 1.0
   /\ DuplicateMatch.matchReason m = exactReason)
  \/ (fingerprintsEqual newFingerprint existing = false
      /\ (DuplicateMatch.similarity m = 0.92
          \/ DuplicateMatch.similarity m = 0.78
          \/ DuplicateMatch.similarity m = 0.6)
      /\ DuplicateMatch.matchReason m <> exactReason).
Proof.
  unfold matchExisting.
  destruct (fingerprintsEqual newFingerprint existing).
  - intro Hm. injection Hm as <-. left. repeat split.
  - destruct (amountAndDate newDoc existing _).
    { intro Hm. injection Hm as <-. right. cbn.
      split; [reflexivity|]. split; [tauto|discriminate]. }
    destruct (amountAndDate newDoc existing _).
    { intro Hm. injection Hm as <-. right. cbn.
      split; [reflexivity|]. split; [tauto|discriminate]. }
    destruct (invoiceNumbersEqual newDoc existing); [|discriminate].
    intro Hm. injection Hm as <-. right. cbn.
    split; [reflexivity|]. split; [tauto|discriminate].
Qed.

Lemma matchExisting_withoutFingerprint (newDoc : DocumentFingerprint.t Q)
    (existing : ExistingDocument.t Q) :
  matchExisting newDoc None (withoutFingerprint existing)
  = matchExisting newDoc None existing.
Proof. reflexivity. Qed.

Lemma collectMatches_In (newDoc : DocumentFingerprint.t Q)
    (newFingerprint : option string) (existingDocs : list (ExistingDocument.t Q))
    (m : DuplicateMatch.t Q) :
  In m (collectMatches newDoc newFingerprint existingDocs) ->
  exists existing,
    In existing existingDocs
    /\ matchExisting newDoc newFingerprint existing = Some m.
Proof.
  induction existingDocs as [|existing rest IH]; [intros []|].
  cbn [collectMatches].
  destruct (matchExisting newDoc newFingerprint existing) as [m'|] eqn:E.
  - intros [<-|Hin].
    + exists existing. split; [now left|exact E].
    + destruct (IH Hin) as (x & Hx & Hm). exists x. split; [now right|exact Hm].
  - intro Hin. destruct (IH Hin) as (x & Hx & Hm).
    exists x. split; [now right|exact Hm].
Qed.

Lemma collectMatches_withoutFingerprint (newDoc : DocumentFingerprint.t Q)
    (existingDocs : list (ExistingDocument.t Q)) :
  collectMatches newDoc None (map withoutFingerprint existingDocs)
  = collectMatches newDoc None existingDocs.
Proof.
  induction existingDocs as [|existing rest IH]; [reflexivity|].
  cbn [map collectMatches].
  rewrite matchExisting_withoutFingerprint, IH. reflexivity.
Qed.

Lemma detect_In (sha256 : string -> string) (newDoc : DocumentFingerprint.t Q)
    (existingDocs : list (ExistingDocument.t Q)) (m : DuplicateMatch.t Q) :
  In m (DuplicateCheckResult.matchedDocuments
          (detectDuplicateDocument sha256 newDoc existingDocs)) ->
  exists existing,
    In existing existingDocs
    /\ matchExisting newDoc (newFingerprintOf sha256 newDoc) existing = Some m.
Proof.
  unfold detectDuplicateDocument.
  destruct existingDocs as [|existing rest]; [intros []|].
  set (found := collectMatches newDoc _ (existing :: rest)).
  intro Hin. apply (collectMatches_In newDoc _ (existing :: rest)).
  apply (Permutation_in _ (sortMatches_Permutation found)).
  destruct (sortMatches found); [destruct Hin|exact Hin].
Qed.

Lemma newFingerprintOf_Some (sha256 : string -> string)
    (newDoc : DocumentFingerprint.t Q) (fp : string) :
  newFingerprintOf sha256 newDoc = Some fp ->
  exists invoiceNumber amount date,
    DocumentFingerprint.invoiceNumber newDoc = Some invoiceNumber
    /\ invoiceNumber <> EmptyString
    /\ DocumentFingerprint.amount newDoc = Some amount
    /\ ~ amount == 0
    /\ DocumentFingerprint.date newDoc = Some date
    /\ fp = generateDocumentFingerprint sha256 newDoc.
Proof.
  unfold newFingerprintOf.
  destruct (DocumentFingerprint.invoiceNumber newDoc) as [inv|]; [|discriminate].
  destruct (DocumentFingerprint.amount newDoc) as [a|]; [|discriminate].
  destruct (DocumentFingerprint.date newDoc) as [d|]; [|discriminate].
  destruct (nonEmpty inv) eqn:Einv; [|discriminate].
  destruct (truthy a) eqn:Ea; [|discriminate].
  intro Hfp. injection Hfp as <-.
  exists inv, a, d. repeat split.
  - intros ->. discriminate.
  - intro Hzero. apply Qeq_bool_iff in Hzero.
    cbn in Ea. rewrite Hzero in Ea. discriminate.
Qed.

Lemma newFingerprintOf_None (sha256 : string -> string)
    (newDoc : DocumentFingerprint.t Q) :
  DocumentFingerprint.invoiceNumber newDoc = Some EmptyString
  \/ (exists amount, DocumentFingerprint.amount newDoc = Some amount /\ amount == 0) ->
  newFingerprintOf sha256 newDoc = None.
Proof.
  intro Hmissing.
  destruct (newFingerprintOf sha256 newDoc) as [fp|] eqn:E; [|reflexivity].
  destruct (newFingerprintOf_Some _ _ _ E)
    as (inv & a & d & Hinv & Hne & Ha & Hnz & _).
  destruct Hmissing as [Hempty|(a' & Ha' & Hzero)]; exfalso.
  - congruence.
  - rewrite Ha in Ha'. injection Ha' as <-. contradiction.
Qed.

(** Without any match the suggested action is [null], not ['add_new']. *)
Lemma no_match_suggests_nothing :
  DuplicateCheckResult.suggestedAction
    (detectDuplicateDocument plainDigest receipt120 []) = None
  /\ DuplicateCheckResult.suggestedAction
       (detectDuplicateDocument plainDigest receipt120 []) <> Some add_new
  /\ DuplicateCheckResult.matchedDocuments
       (detectDuplicateDocument plainDigest receipt120 [unrelatedReceipt]) = []
  /\ DuplicateCheckResult.suggestedAction
       (detectDuplicateDocument plainDigest receipt120 [unrelatedReceipt]) = None.
Proof.
  repeat split. discriminate.
Qed.

(** C7, amended.  The matched documents are the matches found, sorted
    by similarity, highest first.  With at least one match the
    confidence is the tier of the first, most similar, match and the
    suggested action follows it: exact or high suggest merge, medium
    review, low add_new.  The tier of a match is the one of the
    strategy that found it (similarity 1.0 exact, 0.92 high, 0.78
    medium, 0.6 low).  With no match at all there is no suggested
    action, no confidence, and the document is not a duplicate. *)
Theorem duplicate_result_shape (sha256 : string -> string)
    (newDoc : DocumentFingerprint.t Q)
    (existingDocs : list (ExistingDocument.t Q)) :
  let r := detectDuplicateDocument sha256 newDoc existingDocs in
  StronglySorted descending (DuplicateCheckResult.matchedDocuments r)
  /\ Permutation (DuplicateCheckResult.matchedDocuments r)
       (collectMatches newDoc (newFingerprintOf sha256 newDoc) existingDocs)
  /\ (forall m,
        In m (DuplicateCheckResult.matchedDocuments r) ->
        In (DuplicateMatch.similarity m,
            getSimilarityConfidence (DuplicateMatch.similarity m))
           [(1.0, exact); (0.92, high); (0.78, medium); (0.6, low)])
  /\ match DuplicateCheckResult.matchedDocuments r with
     | bestMatch :: _ =>
         let tier := getSimilarityConfidence (DuplicateMatch.similarity bestMatch) in
         DuplicateCheckResult.isDuplicate r = true
         /\ DuplicateCheckResult.confidence r = Some tier
         /\ DuplicateCheckResult.suggestedAction r = Some (actionFor tier)
     | [] =>
         DuplicateCheckResult.isDuplicate r = false
         /\ DuplicateCheckResult.confidence r = None
         /\ DuplicateCheckResult.suggestedAction r = None
     end.
Proof.
  intro r.
  assert (Htiers : forall m,
             In m (DuplicateCheckResult.matchedDocuments r) ->
             In (DuplicateMatch.similarity m,
                 getSimilarityConfidence (DuplicateMatch.similarity m))
                [(1.0, exact); (0.92, high); (0.78, medium); (0.6, low)]).
  { intros m Hin.
    destruct (detect_In _ _ _ _ Hin) as (existing & _ & Hm).
    destruct (matchExisting_cases _ _ _ _ Hm)
      as [(_ & E & _)|(_ & [E|[E|E]] & _)]; rewrite E; cbn; tauto. }
  revert Htiers. unfold r, detectDuplicateDocument.
  destruct existingDocs as [|existing rest].
  - cbn. intros _. split; [constructor|]. split; [constructor|].
    split; [intros m' []|]. repeat split.
  - set (found := collectMatches newDoc _ (existing :: rest)).
    pose proof (sortMatches_sorted found) as Hsorted.
    pose proof (sortMatches_Permutation found) as Hperm.
    destruct (sortMatches found) as [|bestMatch others] eqn:E.
    + cbn. intros _. split; [constructor|]. split; [exact Hperm|].
      split; [intros m' []|]. repeat split.
    + cbn. intro Htiers. split; [exact Hsorted|]. split; [exact Hperm|].
      split; [exact Htiers|].
      destruct (getSimilarityConfidence _); repeat split.
Qed.

Lemma duplicate_result_shape_witness :
  exists best second,
    DuplicateCheckResult.matchedDocuments
      (detectDuplicateDocument plainDigest receipt120
         [nextDayReceipt; unrelatedReceipt; sameDayReceipt])
    = [best; second]
    /\ DuplicateMatch.id best = "r2"%string
    /\ DuplicateMatch.similarity best = 0.92
    /\ DuplicateMatch.similarity second = 0.78
    /\ getSimilarityConfidence (DuplicateMatch.similarity best) = high
    /\ DuplicateCheckResult.suggestedAction
         (detectDuplicateDocument plainDigest receipt120
            [nextDayReceipt; unrelatedReceipt; sameDayReceipt])
       = Some merge.
Proof.
  destruct (duplicate_result_shape plainDigest receipt120
              [nextDayReceipt; unrelatedReceipt; sameDayReceipt])
    as (_ & _ & Htiers & Hbest).
  revert Htiers Hbest.
  destruct (DuplicateCheckResult.matchedDocuments _)
    as [|best [|second [|third rest]]] eqn:E;
    try (vm_compute in E; discriminate).
  intros Htiers (_ & _ & Haction).
  exists best, second.
  assert (Hbest : DuplicateMatch.similarity best = 0.92)
    by (vm_compute in E; injection E as <- _; reflexivity).
  assert (Hsecond : DuplicateMatch.similarity second = 0.78)
    by (vm_compute in E; injection E as _ <-; reflexivity).
  assert (Hid : DuplicateMatch.id best = "r2"%string)
    by (vm_compute in E; injection E as <- _; reflexivity).
  pose proof (Htiers best (or_introl eq_refl)) as Htier.
  rewrite Hbest in Htier, Haction |- *.
  repeat split; try assumption; try reflexivity.
Defined.

(** C10.  A fingerprint of the new document is generated only when its
    invoice number is a non-empty string, its amount is present and not
    zero, and its date is present; a match by the exact-fingerprint
    strategy occurs only then.  When the invoice number is the empty
    string or the amount is zero, no fingerprint is generated, the
    stored fingerprints of the existing documents play no part in the
    result, and every match comes from one of the other three
    strategies. *)
Theorem exact_fingerprint_requirements (sha256 : string -> string)
    (newDoc : DocumentFingerprint.t Q)
    (existingDocs : list (ExistingDocument.t Q)) :
  let r := detectDuplicateDocument sha256 newDoc existingDocs in
  (forall fp,
     newFingerprintOf sha256 newDoc = Some fp ->
     exists invoiceNumber amount date,
       DocumentFingerprint.invoiceNumber newDoc = Some invoiceNumber
       /\ invoiceNumber <> EmptyString
       /\ DocumentFingerprint.amount newDoc = Some amount
       /\ ~ amount == 0
       /\ DocumentFingerprint.date newDoc = Some date
       /\ fp = generateDocumentFingerprint sha256 newDoc)
  /\ (forall m,
        In m (DuplicateCheckResult.matchedDocuments r) ->
        DuplicateMatch.matchReason m = exactReason
        \/ DuplicateMatch.similarity m == 1 ->
        exists fp, newFingerprintOf sha256 newDoc = Some fp)
  /\ (DocumentFingerprint.invoiceNumber newDoc = Some EmptyString
      \/ (exists amount,
            DocumentFingerprint.amount newDoc = Some amount /\ amount == 0) ->
      newFingerprintOf sha256 newDoc = None
      /\ r = detectDuplicateDocument sha256 newDoc
               (map withoutFingerprint existingDocs)
      /\ forall m,
           In m (DuplicateCheckResult.matchedDocuments r) ->
           DuplicateMatch.matchReason m <> exactReason
           /\ (DuplicateMatch.similarity m = 0.92
               \/ DuplicateMatch.similarity m = 0.78
               \/ DuplicateMatch.similarity m = 0.6)).
Proof.
  intro r. split; [apply newFingerprintOf_Some|]. split.
  - intros m Hin Hexact.
    destruct (detect_In _ _ _ _ Hin) as (existing & _ & Hm).
    destruct (matchExisting_cases _ _ _ _ Hm)
      as [(Hfp & _ & _)|(_ & Hsim & Hreason)].
    + destruct (newFingerprintOf sha256 newDoc) as [fp|]; [now exists fp|].
      discriminate.
    + exfalso. destruct Hexact as [Hexact|Hexact]; [contradiction|].
      destruct Hsim as [E|[E|E]]; rewrite E in Hexact; discriminate.
  - intro Hmissing.
    pose proof (newFingerprintOf_None sha256 newDoc Hmissing) as Hnone.
    split; [exact Hnone|]. split.
    + unfold r, detectDuplicateDocument.
      destruct existingDocs as [|existing rest]; [reflexivity|].
      cbn [map]. rewrite Hnone.
      change (withoutFingerprint existing :: map withoutFingerprint rest)
        with (map withoutFingerprint (existing :: rest)).
      now rewrite collectMatches_withoutFingerprint.
    + intros m Hin.
      destruct (detect_In _ _ _ _ Hin) as (existing & _ & Hm).
      rewrite Hnone in Hm.
      destruct (matchExisting_cases _ _ _ _ Hm)
        as [(Hfp & _ & _)|(_ & Hsim & Hreason)]; [discriminate|].
      split; assumption.
Qed.

Lemma exact_fingerprint_requirements_witness :
  ExistingDocument.fingerprint storedZeroInvoice
  = Some (generateDocumentFingerprint plainDigest zeroInvoice)
  /\ newFingerprintOf plainDigest zeroInvoice = None
  /\ exists m,
       DuplicateCheckResult.matchedDocuments
         (detectDuplicateDocument plainDigest zeroInvoice [storedZeroInvoice])
       = [m]
       /\ DuplicateMatch.similarity m = 0.92
       /\ DuplicateMatch.matchReason m <> exactReason.
Proof.
  split; [reflexivity|].
  destruct (proj2 (proj2 (exact_fingerprint_requirements plainDigest zeroInvoice
                            [storedZeroInvoice])))
    as (Hnone & _ & Hall).
  { right. exists 0. split; reflexivity. }
  split; [exact Hnone|].
  eexists. split; [vm_compute; reflexivity|].
  split; [reflexivity|].
  apply (Hall _ (or_introl eq_refl)).
Defined.

(** * Further properties *)

(** ** Case mapping and trimming *)

Lemma upper_lower_ascii (c : ascii) : upper_ascii (lower_ascii c) = upper_ascii c.
Proof. destruct c as [[] [] [] [] [] [] [] []]; reflexivity. Qed.

Lemma lower_upper_ascii (c : ascii) : lower_ascii (upper_ascii c) = lower_ascii c.
Proof. destruct c as [[] [] [] [] [] [] [] []]; reflexivity. Qed.

Lemma upper_upper_ascii (c : ascii) : upper_ascii (upper_ascii c) = upper_ascii c.
Proof. destruct c as [[] [] [] [] [] [] [] []]; reflexivity. Qed.

Lemma lower_lower_ascii (c : ascii) : lower_ascii (lower_ascii c) = lower_ascii c.
Proof. destruct c as [[] [] [] [] [] [] [] []]; reflexivity. Qed.

Lemma is_white_upper (c : ascii) : is_white (upper_ascii c) = is_white c.
Proof. destruct c as [[] [] [] [] [] [] [] []]; reflexivity. Qed.

Lemma is_white_lower (c : ascii) : is_white (lower_ascii c) = is_white c.
Proof. destruct c as [[] [] [] [] [] [] [] []]; reflexivity. Qed.

Lemma map_string_compose (f g h : ascii -> ascii) (s : string) :
  (forall c, f (g c) = h c) ->
  map_string f (map_string g s) = map_string h s.
Proof.
  intro Hfg. induction s as [|c s IH]; cbn; [reflexivity|].
  now rewrite Hfg, IH.
Qed.

Lemma toUpperCase_toLowerCase (s : string) :
  toUpperCase (toLowerCase s) = toUpperCase s.
Proof. apply map_string_compose, upper_lower_ascii. Qed.

Lemma toLowerCase_toUpperCase (s : string) :
  toLowerCase (toUpperCase s) = toLowerCase s.
Proof. apply map_string_compose, lower_upper_ascii. Qed.

Lemma toUpperCase_idempotent (s : string) :
  toUpperCase (toUpperCase s) = toUpperCase s.
Proof. apply map_string_compose, upper_upper_ascii. Qed.

Lemma toLowerCase_idempotent (s : string) :
  toLowerCase (toLowerCase s) = toLowerCase s.
Proof. apply map_string_compose, lower_lower_ascii. Qed.

Lemma map_string_app (f : ascii -> ascii) (a b : string) :
  map_string f (a ++ b) = (map_string f a ++ map_string f b)%string.
Proof.
  induction a as [|c a IH]; cbn; [reflexivity|]. now rewrite IH.
Qed.

Lemma trimStart_map (f : ascii -> ascii) (s : string) :
  (forall c, is_white (f c) = is_white c) ->
  trimStart (map_string f s) = map_string f (trimStart s).
Proof.
  intro Hf. induction s as [|c s IH]; cbn; [reflexivity|].
  rewrite Hf. destruct (is_white c); [exact IH|reflexivity].
Qed.

Lemma rev_string_map (f : ascii -> ascii) (acc s : string) :
  rev_string (map_string f acc) (map_string f s)
  = map_string f (rev_string acc s).
Proof.
  revert acc. induction s as [|c s IH]; intro acc; cbn; [reflexivity|].
  exact (IH (String c acc)).
Qed.

Lemma trim_map (f : ascii -> ascii) (s : string) :
  (forall c, is_white (f c) = is_white c) ->
  trim (map_string f s) = map_string f (trim s).
Proof.
  intro Hf. unfold trim.
  rewrite (trimStart_map f s Hf).
  change EmptyString with (map_string f EmptyString).
  rewrite rev_string_map, (trimStart_map f _ Hf), rev_string_map.
  reflexivity.
Qed.

Lemma string_app_assoc (a b c : string) :
  ((a ++ b) ++ c = a ++ (b ++ c))%string.
Proof.
  induction a as [|x a IH]; cbn; [reflexivity|]. now rewrite IH.
Qed.

Lemma string_app_nil_r (a : string) : (a ++ EmptyString)%string = a.
Proof.
  induction a as [|x a IH]; cbn; [reflexivity|]. now rewrite IH.
Qed.

Lemma rev_string_acc (acc s : string) :
  rev_string acc s = (rev_string EmptyString s ++ acc)%string.
Proof.
  revert acc. induction s as [|c s IH]; intro acc; cbn; [reflexivity|].
  rewrite (IH (String c acc)), (IH (String c EmptyString)).
  rewrite string_app_assoc. reflexivity.
Qed.

Lemma rev_string_app (a b : string) :
  rev_string EmptyString (a ++ b)
  = (rev_string EmptyString b ++ rev_string EmptyString a)%string.
Proof.
  induction a as [|c a IH]; cbn.
  - now rewrite string_app_nil_r.
  - rewrite (rev_string_acc (String c EmptyString) (a ++ b)), IH.
    rewrite (rev_string_acc (String c EmptyString) a).
    now rewrite string_app_assoc.
Qed.

Lemma allWhite_app (a b : string) :
  allWhite (a ++ b) = allWhite a && allWhite b.
Proof.
  induction a as [|c a IH]; cbn; [reflexivity|].
  now rewrite IH, andb_assoc.
Qed.

Lemma allWhite_rev (s : string) :
  allWhite (rev_string EmptyString s) = allWhite s.
Proof.
  induction s as [|c s IH]; cbn; [reflexivity|].
  rewrite rev_string_acc, allWhite_app, IH. cbn.
  rewrite andb_true_r. apply andb_comm.
Qed.

Lemma trimStart_white_app (ws s : string) :
  allWhite ws = true -> trimStart (ws ++ s) = trimStart s.
Proof.
  induction ws as [|c ws IH]; cbn; [reflexivity|].
  intro Hw. apply andb_true_iff in Hw as [Hc Hws].
  rewrite Hc. now apply IH.
Qed.

Lemma trimStart_app (s u : string) :
  allWhite u = true ->
  trimStart (s ++ u)
  = match trimStart s with
    | EmptyString => EmptyString
    | String c t => (String c t ++ u)%string
    end.
Proof.
  intro Hu. induction s as [|c s IH]; cbn.
  - induction u as [|d u IHu]; cbn; [reflexivity|].
    cbn in Hu. apply andb_true_iff in Hu as [Hd Hu'].
    rewrite Hd. now apply IHu.
  - destruct (is_white c); [exact IH|reflexivity].
Qed.

(** White space around a string does not survive [trim]. *)
Lemma trim_padded (before s after : string) :
  allWhite before = true -> allWhite after = true ->
  trim (before ++ s ++ after) = trim s.
Proof.
  intros Hb Ha. unfold trim.
  rewrite (trimStart_white_app before _ Hb), (trimStart_app s after Ha).
  destruct (trimStart s) as [|c t]; [reflexivity|].
  rewrite (rev_string_app (String c t) after).
  rewrite trimStart_white_app by now rewrite allWhite_rev.
  reflexivity.
Qed.

(** ** The duplicate detector: the result as a whole *)

Lemma Q_toFixed2_Qeq (x y : Q) : x == y -> Q_toFixed2 x = Q_toFixed2 y.
Proof.
  intro Hxy. unfold Q_toFixed2, Q_ltb.
  assert (Hn : Qfloor (Qabs x * 100 + (1 # 2)) = Qfloor (Qabs y * 100 + (1 # 2))).
  { apply Qfloor_comp. now rewrite Hxy. }
  assert (Hs : Qle_bool 0 x = Qle_bool 0 y) by now rewrite Hxy.
  now rewrite Hn, Hs.
Qed.

Lemma getSimilarityConfidence_Qeq (x y : Q) :
  x == y -> getSimilarityConfidence x = getSimilarityConfidence y.
Proof.
  intro Hxy. unfold getSimilarityConfidence. cbn.
  assert (E1 : Qle_bool 0.99 x = Qle_bool 0.99 y) by now rewrite Hxy.
  assert (E2 : Qle_bool 0.85 x = Qle_bool 0.85 y) by now rewrite Hxy.
  assert (E3 : Qle_bool 0.70 x = Qle_bool 0.70 y) by now rewrite Hxy.
  now rewrite E1, E2, E3.
Qed.

Lemma urgency_mono (x y : Q) :
  x <= y ->
  (urgency (Some (actionFor (getSimilarityConfidence x)))
   <= urgency (Some (actionFor (getSimilarityConfidence y))))%nat.
Proof.
  intro Hxy. unfold getSimilarityConfidence. cbn.
  destruct (Qle_bool 0.99 x) eqn:X1; destruct (Qle_bool 0.99 y) eqn:Y1;
  destruct (Qle_bool 0.85 x) eqn:X2; destruct (Qle_bool 0.85 y) eqn:Y2;
  destruct (Qle_bool 0.70 x) eqn:X3; destruct (Qle_bool 0.70 y) eqn:Y3;
  cbn; try lia; bool_to_Q; exfalso; lra.
Qed.

(** The result is read off the sorted list of the matches found. *)
Lemma detect_view (sha256 : string -> string) (newDoc : DocumentFingerprint.t Q)
    (existingDocs : list (ExistingDocument.t Q)) :
  let sorted :=
    sortMatches (collectMatches newDoc (newFingerprintOf sha256 newDoc)
                                existingDocs) in
  let r := detectDuplicateDocument sha256 newDoc existingDocs in
  DuplicateCheckResult.matchedDocuments r = sorted
  /\ match sorted with
     | [] =>
         DuplicateCheckResult.isDuplicate r = false
         /\ DuplicateCheckResult.confidence r = None
         /\ DuplicateCheckResult.suggestedAction r = None
     | best :: _ =>
         DuplicateCheckResult.isDuplicate r = true
         /\ DuplicateCheckResult.confidence r
            = Some (getSimilarityConfidence (DuplicateMatch.similarity best))
         /\ DuplicateCheckResult.suggestedAction r
            = Some (actionFor (getSimilarityConfidence
                                 (DuplicateMatch.similarity best)))
     end.
Proof.
  unfold detectDuplicateDocument.
  destruct existingDocs as [|existing rest]; [cbn; repeat split|].
  destruct (sortMatches _) as [|best others]; cbn; [repeat split|].
  destruct (getSimilarityConfidence _); repeat split.
Qed.

Lemma collectMatches_In_iff (newDoc : DocumentFingerprint.t Q)
    (newFingerprint : option string) (existingDocs : list (ExistingDocument.t Q))
    (m : DuplicateMatch.t Q) :
  In m (collectMatches newDoc newFingerprint existingDocs) <->
  exists existing,
    In existing existingDocs
    /\ matchExisting newDoc newFingerprint existing = Some m.
Proof.
  split; [apply collectMatches_In|].
  intros (existing & Hin & Hm).
  induction existingDocs as [|x rest IH]; [destruct Hin|].
  cbn [collectMatches]. destruct Hin as [->|Hin].
  - rewrite Hm. now left.
  - destruct (matchExisting newDoc newFingerprint x); [right|]; now apply IH.
Qed.

Lemma sortMatches_In (l : list (DuplicateMatch.t Q)) (m : DuplicateMatch.t Q) :
  In m (sortMatches l) <-> In m l.
Proof.
  split; apply Permutation_in;
    [|symmetry]; apply sortMatches_Permutation.
Qed.

Lemma sorted_head_best (best : DuplicateMatch.t Q)
    (others : list (DuplicateMatch.t Q)) (m : DuplicateMatch.t Q) :
  StronglySorted descending (best :: others) ->
  In m (best :: others) ->
  DuplicateMatch.similarity m <= DuplicateMatch.similarity best.
Proof.
  intros Hsorted [<-|Hin]; [apply Qle_refl|].
  apply StronglySorted_inv in Hsorted as [_ Hall].
  rewrite Forall_forall in Hall. exact (Hall m Hin).
Qed.

(** The suggestion is at least as pressing as that of any match found. *)
Lemma detect_at_least (sha256 : string -> string)
    (newDoc : DocumentFingerprint.t Q)
    (existingDocs : list (ExistingDocument.t Q))
    (existing : ExistingDocument.t Q) (m : DuplicateMatch.t Q) :
  In existing existingDocs ->
  matchExisting newDoc (newFingerprintOf sha256 newDoc) existing = Some m ->
  let r := detectDuplicateDocument sha256 newDoc existingDocs in
  DuplicateCheckResult.isDuplicate r = true
  /\ (urgency (Some (actionFor (getSimilarityConfidence
                                  (DuplicateMatch.similarity m))))
      <= urgency (DuplicateCheckResult.suggestedAction r))%nat.
Proof.
  intros Hin Hm r.
  destruct (detect_view sha256 newDoc existingDocs) as [_ Hview].
  fold r in Hview.
  set (found := collectMatches newDoc _ existingDocs) in *.
  assert (Hfound : In m (sortMatches found)).
  { apply sortMatches_In, collectMatches_In_iff. now exists existing. }
  pose proof (sortMatches_sorted found) as Hsorted.
  destruct (sortMatches found) as [|best others]; [destruct Hfound|].
  destruct Hview as (Hdup & _ & Haction).
  split; [exact Hdup|]. rewrite Haction.
  apply urgency_mono. now apply (sorted_head_best best others).
Qed.

Lemma matchExisting_fires (newDoc : DocumentFingerprint.t Q)
    (newFingerprint : option string) (existing : ExistingDocument.t Q) :
  (fingerprintsEqual newFingerprint existing = true ->
   exists m, matchExisting newDoc newFingerprint existing = Some m
             /\ DuplicateMatch.similarity m = 1.0)
  /\ (sameAmountSameDay newDoc existing = true ->
      exists m, matchExisting newDoc newFingerprint existing = Some m
                /\ 0.92 <= DuplicateMatch.similarity m)
  /\ (sameAmountNearDay newDoc existing = true ->
      exists m, matchExisting newDoc newFingerprint existing = Some m
                /\ 0.78 <= DuplicateMatch.similarity m)
  /\ (invoiceNumbersEqual newDoc existing = true ->
      exists m, matchExisting newDoc newFingerprint existing = Some m
                /\ 0.6 <= DuplicateMatch.similarity m).
Proof.
  unfold matchExisting, sameAmountSameDay, sameAmountNearDay.
  destruct (fingerprintsEqual newFingerprint existing).
  { repeat split; intros _; eexists; (split; [reflexivity|cbn]);
      try reflexivity; apply Qle_bool_iff; reflexivity. }
  destruct (amountAndDate newDoc existing
              (fun d1 d2 => (normalizeDate d1 =? normalizeDate d2)%string)).
  { repeat split; try discriminate; intros _; eexists;
      (split; [reflexivity|cbn]); apply Qle_bool_iff; reflexivity. }
  destruct (amountAndDate newDoc existing
              (fun d1 d2 => datesWithinDays d1 d2 (ofZ 1))).
  { repeat split; try discriminate; intros _; eexists;
      (split; [reflexivity|cbn]); apply Qle_bool_iff; reflexivity. }
  destruct (invoiceNumbersEqual newDoc existing).
  { repeat split; try discriminate; intros _; eexists;
      (split; [reflexivity|cbn]); apply Qle_bool_iff; reflexivity. }
  repeat split; discriminate.
Qed.

Lemma urgency_of_similarity (x : Q) :
  (0.85 <= x -> urgency (Some (actionFor (getSimilarityConfidence x))) = 3%nat)
  /\ (0.70 <= x ->
      (2 <= urgency (Some (actionFor (getSimilarityConfidence x))))%nat)
  /\ (1 <= urgency (Some (actionFor (getSimilarityConfidence x))))%nat.
Proof.
  unfold getSimilarityConfidence. cbn.
  destruct (Qle_bool 0.99 x) eqn:X1; destruct (Qle_bool 0.85 x) eqn:X2;
  destruct (Qle_bool 0.70 x) eqn:X3; cbn; repeat split; intros;
  try lia; bool_to_Q; exfalso; lra.
Qed.

Lemma urgency_3 (action : option SuggestedAction) :
  (3 <= urgency action)%nat -> action = Some merge.
Proof. destruct action as [[]|]; cbn; intro; (reflexivity || lia). Qed.

Lemma urgency_2 (action : option SuggestedAction) :
  (2 <= urgency action)%nat -> action = Some merge \/ action = Some review.
Proof. destruct action as [[]|]; cbn; intro; (tauto || lia). Qed.

(** X1.  An existing document that meets the condition of a strategy
    secures at least the suggestion of that strategy, whatever else is
    stored: same amount and same calendar day (or an equal fingerprint)
    give merge; same amount within one day gives merge or review; an
    equal invoice number makes the upload a duplicate. *)
Theorem matching_document_guarantees (sha256 : string -> string)
    (newDoc : DocumentFingerprint.t Q)
    (existingDocs : list (ExistingDocument.t Q))
    (existing : ExistingDocument.t Q) :
  In existing existingDocs ->
  let r := detectDuplicateDocument sha256 newDoc existingDocs in
  (fingerprintsEqual (newFingerprintOf sha256 newDoc) existing = true
   \/ sameAmountSameDay newDoc existing = true ->
   DuplicateCheckResult.isDuplicate r = true
   /\ DuplicateCheckResult.suggestedAction r = Some merge)
  /\ (sameAmountNearDay newDoc existing = true ->
      DuplicateCheckResult.isDuplicate r = true
      /\ (DuplicateCheckResult.suggestedAction r = Some merge
          \/ DuplicateCheckResult.suggestedAction r = Some review))
  /\ (invoiceNumbersEqual newDoc existing = true ->
      DuplicateCheckResult.isDuplicate r = true
      /\ DuplicateCheckResult.suggestedAction r <> None).
Proof.
  intros Hin r.
  destruct (matchExisting_fires newDoc (newFingerprintOf sha256 newDoc) existing)
    as (Hexact & Hday & Hnear & Hinvoice).
  split; [|split].
  - intro Hcond.
    assert (Hm : exists m,
               matchExisting newDoc (newFingerprintOf sha256 newDoc) existing
               = Some m /\ 0.92 <= DuplicateMatch.similarity m).
    { destruct Hcond as [Hc|Hc].
      - destruct (Hexact Hc) as (m & Hm & Hs). exists m.
        split; [exact Hm|]. rewrite Hs. apply Qle_bool_iff. reflexivity.
      - exact (Hday Hc). }
    destruct Hm as (m & Hm & Hs).
    destruct (detect_at_least sha256 newDoc existingDocs existing m Hin Hm)
      as [Hdup Hurg].
    split; [exact Hdup|]. apply urgency_3.
    rewrite (proj1 (urgency_of_similarity _)) in Hurg by lra. exact Hurg.
  - intro Hcond. destruct (Hnear Hcond) as (m & Hm & Hs).
    destruct (detect_at_least sha256 newDoc existingDocs existing m Hin Hm)
      as [Hdup Hurg].
    split; [exact Hdup|]. apply urgency_2.
    assert (H70 : 0.70 <= DuplicateMatch.similarity m) by lra.
    exact (Nat.le_trans _ _ _
             (proj1 (proj2 (urgency_of_similarity _)) H70) Hurg).
  - intro Hcond. destruct (Hinvoice Hcond) as (m & Hm & Hs).
    destruct (detect_at_least sha256 newDoc existingDocs existing m Hin Hm)
      as [Hdup Hurg].
    split; [exact Hdup|].
    pose proof (Nat.le_trans _ _ _
                  (proj2 (proj2 (urgency_of_similarity
                                   (DuplicateMatch.similarity m)))) Hurg) as H1.
    subst r.
    destruct (DuplicateCheckResult.suggestedAction _); [discriminate|].
    exfalso. cbn in H1. lia.
Qed.

Lemma matching_document_guarantees_witness :
  DuplicateCheckResult.suggestedAction
    (detectDuplicateDocument plainDigest receipt120
       [unrelatedReceipt; nextDayReceipt; sameDayReceipt])
  = Some merge.
Proof.
  apply (matching_document_guarantees plainDigest receipt120
           [unrelatedReceipt; nextDayReceipt; sameDayReceipt] sameDayReceipt).
  - simpl. tauto.
  - right. reflexivity.
Defined.

Lemma collectMatches_length (newDoc : DocumentFingerprint.t Q)
    (newFingerprint : option string) (existingDocs : list (ExistingDocument.t Q)) :
  (List.length (collectMatches newDoc newFingerprint existingDocs)
   <= List.length existingDocs)%nat.
Proof.
  induction existingDocs as [|x rest IH]; cbn [collectMatches List.length];
    [lia|].
  destruct (matchExisting newDoc newFingerprint x); cbn [List.length]; lia.
Qed.

Lemma matchExisting_copies (newDoc : DocumentFingerprint.t Q)
    (newFingerprint : option string) (existing : ExistingDocument.t Q)
    (m : DuplicateMatch.t Q) :
  matchExisting newDoc newFingerprint existing = Some m ->
  DuplicateMatch.id m = ExistingDocument.id existing
  /\ DuplicateMatch.invoiceNumber m = ExistingDocument.invoiceNumber existing
  /\ DuplicateMatch.amount m = ExistingDocument.detectedAmount existing
  /\ DuplicateMatch.date m = ExistingDocument.detectedDate existing
  /\ DuplicateMatch.vendorName m = ExistingDocument.vendorName existing
  /\ DuplicateMatch.originalFilename m = ExistingDocument.originalFilename existing.
Proof.
  unfold matchExisting.
  destruct (if fingerprintsEqual _ _ then _ else _) as [[[reason sim] tier]|];
    [|discriminate].
  intro Hm. injection Hm as <-. repeat split.
Qed.

(** X2.  The parts of a result agree with each other and with the input.
    The upload is a duplicate exactly when some match is listed, and
    exactly then a confidence and a suggested action are given; there
    are never more matches than existing documents, and every match
    carries the identifier and the detected fields of an existing
    document. *)
Theorem duplicate_result_consistent (sha256 : string -> string)
    (newDoc : DocumentFingerprint.t Q)
    (existingDocs : list (ExistingDocument.t Q)) :
  let r := detectDuplicateDocument sha256 newDoc existingDocs in
  (DuplicateCheckResult.isDuplicate r = true
   <-> DuplicateCheckResult.matchedDocuments r <> [])
  /\ (DuplicateCheckResult.confidence r = None
      <-> DuplicateCheckResult.matchedDocuments r = [])
  /\ (DuplicateCheckResult.suggestedAction r = None
      <-> DuplicateCheckResult.matchedDocuments r = [])
  /\ (List.length (DuplicateCheckResult.matchedDocuments r)
      <= List.length existingDocs)%nat
  /\ forall m,
       In m (DuplicateCheckResult.matchedDocuments r) ->
       exists existing,
         In existing existingDocs
         /\ DuplicateMatch.id m = ExistingDocument.id existing
         /\ DuplicateMatch.invoiceNumber m
            = ExistingDocument.invoiceNumber existing
         /\ DuplicateMatch.amount m = ExistingDocument.detectedAmount existing
         /\ DuplicateMatch.date m = ExistingDocument.detectedDate existing
         /\ DuplicateMatch.originalFilename m
            = ExistingDocument.originalFilename existing.
Proof.
  intro r.
  destruct (detect_view sha256 newDoc existingDocs) as [Hlist Hview].
  fold r in Hlist, Hview.
  set (found := collectMatches newDoc _ existingDocs) in *.
  assert (Hlen : (List.length (sortMatches found) <= List.length existingDocs)%nat).
  { rewrite (Permutation_length (sortMatches_Permutation found)).
    apply collectMatches_length. }
  assert (Hfrom : forall m, In m (sortMatches found) ->
            exists existing, In existing existingDocs
              /\ matchExisting newDoc (newFingerprintOf sha256 newDoc) existing
                 = Some m).
  { intros m Hm. now apply collectMatches_In_iff, sortMatches_In. }
  rewrite Hlist.
  split; [|split; [|split; [|split; [exact Hlen|]]]].
  - destruct (sortMatches found); destruct Hview as (-> & _);
      split; congruence.
  - destruct (sortMatches found); destruct Hview as (_ & -> & _);
      split; congruence.
  - destruct (sortMatches found); destruct Hview as (_ & _ & ->);
      split; congruence.
  - intros m Hm. destruct (Hfrom m Hm) as (existing & Hin & Hmatch).
    exists existing. split; [exact Hin|].
    destruct (matchExisting_copies _ _ _ _ Hmatch) as (? & ? & ? & ? & ? & ?).
    repeat split; assumption.
Qed.

Lemma collectMatches_Permutation (newDoc : DocumentFingerprint.t Q)
    (newFingerprint : option string)
    (docs docs' : list (ExistingDocument.t Q)) :
  Permutation docs docs' ->
  Permutation (collectMatches newDoc newFingerprint docs)
              (collectMatches newDoc newFingerprint docs').
Proof.
  induction 1 as [|x l l' _ IH|x y l|l l' l'' _ IH1 _ IH2];
    cbn [collectMatches].
  - constructor.
  - destruct (matchExisting newDoc newFingerprint x); [now constructor|exact IH].
  - destruct (matchExisting newDoc newFingerprint x),
             (matchExisting newDoc newFingerprint y);
      try reflexivity. apply perm_swap.
  - now transitivity (collectMatches newDoc newFingerprint l').
Qed.

Lemma urgency_inj (a b : option SuggestedAction) : urgency a = urgency b -> a = b.
Proof. destruct a as [[]|], b as [[]|]; cbn; congruence. Qed.

(** More stored documents never make the suggestion less pressing. *)
Lemma detect_urgency_incl (sha256 : string -> string)
    (newDoc : DocumentFingerprint.t Q)
    (docs docs' : list (ExistingDocument.t Q)) :
  (forall existing, In existing docs -> In existing docs') ->
  (urgency (DuplicateCheckResult.suggestedAction
              (detectDuplicateDocument sha256 newDoc docs))
   <= urgency (DuplicateCheckResult.suggestedAction
                 (detectDuplicateDocument sha256 newDoc docs')))%nat.
Proof.
  intro Hincl.
  destruct (detect_view sha256 newDoc docs) as [_ Hview].
  set (found := collectMatches newDoc _ docs) in *.
  assert (Hfrom : forall m, In m (sortMatches found) ->
            exists existing, In existing docs
              /\ matchExisting newDoc (newFingerprintOf sha256 newDoc) existing
                 = Some m).
  { intros m Hm. now apply collectMatches_In_iff, sortMatches_In. }
  destruct (sortMatches found) as [|best others].
  - destruct Hview as (_ & _ & ->). cbn. lia.
  - destruct Hview as (_ & _ & ->).
    destruct (Hfrom best (or_introl eq_refl)) as (existing & Hin & Hm).
    exact (proj2 (detect_at_least sha256 newDoc docs' existing best
                    (Hincl _ Hin) Hm)).
Qed.

(** X3.  Storing further documents can only raise the suggestion, in the
    order none, add_new, review, merge; it never lowers it. *)
Theorem more_documents_never_lower_urgency (sha256 : string -> string)
    (newDoc : DocumentFingerprint.t Q)
    (docs more : list (ExistingDocument.t Q)) :
  (urgency (DuplicateCheckResult.suggestedAction
              (detectDuplicateDocument sha256 newDoc docs))
   <= urgency (DuplicateCheckResult.suggestedAction
                 (detectDuplicateDocument sha256 newDoc (docs ++ more))))%nat
  /\ (urgency (DuplicateCheckResult.suggestedAction
                 (detectDuplicateDocument sha256 newDoc more))
      <= urgency (DuplicateCheckResult.suggestedAction
                    (detectDuplicateDocument sha256 newDoc (docs ++ more))))%nat.
Proof.
  split; apply detect_urgency_incl; intros x Hx; apply in_or_app; tauto.
Qed.

(** X4.  The order in which the existing documents are given does not
    change whether the upload is a duplicate, its confidence or the
    suggested action; the matches listed are the same up to order. *)
Theorem duplicate_result_order_independent (sha256 : string -> string)
    (newDoc : DocumentFingerprint.t Q)
    (docs docs' : list (ExistingDocument.t Q)) :
  Permutation docs docs' ->
  let r := detectDuplicateDocument sha256 newDoc docs in
  let r' := detectDuplicateDocument sha256 newDoc docs' in
  DuplicateCheckResult.isDuplicate r = DuplicateCheckResult.isDuplicate r'
  /\ DuplicateCheckResult.confidence r = DuplicateCheckResult.confidence r'
  /\ DuplicateCheckResult.suggestedAction r
     = DuplicateCheckResult.suggestedAction r'
  /\ Permutation (DuplicateCheckResult.matchedDocuments r)
                 (DuplicateCheckResult.matchedDocuments r').
Proof.
  intros Hperm r r'.
  destruct (detect_view sha256 newDoc docs) as [Hlist Hview].
  destruct (detect_view sha256 newDoc docs') as [Hlist' Hview'].
  fold r in Hlist, Hview. fold r' in Hlist', Hview'.
  set (found := collectMatches newDoc _ docs) in *.
  set (found' := collectMatches newDoc _ docs') in *.
  assert (Hp : Permutation (sortMatches found) (sortMatches found')).
  { rewrite !sortMatches_Permutation. now apply collectMatches_Permutation. }
  pose proof (sortMatches_sorted found) as Hs.
  pose proof (sortMatches_sorted found') as Hs'.
  rewrite Hlist, Hlist'.
  destruct (sortMatches found) as [|b l], (sortMatches found') as [|b' l'].
  - destruct Hview as (-> & -> & ->), Hview' as (-> & -> & ->).
    repeat split. constructor.
  - apply Permutation_nil in Hp. discriminate.
  - symmetry in Hp. apply Permutation_nil in Hp. discriminate.
  - assert (Hsim : DuplicateMatch.similarity b == DuplicateMatch.similarity b').
    { apply Qle_antisym.
      - apply (sorted_head_best b' l' b Hs').
        apply (Permutation_in _ Hp). now left.
      - apply (sorted_head_best b l b' Hs).
        apply (Permutation_in _ (Permutation_sym Hp)). now left. }
    destruct Hview as (-> & -> & ->), Hview' as (-> & -> & ->).
    rewrite (getSimilarityConfidence_Qeq _ _ Hsim).
    repeat split. exact Hp.
Qed.

Lemma duplicate_result_order_independent_witness :
  DuplicateCheckResult.suggestedAction
    (detectDuplicateDocument plainDigest receipt120
       [nextDayReceipt; sameDayReceipt])
  = DuplicateCheckResult.suggestedAction
      (detectDuplicateDocument plainDigest receipt120
         [sameDayReceipt; nextDayReceipt]).
Proof.
  apply (duplicate_result_order_independent plainDigest receipt120
           [nextDayReceipt; sameDayReceipt] [sameDayReceipt; nextDayReceipt]).
  apply perm_swap.
Defined.

Lemma matchExisting_without_amount_or_date (sha256 : string -> string)
    (newDoc : DocumentFingerprint.t Q) (existing : ExistingDocument.t Q) :
  DocumentFingerprint.amount newDoc = None
  \/ DocumentFingerprint.date newDoc = None ->
  newFingerprintOf sha256 newDoc = None
  /\ forall m,
       matchExisting newDoc None existing = Some m ->
       invoiceNumbersEqual newDoc existing = true
       /\ DuplicateMatch.similarity m = 0.6
       /\ DuplicateMatch.matchReason m = invoiceReason.
Proof.
  intro Hmissing.
  assert (Hno : forall sameDate, amountAndDate newDoc existing sameDate = false).
  { intro sameDate. unfold amountAndDate.
    destruct Hmissing as [-> | ->]; [reflexivity|].
    now destruct (DocumentFingerprint.amount newDoc). }
  split.
  - unfold newFingerprintOf.
    destruct Hmissing as [-> | ->];
      destruct (DocumentFingerprint.invoiceNumber newDoc); try reflexivity.
    now destruct (DocumentFingerprint.amount newDoc).
  - intro m. unfold matchExisting. cbn [fingerprintsEqual].
    rewrite !Hno.
    destruct (invoiceNumbersEqual newDoc existing); [|discriminate].
    intro Hm. injection Hm as <-. repeat split.
Qed.

(** X5.  An upload whose amount or date could not be read is compared by
    invoice number only: every match has similarity 0.6, the confidence
    is at most low and the suggestion at most add_new.  Without an
    invoice number as well, it is never a duplicate. *)
Theorem missing_fields_degrade (sha256 : string -> string)
    (newDoc : DocumentFingerprint.t Q)
    (existingDocs : list (ExistingDocument.t Q)) :
  DocumentFingerprint.amount newDoc = None
  \/ DocumentFingerprint.date newDoc = None ->
  let r := detectDuplicateDocument sha256 newDoc existingDocs in
  (forall m,
     In m (DuplicateCheckResult.matchedDocuments r) ->
     DuplicateMatch.similarity m = 0.6
     /\ DuplicateMatch.matchReason m = invoiceReason)
  /\ (DuplicateCheckResult.confidence r = None
      \/ DuplicateCheckResult.confidence r = Some low)
  /\ (DuplicateCheckResult.suggestedAction r = None
      \/ DuplicateCheckResult.suggestedAction r = Some add_new)
  /\ (DocumentFingerprint.invoiceNumber newDoc = None ->
      DuplicateCheckResult.isDuplicate r = false
      /\ DuplicateCheckResult.matchedDocuments r = []).
Proof.
  intros Hmissing r.
  destruct (detect_view sha256 newDoc existingDocs) as [Hlist Hview].
  fold r in Hlist, Hview.
  assert (Hfp : newFingerprintOf sha256 newDoc = None).
  { destruct existingDocs as [|x ?].
    - unfold newFingerprintOf.
      destruct Hmissing as [-> | ->];
        destruct (DocumentFingerprint.invoiceNumber newDoc); try reflexivity.
      now destruct (DocumentFingerprint.amount newDoc).
    - exact (proj1 (matchExisting_without_amount_or_date sha256 newDoc x
                      Hmissing)). }
  rewrite Hfp in Hlist, Hview.
  set (found := collectMatches newDoc None existingDocs) in *.
  assert (Hall : forall m, In m (sortMatches found) ->
            exists existing,
              invoiceNumbersEqual newDoc existing = true
              /\ DuplicateMatch.similarity m = 0.6
              /\ DuplicateMatch.matchReason m = invoiceReason).
  { intros m Hm. apply sortMatches_In, collectMatches_In_iff in Hm.
    destruct Hm as (existing & _ & Hmatch). exists existing.
    exact (proj2 (matchExisting_without_amount_or_date sha256 newDoc existing
                    Hmissing) m Hmatch). }
  rewrite Hlist.
  split; [|split; [|split]].
  - intros m Hm. destruct (Hall m Hm) as (_ & _ & Hs & Hr). now split.
  - destruct (sortMatches found) as [|best others].
    + left. now destruct Hview as (_ & -> & _).
    + right. destruct Hview as (_ & -> & _).
      destruct (Hall best (or_introl eq_refl)) as (_ & _ & -> & _). reflexivity.
  - destruct (sortMatches found) as [|best others].
    + left. now destruct Hview as (_ & _ & ->).
    + right. destruct Hview as (_ & _ & ->).
      destruct (Hall best (or_introl eq_refl)) as (_ & _ & -> & _). reflexivity.
  - intro Hinv.
    destruct (sortMatches found) as [|best others].
    + now destruct Hview as (-> & _).
    + exfalso. destruct (Hall best (or_introl eq_refl)) as (existing & He & _).
      unfold invoiceNumbersEqual in He. rewrite Hinv in He. discriminate.
Qed.

Lemma missing_fields_degrade_witness :
  let r := detectDuplicateDocument plainDigest invoiceOnly
             [storedInvoice7; unrelatedReceipt] in
  DuplicateCheckResult.isDuplicate r = true
  /\ DuplicateCheckResult.confidence r = Some low
  /\ DuplicateCheckResult.suggestedAction r = Some add_new.
Proof.
  intro r.
  destruct (missing_fields_degrade plainDigest invoiceOnly
              [storedInvoice7; unrelatedReceipt] (or_introl eq_refl))
    as (_ & Hconf & Haction & _).
  fold r in Hconf, Haction.
  split; [reflexivity|]. split.
  - destruct Hconf as [Hc|Hc]; [vm_compute in Hc; discriminate|exact Hc].
  - destruct Haction as [Ha|Ha]; [vm_compute in Ha; discriminate|exact Ha].
Defined.

(** X6.  The fingerprint does not depend on the case of the ASCII
    letters of the invoice number, on (ASCII) white space around it, on
    the way the amount is written, or on the vendor name. *)
Theorem fingerprint_normalised (sha256 : string -> string)
    (doc : DocumentFingerprint.t Q) (invoiceNumber before after : string)
    (amount amount' : Q) (vendorName : option string) :
  allWhite before = true -> allWhite after = true -> amount == amount' ->
  let original := withInvoice invoiceNumber amount doc in
  let respelled (recase : string -> string) := {|
    DocumentFingerprint.invoiceNumber :=
      Some (before ++ recase invoiceNumber ++ after)%string;
    DocumentFingerprint.amount := Some amount';
    DocumentFingerprint.date := DocumentFingerprint.date doc;
    DocumentFingerprint.vendorName := vendorName
  |} in
  generateDocumentFingerprint sha256 (respelled toUpperCase)
  = generateDocumentFingerprint sha256 original
  /\ generateDocumentFingerprint sha256 (respelled toLowerCase)
     = generateDocumentFingerprint sha256 original
  /\ generateDocumentFingerprint sha256 (respelled (fun s => s))
     = generateDocumentFingerprint sha256 original.
Proof.
  intros Hb Ha Hamount original respelled.
  unfold generateDocumentFingerprint, original, respelled, withInvoice.
  cbn [DocumentFingerprint.invoiceNumber DocumentFingerprint.amount
       DocumentFingerprint.date toFixed2 Q_Number].
  rewrite !(trim_padded before _ after Hb Ha).
  rewrite (Q_toFixed2_Qeq _ _ Hamount).
  unfold toUpperCase at 1. rewrite (trim_map upper_ascii _ is_white_upper).
  fold (toUpperCase (trim invoiceNumber)). rewrite toLowerCase_toUpperCase.
  unfold toLowerCase at 3. rewrite (trim_map lower_ascii _ is_white_lower).
  fold (toLowerCase (trim invoiceNumber)). rewrite toLowerCase_idempotent.
  repeat split.
Qed.

Lemma fingerprint_normalised_witness :
  generateDocumentFingerprint plainDigest
    (DocumentFingerprint.mk (Some "  FV/2024/A7 "%string) (Some (241 # 2))
       (Some 1709251200000%Z) (Some "Hotel"%string))
  = generateDocumentFingerprint plainDigest
      (DocumentFingerprint.mk (Some "fv/2024/a7"%string) (Some 120.50)
         (Some 1709251200000%Z) None)
  /\ generateDocumentFingerprint plainDigest
       (DocumentFingerprint.mk (Some "fv/2024/a7"%string) (Some 120.50)
          (Some 1709251200000%Z) None)
     = "fv/2024/a7|120.50|2024-03-01"%string.
Proof.
  split; [|reflexivity].
  exact (proj1 (fingerprint_normalised plainDigest
                  (DocumentFingerprint.mk None None (Some 1709251200000%Z) None)
                  "fv/2024/a7" "  " " " 120.50 (241 # 2) (Some "Hotel"%string)
                  eq_refl eq_refl ltac:(reflexivity))).
Defined.

(** ** The diet calculator: further figures *)

Lemma map_const_seq {A : Type} (c : A) (start len : nat) :
  map (fun _ : nat => c) (seq start len) = repeat c len.
Proof.
  revert start. induction len as [|len IH]; intro start; cbn; [reflexivity|].
  now rewrite IH.
Qed.

Section DietMoreFigures.
Context {num : Type} `{Number num}.
Local Open Scope js_scope.

Lemma calculateDiet_started_figures (now : Date) (input : DietInput.t num)
    (e : Date) :
  effectiveEnd now input = Some e ->
  (DietInput.startDatetime input < e)%Z ->
  let totalHours := hoursBetween (DietInput.startDatetime input) e in
  let dailyRate := DietInput.dailyRate input in
  let rem := remainingHoursOf totalHours in
  let fullDays := Math_floor (totalHours / ofZ 24) in
  exists r,
    calculateDiet now input = Return r
    /\ DietResult.totalDays r
       = Math_round (totalDaysOf totalHours * ofZ 100) / ofZ 100
    /\ DietResult.partialDay r = Math_round (rem * ofZ 10) / ofZ 10
    /\ DietResult.dietBeforeBreakfast r
       = Math_round (grossDietOf dailyRate totalHours * ofZ 100) / ofZ 100
    /\ DietResult.breakfastDeduction r
       = Math_round
           (Math_min (breakfastsOf input * (dailyRate * ofQ 0.25))
                     (grossDietOf dailyRate totalHours) * ofZ 100) / ofZ 100
    /\ map DietBreakdown.amount (DietResult.detailedBreakdown r)
       = (repeat dailyRate (iterations fullDays)
          ++ if rem >? ofZ 0
             then [dailyRate * getMultiplierForHours rem] else [])%list
    /\ map DietBreakdown.day (DietResult.detailedBreakdown r)
       = (map (fun k : nat => ofZ (Z.of_nat k) + ofZ 1)
              (seq 0 (iterations fullDays))
          ++ if rem >? ofZ 0 then [fullDays + ofZ 1] else [])%list
    /\ map DietBreakdown.hours (DietResult.detailedBreakdown r)
       = (repeat (ofZ 24) (iterations fullDays)
          ++ if rem >? ofZ 0
             then [Math_round (rem * ofZ 10) / ofZ 10] else [])%list.
Proof.
  intros He Hlt totalHours dailyRate rem fullDays.
  unfold calculateDiet, effectiveEnd in *.
  apply Z.leb_gt in Hlt.
  destruct (DietInput.mode input); cbn.
  - injection He as ->. rewrite Hlt.
    eexists. split; [reflexivity|].
    cbn [DietResult.totalDays DietResult.partialDay
         DietResult.dietBeforeBreakfast DietResult.breakfastDeduction
         DietResult.detailedBreakdown].
    rewrite !map_app, !map_map. cbn [DietBreakdown.amount DietBreakdown.day
                                     DietBreakdown.hours].
    rewrite !map_const_seq.
    repeat split; destruct (_ <? _); reflexivity.
  - rewrite He. cbn. rewrite Hlt.
    eexists. split; [reflexivity|].
    cbn [DietResult.totalDays DietResult.partialDay
         DietResult.dietBeforeBreakfast DietResult.breakfastDeduction
         DietResult.detailedBreakdown].
    rewrite !map_app, !map_map. cbn [DietBreakdown.amount DietBreakdown.day
                                     DietBreakdown.hours].
    rewrite !map_const_seq.
    repeat split; destruct (_ <? _); reflexivity.
  - rewrite He. cbn. rewrite Hlt.
    eexists. split; [reflexivity|].
    cbn [DietResult.totalDays DietResult.partialDay
         DietResult.dietBeforeBreakfast DietResult.breakfastDeduction
         DietResult.detailedBreakdown].
    rewrite !map_app, !map_map. cbn [DietBreakdown.amount DietBreakdown.day
                                     DietBreakdown.hours].
    rewrite !map_const_seq.
    repeat split; destruct (_ <? _); reflexivity.
Qed.

End DietMoreFigures.

Lemma Qfloor_hours_nonneg (h : Q) : 0 <= h -> (0 <= Qfloor (h / 24))%Z.
Proof.
  intro H0. change 0%Z with (Qfloor 0). apply Qfloor_resp_le.
  apply Qle_shift_div_l; [reflexivity|]. lra.
Qed.

Lemma iterations_floor (x : Q) :
  iterations (Math_floor x) = Z.to_nat (Qfloor x).
Proof. cbn. now rewrite Qceiling_Z. Qed.

Lemma sumQ_app (a b : list Q) : sumQ (a ++ b) == sumQ a + sumQ b.
Proof.
  induction a as [|x a IH].
  - cbn [app]. unfold sumQ at 2. cbn [fold_right]. lra.
  - cbn [app]. unfold sumQ in *. cbn [fold_right]. rewrite IH. lra.
Qed.

Lemma sumQ_repeat (c : Q) (n : nat) :
  sumQ (repeat c n) == inject_Z (Z.of_nat n) * c.
Proof.
  induction n as [|n IH].
  { unfold sumQ. cbn [repeat fold_right].
    change (inject_Z (Z.of_nat 0)) with 0. lra. }
  unfold sumQ in *. cbn [repeat fold_right]. rewrite IH.
  rewrite Nat2Z.inj_succ, <- Z.add_1_r, inject_Z_plus.
  change (inject_Z 1) with 1. lra.
Qed.

Lemma grossDietOf_nonneg (dailyRate h : Q) :
  0 <= dailyRate -> 0 <= h -> 0 <= grossDietOf dailyRate h.
Proof.
  intros Hrate Hh. unfold grossDietOf.
  apply Qmult_le_0_compat; [now apply totalDaysOf_nonneg|exact Hrate].
Qed.

(** X7.  The breakfast deduction is capped.  In every result the total
    diet is not negative and the deduction does not exceed the diet
    before breakfast; with a daily rate and a breakfast count that are
    not negative, the deduction is not negative either and the total
    diet does not exceed the diet before breakfast. *)
Theorem breakfast_cap (now : Date) (input : DietInput.t Q) (r : DietResult.t Q) :
  calculateDiet now input = Return r ->
  0 <= DietResult.totalDiet r
  /\ DietResult.breakfastDeduction r <= DietResult.dietBeforeBreakfast r
  /\ (0 <= DietInput.dailyRate input -> 0 <= breakfastsOf input ->
      0 <= DietResult.breakfastDeduction r
      /\ 0 <= DietResult.dietBeforeBreakfast r
      /\ DietResult.totalDiet r <= DietResult.dietBeforeBreakfast r).
Proof.
  intro Hr.
  split; [exact (totalDiet_nonneg _ _ _ Hr)|].
  pose proof (calculateDiet_Return _ _ _ Hr) as Hend.
  destruct (Z_le_gt_dec (DietResult.endDatetime r) (DietInput.startDatetime input))
    as [Hle|Hgt].
  - pose proof (calculateDiet_not_started now input _ Hend Hle) as Hzero.
    rewrite Hr in Hzero. injection Hzero as ->. cbn.
    split; [discriminate|]. intros _ _. repeat split; discriminate.
  - destruct (calculateDiet_started_figures now input _ Hend ltac:(lia))
      as (r' & Hr' & _ & _ & Hgross & Hded & _).
    assert (r' = r) as -> by congruence.
    rewrite (totalDiet_started _ _ _ Hr ltac:(lia)), Hgross, Hded.
    set (h := hoursBetween _ _).
    set (g := grossDietOf (DietInput.dailyRate input) h).
    set (c := (breakfastsOf input * (DietInput.dailyRate input * ofQ 0.25))%js).
    change (round2 (Qmin c g) <= round2 g
            /\ (0 <= DietInput.dailyRate input -> 0 <= breakfastsOf input ->
                0 <= round2 (Qmin c g) /\ 0 <= round2 g
                /\ round2 (Qmax 0 (g - Qmin c g)) <= round2 g)).
    split; [apply round2_mono, Q.le_min_r|].
    intros Hrate Hbc.
    assert (Hh : 0 <= h).
    { unfold h. rewrite hoursBetween_elapsed.
      apply Qlt_le_weak, elapsedHours_pos. lia. }
    assert (Hg : 0 <= g) by now apply grossDietOf_nonneg.
    assert (Hc : 0 <= c).
    { unfold c. cbn. apply Qmult_le_0_compat; [exact Hbc|].
      apply Qmult_le_0_compat; [exact Hrate|discriminate]. }
    assert (Hmin : 0 <= Qmin c g) by now apply Q.min_glb.
    split; [now apply round2_nonneg|]. split; [now apply round2_nonneg|].
    apply round2_mono. apply Q.max_lub; lra.
Qed.

Lemma breakfast_cap_witness :
  exists r,
    calculateDiet 0%Z trip32hBreakfast = Return r
    /\ 0 <= DietResult.breakfastDeduction r
    /\ DietResult.totalDiet r <= DietResult.dietBeforeBreakfast r.
Proof.
  eexists. split; [vm_compute; reflexivity|].
  destruct (breakfast_cap 0%Z trip32hBreakfast _ ltac:(vm_compute; reflexivity))
    as (_ & _ & Hcap).
  destruct Hcap as (Hded & _ & Htotal);
    [vm_compute; discriminate|vm_compute; discriminate|].
  split; assumption.
Defined.

Lemma round2_Qeq (a b : Q) : a == b -> round2 a == round2 b.
Proof.
  intro Hab. apply Qle_antisym; apply round2_mono; lra.
Qed.

Lemma round2_whole (n : Z) : round2 (inject_Z n) == inject_Z n.
Proof.
  rewrite round2_Q. unfold Q_round.
  assert (E : inject_Z n * 100 + (1 # 2) == inject_Z (n * 100) + (1 # 2)).
  { rewrite inject_Z_mult. reflexivity. }
  rewrite (Qfloor_comp _ _ E).
  assert (F : Qfloor (inject_Z (n * 100) + (1 # 2)) = (n * 100)%Z).
  { apply Z.le_antisymm.
    - apply Z.lt_succ_r. rewrite Zlt_Qlt.
      apply Qle_lt_trans with (inject_Z (n * 100) + (1 # 2)); [apply Qfloor_le|].
      unfold Z.succ. rewrite inject_Z_plus. change (inject_Z 1) with 1. lra.
    - rewrite <- (Qfloor_Z (n * 100)) at 1. apply Qfloor_resp_le. lra. }
  rewrite F, inject_Z_mult. field.
Qed.

Lemma started_hours_nonneg (s e : Date) : (s < e)%Z -> 0 <= hoursBetween s e.
Proof.
  intro Hlt. rewrite hoursBetween_elapsed.
  apply Qlt_le_weak, elapsedHours_pos, Hlt.
Qed.

Lemma remainder_positive (h : Q) :
  0 <= h ->
  (remainingHoursOf h >? ofZ 0)%js = Q_ltb 0 (hoursMod24 h).
Proof.
  intro Hh. change (Q_ltb 0 (Q_rem h 24) = Q_ltb 0 (hoursMod24 h)).
  unfold Q_ltb. f_equal.
  pose proof (Q_rem_24 h Hh) as E. now rewrite E.
Qed.

(** X8.  The itemised rows agree with the totals, in exact arithmetic.
    The diet before breakfast is the sum of the amounts of the rows,
    rounded to the cent; the rows are numbered 1, 2, 3, ... without a
    gap; there is one row for every full day and at most one more, for
    the partial day; and no row has more than 24 hours or fewer
    than 0. *)
Theorem itemised_rows_add_up (now : Date) (input : DietInput.t Q)
    (r : DietResult.t Q) :
  calculateDiet now input = Return r ->
  let rows := DietResult.detailedBreakdown r in
  DietResult.dietBeforeBreakfast r
  == round2 (sumQ (map DietBreakdown.amount rows))
  /\ Forall2 Qeq (map DietBreakdown.day rows)
       (map (fun k : nat => inject_Z (Z.of_nat k) + 1) (seq 0 (List.length rows)))
  /\ (List.length rows = Z.to_nat (Qfloor (DietResult.fullDays r))
      \/ List.length rows = S (Z.to_nat (Qfloor (DietResult.fullDays r))))
  /\ Forall (fun row => 0 <= DietBreakdown.hours row <= 24) rows.
Proof.
  intros Hr rows.
  pose proof (calculateDiet_Return _ _ _ Hr) as Hend.
  destruct (Z_le_gt_dec (DietResult.endDatetime r) (DietInput.startDatetime input))
    as [Hle|Hgt].
  - pose proof (calculateDiet_not_started now input _ Hend Hle) as Hzero.
    rewrite Hr in Hzero. injection Hzero as E. subst rows. rewrite E. cbn.
    split; [reflexivity|].
    split; [constructor|]. split; [left; reflexivity|constructor].
  - assert (Hlt : (DietInput.startDatetime input < DietResult.endDatetime r)%Z) by lia.
    destruct (calculateDiet_started_figures now input _ Hend Hlt)
      as (r' & Hr' & _ & _ & Hgross & _ & Hamount & Hday & Hhours).
    destruct (calculateDiet_started now input _ Hend Hlt)
      as (r'' & Hr'' & _ & Hfull & _).
    assert (r' = r) as -> by congruence.
    assert (r'' = r) as -> by congruence.
    pose proof (started_hours_nonneg _ _ Hlt) as Hh.
    set (h := hoursBetween _ _) in *.
    pose proof (Qfloor_hours_nonneg h Hh) as Hd.
    rewrite (remainder_positive h Hh) in Hamount, Hday, Hhours.
    rewrite iterations_floor in Hamount, Hday, Hhours.
    change (h / ofZ 24)%js with (h / 24) in *.
    change (Math_floor (h / 24)) with (inject_Z (Qfloor (h / 24))) in *.
    set (d := Qfloor (h / 24)) in *.
    assert (Hlen : List.length rows
                   = (Z.to_nat d + if Q_ltb 0 (hoursMod24 h) then 1 else 0)%nat).
    { subst rows. rewrite <- (length_map DietBreakdown.amount), Hamount.
      rewrite length_app, repeat_length. now destruct (Q_ltb _ _). }
    split; [|split; [|split]].
    + rewrite Hgross. change (round2 (grossDietOf (DietInput.dailyRate input) h)
                              == round2 (sumQ (map DietBreakdown.amount rows))).
      apply round2_Qeq. subst rows. rewrite Hamount, sumQ_app, sumQ_repeat.
      rewrite Z2Nat.id by exact Hd.
      unfold grossDietOf. rewrite totalDaysOf_fraction.
      rewrite (partialDayFractionOf_Qeq _ _ (Q_rem_24 h Hh)).
      fold d. unfold partialDayFractionOf.
      destruct (Q_ltb 0 (hoursMod24 h)); unfold sumQ; cbn [fold_right];
        change (DietInput.dailyRate input * getMultiplierForHours (remainingHoursOf h))%js
          with (DietInput.dailyRate input * getMultiplierForHours (Q_rem h 24));
        try rewrite (getMultiplierForHours_Qeq _ _ (Q_rem_24 h Hh)).
      all: change (@mul Q Q_Number) with Qmult; ring.
    + rewrite Hlen. subst rows. rewrite Hday.
      destruct (Q_ltb 0 (hoursMod24 h)).
      * rewrite Nat.add_1_r, seq_S, map_app. apply Forall2_app.
        -- clear. generalize (seq 0 (Z.to_nat d)) as l.
           induction l; constructor; [reflexivity|assumption].
        -- constructor; [|constructor]. cbn [Nat.add].
           rewrite Z2Nat.id by exact Hd. reflexivity.
      * rewrite Nat.add_0_r, app_nil_r.
        clear. generalize (seq 0 (Z.to_nat d)) as l.
        induction l; constructor; [reflexivity|assumption].
    + rewrite Hlen, Hfull. rewrite Qfloor_Z.
      destruct (Q_ltb _ _); [right|left]; lia.
    + apply Forall_forall. intros row Hrow.
      apply (in_map DietBreakdown.hours) in Hrow. subst rows.
      rewrite Hhours in Hrow. apply in_app_or in Hrow.
      destruct Hrow as [Hrow|Hrow].
      * apply repeat_spec in Hrow. rewrite Hrow. split; discriminate.
      * destruct (Q_ltb 0 (hoursMod24 h)) eqn:Hpos; [|contradiction].
        destruct Hrow as [<-|[]].
        pose proof (Q_rem_24 h Hh) as Erem.
        pose proof (hoursMod24_range h) as [Hlo Hhi].
        change (0 <= Q_round (Q_rem h 24 * 10) / 10 <= 24).
        split.
        -- apply Qle_shift_div_l; [reflexivity|].
           apply Q_round_nonneg. rewrite Erem. lra.
        -- apply Qle_shift_div_r; [reflexivity|].
           apply Qle_trans with (Q_round 240); [|apply Qle_bool_iff; reflexivity].
           apply Q_round_mono. rewrite Erem. lra.
Qed.

Lemma itemised_rows_add_up_witness :
  exists r,
    calculateDiet 0%Z trip54h = Return r
    /\ DietResult.dietBeforeBreakfast r
       == round2 (sumQ (map DietBreakdown.amount (DietResult.detailedBreakdown r))).
Proof.
  eexists. split; [vm_compute; reflexivity|].
  exact (proj1 (itemised_rows_add_up 0%Z trip54h _ ltac:(vm_compute; reflexivity))).
Defined.

Lemma whole_days_hours (s : Date) (n : Z) :
  @hoursBetween Q _ s (s + n * 86400000)%Z == 24 * inject_Z n.
Proof.
  rewrite hoursBetween_elapsed. unfold elapsedHours.
  replace (s + n * 86400000 - s)%Z with (n * 86400000)%Z by lia.
  rewrite inject_Z_mult. field.
Qed.

(** X9.  A trip of whole days.  When the end used is exactly [n] times
    24 hours after the start, [n] at least 1, the result has [n] full
    days, [n] total days and no partial day, the diet before breakfast
    is [n] daily rates (rounded to the cent), and the breakdown has one
    row of the full daily rate for every day and no other row. *)
Theorem whole_days_trip (now : Date) (input : DietInput.t Q)
    (r : DietResult.t Q) (n : Z) :
  calculateDiet now input = Return r ->
  (1 <= n)%Z ->
  DietResult.endDatetime r = (DietInput.startDatetime input + n * 86400000)%Z ->
  DietResult.fullDays r == inject_Z n
  /\ DietResult.totalDays r == inject_Z n
  /\ DietResult.partialDay r == 0
  /\ DietResult.dietBeforeBreakfast r
     == round2 (inject_Z n * DietInput.dailyRate input)
  /\ map DietBreakdown.amount (DietResult.detailedBreakdown r)
     = repeat (DietInput.dailyRate input) (Z.to_nat n).
Proof.
  intros Hr Hn He.
  pose proof (calculateDiet_Return _ _ _ Hr) as Hend.
  assert (Hlt : (DietInput.startDatetime input < DietResult.endDatetime r)%Z) by lia.
  destruct (calculateDiet_started_figures now input _ Hend Hlt)
    as (r' & Hr' & Hdays & Hpartial & Hgross & _ & Hamount & _).
  destruct (calculateDiet_started now input _ Hend Hlt)
    as (r'' & Hr'' & _ & Hfull & _).
  assert (r' = r) as -> by congruence.
  assert (r'' = r) as -> by congruence.
  pose proof (started_hours_nonneg _ _ Hlt) as Hh.
  rewrite He in *.
  pose proof (whole_days_hours (DietInput.startDatetime input) n) as Ehours.
  set (h := hoursBetween _ _) in *.
  assert (Hd : Qfloor (h / 24) = n).
  { assert (E : h / 24 == inject_Z n) by (rewrite Ehours; field).
    rewrite (Qfloor_comp _ _ E). apply Qfloor_Z. }
  assert (Hrem : hoursMod24 h == 0).
  { unfold hoursMod24. rewrite Hd, Ehours. ring. }
  assert (Erem : Q_rem h 24 == 0) by (rewrite (Q_rem_24 h Hh); exact Hrem).
  assert (Hpos : Q_ltb 0 (hoursMod24 h) = false) by (apply Q_ltb_ge; lra).
  rewrite (remainder_positive h Hh), Hpos, app_nil_r, iterations_floor in Hamount.
  change (h / ofZ 24)%js with (h / 24) in *.
  change (Math_floor (h / 24)) with (inject_Z (Qfloor (h / 24))) in *.
  rewrite Hd in *.
  assert (Etotal : totalDaysOf h == inject_Z n).
  { rewrite totalDaysOf_fraction, Hd.
    rewrite (partialDayFractionOf_Qeq _ _ (Q_rem_24 h Hh)).
    unfold partialDayFractionOf. rewrite Hpos. ring. }
  split; [rewrite Hfull; reflexivity|].
  split.
  { rewrite Hdays. change (round2 (totalDaysOf h) == inject_Z n).
    rewrite (round2_Qeq _ _ Etotal). apply round2_whole. }
  split.
  { rewrite Hpartial.
    change (Q_round (Q_rem h 24 * 10) / 10 == 0).
    assert (E0 : Q_round (Q_rem h 24 * 10) == 0).
    { apply Qle_antisym.
      - apply Qle_trans with (Q_round 0); [|apply Qle_bool_iff; reflexivity].
        apply Q_round_mono. lra.
      - apply Q_round_nonneg. lra. }
    rewrite E0. reflexivity. }
  split; [|exact Hamount].
  rewrite Hgross.
  change (round2 (grossDietOf (DietInput.dailyRate input) h)
          == round2 (inject_Z n * DietInput.dailyRate input)).
  apply round2_Qeq. unfold grossDietOf.
  change (@mul Q Q_Number) with Qmult. rewrite Etotal. reflexivity.
Qed.

Lemma whole_days_trip_witness :
  exists r,
    calculateDiet 0%Z trip48h = Return r
    /\ DietResult.totalDays r == 2
    /\ DietResult.dietBeforeBreakfast r == 90.
Proof.
  eexists. split; [vm_compute; reflexivity|].
  destruct (whole_days_trip 0%Z trip48h _ 2
              ltac:(vm_compute; reflexivity) ltac:(lia) ltac:(reflexivity))
    as (_ & Hdays & _ & Hgross & _).
  split; [exact Hdays|]. rewrite Hgross. reflexivity.
Defined.

(** ** The balance: further figures *)

Section BalanceMoreFigures.
Context {num : Type} `{Number num}.
Local Open Scope js_scope.

Lemma calculateProjectBalance_totals (nowDiet nowStats : Date)
    (input : ProjectBalanceInput.t num) (r : ProjectBalanceResult.t num) :
  calculateProjectBalance nowDiet nowStats input = Return r ->
  let tripDays :=
    calculateTripHours nowStats (ProjectBalanceInput.project input) / ofZ 24 in
  ProjectBalanceResult.advancesTotal r
  = round2 (fold_left (fun sum a => sum + AdvanceSummary.amount a)
                      (ProjectBalanceInput.advances input) (ofZ 0))
  /\ ProjectBalanceResult.expensesTotal r
     = round2 (fold_left (fun sum v => sum + v)
                 (categoryValues (ProjectBalanceResult.categoryTotals r)) (ofZ 0))
  /\ ProjectBalanceResult.averageDailyExpense r
     = (if tripDays >? ofZ 0
        then round2 (ProjectBalanceResult.expensesTotal r / tripDays)
        else ofZ 0)
  /\ ProjectBalanceResult.transactionCount r
     = List.length (filter isValid (ProjectBalanceInput.transactions input)).
Proof.
  unfold calculateProjectBalance.
  set (totals := fold_left addToCategory _ _).
  set (hotelCombined :=
         round2 (CategoryTotals.HOTEL totals + CategoryTotals.PARKING totals)).
  destruct (calculateDiet nowDiet _) as [diet|msg]; unfold bind.
  - destruct (hotelCombined >? ofZ 0);
      [destruct (hotelCombined <=? _)|];
      cbv beta iota; intro Hr; injection Hr as <-;
      cbv beta iota delta [ProjectBalanceResult.advancesTotal
        ProjectBalanceResult.expensesTotal ProjectBalanceResult.categoryTotals
        ProjectBalanceResult.averageDailyExpense
        ProjectBalanceResult.transactionCount];
      repeat split.
  - destruct (_ >? _); [destruct (_ <=? _)|]; discriminate.
Qed.

Lemma filter_isValid_skip (a b : list (TransactionSummary.t num))
    (t : TransactionSummary.t num) :
  isValid t = false ->
  filter isValid (a ++ t :: b) = filter isValid (a ++ b).
Proof.
  intro Ht. rewrite !filter_app. cbn [filter]. now rewrite Ht.
Qed.

(** X10.  A transaction marked private, or excluded from the project,
    changes nothing: with it, anywhere in the list, or without it, the
    outcome is the same in every field, the transaction count included
    (for every model of the numbers). *)
Theorem excluded_transactions_ignored (nowDiet nowStats : Date)
    (input : ProjectBalanceInput.t num)
    (before after : list (TransactionSummary.t num))
    (t : TransactionSummary.t num) :
  TransactionSummary.isPrivate t = true
  \/ TransactionSummary.excludedFromProject t = true ->
  calculateProjectBalance nowDiet nowStats
    (withTransactions input (before ++ t :: after))
  = calculateProjectBalance nowDiet nowStats
      (withTransactions input (before ++ after)).
Proof.
  intro Ht.
  assert (Hskip : isValid t = false).
  { unfold isValid. destruct Ht as [-> | ->]; [reflexivity|apply andb_false_r]. }
  unfold calculateProjectBalance, withTransactions.
  cbn [ProjectBalanceInput.project ProjectBalanceInput.transactions
       ProjectBalanceInput.advances].
  change (fun t0 : TransactionSummary.t num =>
            negb (TransactionSummary.isPrivate t0)
            && negb (TransactionSummary.excludedFromProject t0)) with (@isValid num).
  rewrite (filter_isValid_skip before after t Hskip). reflexivity.
Qed.

End BalanceMoreFigures.

Lemma excluded_transactions_ignored_witness :
  calculateProjectBalance 0%Z 0%Z hotelOverLimit
  = calculateProjectBalance 0%Z 0%Z
      (withTransactions hotelOverLimit
         [ TransactionSummary.mk "t1" 1704900000000%Z 300 "HOTEL" false false;
           TransactionSummary.mk "t2" 1704900000000%Z 50 "FOOD" false false ]).
Proof.
  exact (excluded_transactions_ignored 0%Z 0%Z hotelOverLimit
           [ TransactionSummary.mk "t1" 1704900000000%Z 300 "HOTEL" false false;
             TransactionSummary.mk "t2" 1704900000000%Z 50 "FOOD" false false ]
           []
           (TransactionSummary.mk "t3" 1704900000000%Z 80 "HOTEL" true false)
           (or_introl eq_refl)).
Defined.

(** ** Whole cents *)

Lemma Qfloor_unique (q : Q) (n : Z) :
  inject_Z n <= q -> q < inject_Z (n + 1) -> Qfloor q = n.
Proof.
  intros Hlo Hhi. apply Z.le_antisymm.
  - apply Z.lt_succ_r. rewrite Zlt_Qlt.
    apply Qle_lt_trans with q; [apply Qfloor_le|exact Hhi].
  - rewrite <- (Qfloor_Z n) at 1. now apply Qfloor_resp_le.
Qed.

Lemma Qfloor_plus_whole (q : Q) (k : Z) :
  Qfloor (q + inject_Z k) = (Qfloor q + k)%Z.
Proof.
  apply Qfloor_unique.
  - rewrite inject_Z_plus. pose proof (Qfloor_le q). lra.
  - pose proof (Qlt_floor q) as Hhi.
    replace (Qfloor q + k + 1)%Z with ((Qfloor q + 1) + k)%Z by lia.
    rewrite inject_Z_plus. lra.
Qed.

Lemma Q_round_plus_whole (q : Q) (k : Z) :
  Q_round (q + inject_Z k) == Q_round q + inject_Z k.
Proof.
  unfold Q_round.
  assert (E : q + inject_Z k + (1 # 2) == q + (1 # 2) + inject_Z k) by ring.
  rewrite (Qfloor_comp _ _ E), Qfloor_plus_whole, inject_Z_plus. reflexivity.
Qed.

Lemma Q_round_Qeq (a b : Q) : a == b -> Q_round a == Q_round b.
Proof.
  intro Hab. unfold Q_round.
  assert (E : a + (1 # 2) == b + (1 # 2)) by (rewrite Hab; reflexivity).
  now rewrite (Qfloor_comp _ _ E).
Qed.

Lemma wholeCents_iff (x : Q) :
  wholeCents x = true <-> exists k : Z, x == inject_Z k / 100.
Proof.
  unfold wholeCents. rewrite Qeq_bool_iff. split.
  - intro E. exists (Qfloor (x * 100)). rewrite E. field.
  - intros [k E].
    assert (E' : x * 100 == inject_Z k) by (rewrite E; field).
    rewrite (Qfloor_comp _ _ E'), Qfloor_Z. now rewrite E'.
Qed.

Lemma wholeCents_round2 (x : Q) : wholeCents (round2 x) = true.
Proof.
  apply wholeCents_iff. rewrite round2_Q. unfold Q_round. eexists. reflexivity.
Qed.

Lemma wholeCents_0 : wholeCents 0 = true.
Proof. reflexivity. Qed.

Lemma wholeCents_plus (x y : Q) :
  wholeCents x = true -> wholeCents y = true -> wholeCents (x + y) = true.
Proof.
  rewrite !wholeCents_iff. intros [k Hx] [l Hy]. exists (k + l)%Z.
  rewrite Hx, Hy, inject_Z_plus. field.
Qed.

Lemma wholeCents_minus (x y : Q) :
  wholeCents x = true -> wholeCents y = true -> wholeCents (x - y) = true.
Proof.
  rewrite !wholeCents_iff. intros [k Hx] [l Hy]. exists (k - l)%Z.
  rewrite Hx, Hy. unfold Z.sub. rewrite inject_Z_plus, inject_Z_opp. field.
Qed.

Lemma round2_plus_cents (x c : Q) :
  wholeCents c = true -> round2 (x + c) == round2 x + c.
Proof.
  intro Hc. apply wholeCents_iff in Hc. destruct Hc as [k Hk].
  rewrite !round2_Q.
  assert (E : (x + c) * 100 == x * 100 + inject_Z k) by (rewrite Hk; field).
  rewrite (Q_round_Qeq _ _ E), Q_round_plus_whole, Hk. field.
Qed.

Lemma round2_cents (x : Q) : wholeCents x = true -> round2 x == x.
Proof.
  intro Hx. assert (E : x == 0 + x) by ring.
  rewrite (round2_Qeq _ _ E), (round2_plus_cents 0 x Hx).
  assert (E0 : round2 0 == 0) by reflexivity. rewrite E0. ring.
Qed.

Lemma wholeCents_sumQ (l : list Q) :
  Forall (fun x => wholeCents x = true) l -> wholeCents (sumQ l) = true.
Proof.
  induction 1 as [|x l Hx _ IH]; [reflexivity|].
  unfold sumQ in *. cbn [fold_right]. now apply wholeCents_plus.
Qed.

Lemma categoryValues_sum (T : CategoryTotals.t Q) :
  fold_left (fun sum v => sum + v)%js (categoryValues T) (ofZ 0)
  == sumQ (categoryValues T).
Proof.
  destruct T as [f t h p u o]. unfold sumQ. cbn. ring.
Qed.

Lemma advances_sum (advances : list (AdvanceSummary.t Q)) (acc : Q) :
  fold_left (fun sum a => sum + AdvanceSummary.amount a)%js advances acc
  == acc + sumQ (map AdvanceSummary.amount advances).
Proof.
  revert acc. induction advances as [|a l IH]; intro acc.
  - unfold sumQ. cbn. ring.
  - cbn [fold_left map]. rewrite IH. unfold sumQ. cbn [fold_right].
    change (@add Q Q_Number) with Qplus. ring.
Qed.

Lemma centTotals_zero :
  centTotals (CategoryTotals.mk (ofZ 0) (ofZ 0) (ofZ 0) (ofZ 0) (ofZ 0) (ofZ 0)).
Proof. repeat constructor. Qed.

Ltac category_cases t :=
  unfold addToCategory, shareOf, bucketOf;
  repeat match goal with
    | |- context [(toUpperCase (TransactionSummary.category t) =? ?k)%string] =>
        let E := fresh "E" in
        destruct (String.eqb_spec (toUpperCase (TransactionSummary.category t)) k)
          as [E|E]; [try rewrite E in *|]
    end.

Lemma centTotals_mk (f tr h p u o : Q) :
  centTotals (CategoryTotals.mk f tr h p u o)
  <-> wholeCents f = true /\ wholeCents tr = true /\ wholeCents h = true
      /\ wholeCents p = true /\ wholeCents u = true /\ wholeCents o = true.
Proof.
  unfold centTotals, categoryValues.
  cbn [CategoryTotals.FOOD CategoryTotals.TRANSPORT CategoryTotals.HOTEL
       CategoryTotals.PARKING CategoryTotals.FUEL CategoryTotals.OTHER].
  split.
  - intro HT.
    inversion HT as [|? ? H1 HT1]; subst. inversion HT1 as [|? ? H2 HT2]; subst.
    inversion HT2 as [|? ? H3 HT3]; subst. inversion HT3 as [|? ? H4 HT4]; subst.
    inversion HT4 as [|? ? H5 HT5]; subst. inversion HT5 as [|? ? H6 HT6]; subst.
    tauto.
  - intros (H1 & H2 & H3 & H4 & H5 & H6). repeat constructor; assumption.
Qed.

Lemma addToCategory_cents (T : CategoryTotals.t Q) (t : TransactionSummary.t Q) :
  centTotals T -> centTotals (addToCategory T t).
Proof.
  destruct T as [f tr h p u o]. rewrite centTotals_mk.
  intros (H1 & H2 & H3 & H4 & H5 & H6).
  category_cases t; apply centTotals_mk;
    repeat split; try assumption; apply wholeCents_round2.
Qed.

Lemma fold_addToCategory_cents (txs : list (TransactionSummary.t Q))
    (T : CategoryTotals.t Q) :
  centTotals T -> centTotals (fold_left addToCategory txs T).
Proof.
  revert T. induction txs as [|t l IH]; intros T HT; [exact HT|].
  cbn [fold_left]. apply IH, addToCategory_cents, HT.
Qed.

Lemma addToCategory_shares (T : CategoryTotals.t Q) (t : TransactionSummary.t Q) :
  centTotals T ->
  wholeCents (TransactionSummary.amount t) = true ->
  Forall2 (fun after before =>
             fst after = fst before
             /\ snd after == snd before + shareOf (fst before) t)
          (categoryEntries (addToCategory T t)) (categoryEntries T)
  /\ sumQ (categoryValues (addToCategory T t))
     == sumQ (categoryValues T) + TransactionSummary.amount t.
Proof.
  destruct T as [f tr h p u o]. rewrite centTotals_mk.
  intros (H1 & H2 & H3 & H4 & H5 & H6) Ha.
  pose proof (fun x Hx => round2_cents _ (wholeCents_plus x _ Hx Ha)) as Hround.
  category_cases t;
    (split;
     [cbn [categoryEntries];
      repeat (constructor; [split; [reflexivity|cbn [fst snd]]|]);
      try constructor
     |unfold sumQ; cbn [categoryValues fold_right]]);
    change (@add Q Q_Number) with Qplus;
    repeat match goal with
      | |- context [(?a =? ?b)%string] =>
          first [ change (a =? b)%string with true
                | change (a =? b)%string with false ]
      end;
    cbv iota;
    cbn [fst snd CategoryTotals.FOOD CategoryTotals.TRANSPORT
         CategoryTotals.HOTEL CategoryTotals.PARKING CategoryTotals.FUEL
         CategoryTotals.OTHER];
    rewrite ?(Hround f H1), ?(Hround tr H2), ?(Hround h H3), ?(Hround p H4),
            ?(Hround u H5), ?(Hround o H6);
    ring.
Qed.

Lemma Forall2_chain {A : Type} (R1 R2 R : A -> A -> Prop) (a b c : list A) :
  (forall x y z, R2 x y -> R1 y z -> R x z) ->
  Forall2 R2 a b -> Forall2 R1 b c -> Forall2 R a c.
Proof.
  intros Hstep Hab. revert c.
  induction Hab as [|x y a b Hxy _ IH]; intros c Hbc; inversion Hbc; subst;
    constructor; eauto.
Qed.

Lemma fold_addToCategory_shares (txs : list (TransactionSummary.t Q))
    (T : CategoryTotals.t Q) :
  centTotals T ->
  Forall (fun t => wholeCents (TransactionSummary.amount t) = true) txs ->
  Forall2 (fun after before =>
             fst after = fst before
             /\ snd after == snd before + sumQ (map (shareOf (fst before)) txs))
          (categoryEntries (fold_left addToCategory txs T)) (categoryEntries T)
  /\ sumQ (categoryValues (fold_left addToCategory txs T))
     == sumQ (categoryValues T) + sumQ (map TransactionSummary.amount txs).
Proof.
  intros HT Htxs. revert T HT.
  induction Htxs as [|t l Ht _ IH]; intros T HT.
  - cbn [fold_left map]. split.
    + generalize (categoryEntries T) as entries.
      induction entries; constructor; [|assumption].
      split; [reflexivity|]. unfold sumQ. cbn [fold_right]. ring.
    + unfold sumQ at 3. cbn [fold_right]. ring.
  - cbn [fold_left map].
    destruct (IH _ (addToCategory_cents T t HT)) as [IHentries IHsum].
    destruct (addToCategory_shares T t HT Ht) as [Hentries Hsum].
    split.
    + refine (Forall2_chain _ _ _ _ _ _ _ IHentries Hentries).
      intros x y z [Exy Hxy] [Eyz Hyz]. split; [congruence|].
      rewrite Hxy, Hyz, Eyz. unfold sumQ. cbn [map fold_right]. ring.
    + rewrite IHsum, Hsum. unfold sumQ. cbn [fold_right]. ring.
Qed.

Lemma shares_amountsIn (bucket : string) (txs : list (TransactionSummary.t Q)) :
  sumQ (map (shareOf bucket) (filter isValid txs)) == sumQ (amountsIn bucket txs).
Proof.
  unfold amountsIn. generalize (filter isValid txs) as l.
  induction l as [|t l IH]; [reflexivity|].
  cbn [map filter]. unfold shareOf at 1.
  destruct (_ =? _)%string; unfold sumQ in *; cbn [map fold_right];
    rewrite IH; ring.
Qed.

Lemma totalDiet_cents (now : Date) (input : DietInput.t Q) (r : DietResult.t Q) :
  calculateDiet now input = Return r -> wholeCents (DietResult.totalDiet r) = true.
Proof.
  intro Hr.
  destruct (Z_le_gt_dec (DietResult.endDatetime r) (DietInput.startDatetime input))
    as [Hle|Hgt].
  - rewrite (totalDiet_not_started _ _ _ Hr Hle). reflexivity.
  - rewrite (totalDiet_started _ _ _ Hr ltac:(lia)). apply wholeCents_round2.
Qed.

(** X11.  The figures of a balance reconcile, in exact arithmetic and
    for any amounts.  The expenses total is exactly the sum of the six
    category totals, the combined hotel figure exactly hotel plus
    parking, and the balance exactly advances minus expenses plus the
    diet of the same result, with no cent lost to rounding; each of
    these figures, the hotel overage and every category total is a
    whole number of cents. *)
Theorem balance_reconciles (nowDiet nowStats : Date)
    (input : ProjectBalanceInput.t Q) (r : ProjectBalanceResult.t Q) :
  calculateProjectBalance nowDiet nowStats input = Return r ->
  let totals := ProjectBalanceResult.categoryTotals r in
  ProjectBalanceResult.expensesTotal r == sumQ (categoryValues totals)
  /\ ProjectBalanceResult.hotelCombined r
     == CategoryTotals.HOTEL totals + CategoryTotals.PARKING totals
  /\ ProjectBalanceResult.balance r
     == ProjectBalanceResult.advancesTotal r
        - ProjectBalanceResult.expensesTotal r
        + DietResult.totalDiet (ProjectBalanceResult.diet r)
  /\ Forall (fun v => wholeCents v = true)
       (ProjectBalanceResult.advancesTotal r
        :: ProjectBalanceResult.expensesTotal r
        :: ProjectBalanceResult.hotelCombined r
        :: ProjectBalanceResult.hotelOverage r
        :: ProjectBalanceResult.balance r
        :: categoryValues totals).
Proof.
  intros Hr totals.
  destruct (calculateProjectBalance_Return _ _ _ _ Hr)
    as (Hdiet & _ & Htotals & Hhotel & Hfig & Hbalance).
  destruct (calculateProjectBalance_totals _ _ _ _ Hr)
    as (Hadv & Hexp & _ & _).
  fold totals in Htotals, Hhotel, Hexp.
  assert (HT : centTotals totals).
  { rewrite Htotals. apply fold_addToCategory_cents, centTotals_zero. }
  assert (Hsum : wholeCents (sumQ (categoryValues totals)) = true)
    by (apply wholeCents_sumQ, HT).
  assert (Hexp' : ProjectBalanceResult.expensesTotal r
                  == sumQ (categoryValues totals)).
  { rewrite Hexp, (round2_Qeq _ _ (categoryValues_sum totals)).
    now apply round2_cents. }
  assert (Hadvc : wholeCents (ProjectBalanceResult.advancesTotal r) = true)
    by (rewrite Hadv; apply wholeCents_round2).
  assert (Hexpc : wholeCents (ProjectBalanceResult.expensesTotal r) = true)
    by (rewrite Hexp; apply wholeCents_round2).
  pose proof (totalDiet_cents _ _ _ Hdiet) as Hdietc.
  pose proof (proj1 (centTotals_mk _ _ _ _ _ _)
                (eq_ind _ centTotals HT _
                   (match totals as T
                          return T = CategoryTotals.mk
                                       (CategoryTotals.FOOD T)
                                       (CategoryTotals.TRANSPORT T)
                                       (CategoryTotals.HOTEL T)
                                       (CategoryTotals.PARKING T)
                                       (CategoryTotals.FUEL T)
                                       (CategoryTotals.OTHER T)
                    with CategoryTotals.mk _ _ _ _ _ _ => eq_refl end)))
    as (_ & _ & Hh & Hp & _ & _).
  split; [exact Hexp'|]. split.
  { rewrite Hhotel. apply round2_cents. now apply wholeCents_plus. }
  split.
  { rewrite Hbalance. apply round2_cents.
    apply wholeCents_plus; [apply wholeCents_minus|]; assumption. }
  constructor; [exact Hadvc|]. constructor; [exact Hexpc|].
  constructor; [rewrite Hhotel; apply wholeCents_round2|].
  constructor.
  { assert (E : ProjectBalanceResult.hotelOverage r
                = snd (ProjectBalanceResult.hotelStatus r,
                       ProjectBalanceResult.hotelOverage r)) by reflexivity.
    rewrite E, Hfig.
    destruct (_ >? _)%js; [destruct (_ <=? _)%js|]; cbn [snd];
      try reflexivity; apply wholeCents_round2. }
  constructor; [rewrite Hbalance; apply wholeCents_round2|exact HT].
Qed.

Lemma balance_reconciles_witness :
  exists r,
    calculateProjectBalance 0%Z 0%Z hotelOverLimit = Return r
    /\ ProjectBalanceResult.balance r
       == ProjectBalanceResult.advancesTotal r
          - ProjectBalanceResult.expensesTotal r
          + DietResult.totalDiet (ProjectBalanceResult.diet r).
Proof.
  eexists. split; [vm_compute; reflexivity|].
  exact (proj1 (proj2 (proj2
           (balance_reconciles 0%Z 0%Z hotelOverLimit _
              ltac:(vm_compute; reflexivity))))).
Defined.

(** X12.  Amounts in whole cents are summed exactly (exact arithmetic).
    When the amounts of the valid transactions and of the advances are
    whole numbers of cents, every category total is the sum of the
    valid amounts booked under that category (a category that is none
    of the five named ones counting as OTHER), the expenses total is
    the sum of all valid amounts, the advances total the sum of all
    advances, and the balance their difference plus the diet: the
    rounding after every step changes nothing, so neither does the
    order of the transactions. *)
Theorem cent_amounts_sum_exactly (nowDiet nowStats : Date)
    (input : ProjectBalanceInput.t Q) (r : ProjectBalanceResult.t Q) :
  calculateProjectBalance nowDiet nowStats input = Return r ->
  let transactions := ProjectBalanceInput.transactions input in
  let advances := map AdvanceSummary.amount (ProjectBalanceInput.advances input) in
  let expenses := map TransactionSummary.amount (filter isValid transactions) in
  Forall (fun a => wholeCents a = true) expenses ->
  Forall (fun a => wholeCents a = true) advances ->
  Forall (fun entry => snd entry == sumQ (amountsIn (fst entry) transactions))
         (categoryEntries (ProjectBalanceResult.categoryTotals r))
  /\ ProjectBalanceResult.expensesTotal r == sumQ expenses
  /\ ProjectBalanceResult.advancesTotal r == sumQ advances
  /\ ProjectBalanceResult.balance r
     == sumQ advances - sumQ expenses
        + DietResult.totalDiet (ProjectBalanceResult.diet r).
Proof.
  intros Hr transactions advances expenses Hexpenses Hadvances.
  destruct (calculateProjectBalance_Return _ _ _ _ Hr)
    as (Hdiet & _ & Htotals & _ & _ & Hbalance).
  destruct (calculateProjectBalance_totals _ _ _ _ Hr)
    as (Hadv & Hexp & _ & _).
  change (fun t : TransactionSummary.t Q =>
            negb (TransactionSummary.isPrivate t)
            && negb (TransactionSummary.excludedFromProject t))
    with (@isValid Q) in Htotals.
  fold transactions in Htotals.
  assert (Hvalid : Forall (fun t => wholeCents (TransactionSummary.amount t) = true)
                          (filter isValid transactions)).
  { subst expenses. apply Forall_map in Hexpenses. exact Hexpenses. }
  destruct (fold_addToCategory_shares _ _ centTotals_zero Hvalid)
    as [Hentries Hsum].
  rewrite <- Htotals in Hentries, Hsum.
  assert (Hexp' : ProjectBalanceResult.expensesTotal r == sumQ expenses).
  { rewrite Hexp, (round2_Qeq _ _ (categoryValues_sum _)), (round2_Qeq _ _ Hsum).
    assert (E : sumQ (categoryValues
                        (CategoryTotals.mk (ofZ 0) (ofZ 0) (ofZ 0) (ofZ 0)
                                           (ofZ 0) (ofZ 0)))
                + sumQ (map TransactionSummary.amount
                            (filter isValid transactions))
                == sumQ expenses).
    { subst expenses. unfold sumQ at 1. cbn. ring. }
    rewrite (round2_Qeq _ _ E). apply round2_cents, wholeCents_sumQ, Hexpenses. }
  assert (Hadv' : ProjectBalanceResult.advancesTotal r == sumQ advances).
  { rewrite Hadv, (round2_Qeq _ _ (advances_sum _ _)).
    assert (E : ofZ 0 + sumQ (map AdvanceSummary.amount
                                  (ProjectBalanceInput.advances input))
                == sumQ advances) by (subst advances; cbn; ring).
    rewrite (round2_Qeq _ _ E). apply round2_cents, wholeCents_sumQ, Hadvances. }
  split.
  { clear - Hentries.
    set (entries := categoryEntries (ProjectBalanceResult.categoryTotals r)) in *.
    clearbody entries.
    remember (categoryEntries _) as zero eqn:Ezero in Hentries.
    assert (Hzero : Forall (fun e => snd e == 0) zero).
    { subst zero. repeat constructor. }
    clear Ezero. induction Hentries as [|x y a b [Exy Hxy] _ IH];
      [constructor|].
    inversion Hzero as [|? ? Hy Hb]; subst.
    constructor; [|exact (IH Hb)].
    rewrite Hxy, Hy, Exy, shares_amountsIn. ring. }
  split; [exact Hexp'|]. split; [exact Hadv'|].
  rewrite Hbalance, (round2_Qeq _ _ (Qplus_comp _ _ (Qplus_comp _ _ Hadv' _ _
                       (Qopp_comp _ _ Hexp')) _ _ (Qeq_refl _))).
  apply round2_cents.
  apply wholeCents_plus; [apply wholeCents_minus|];
    [apply wholeCents_sumQ, Hadvances|apply wholeCents_sumQ, Hexpenses
    |exact (totalDiet_cents _ _ _ Hdiet)].
Qed.

Lemma cent_amounts_sum_exactly_witness :
  exists r,
    calculateProjectBalance 0%Z 0%Z hotelOverLimit = Return r
    /\ ProjectBalanceResult.expensesTotal r == 350
    /\ ProjectBalanceResult.advancesTotal r == 500.
Proof.
  eexists. split; [vm_compute; reflexivity|].
  destruct (cent_amounts_sum_exactly 0%Z 0%Z hotelOverLimit _
              ltac:(vm_compute; reflexivity))
    as (_ & Hexp & Hadv & _).
  - repeat constructor.
  - repeat constructor.
  - split; [rewrite Hexp|rewrite Hadv]; reflexivity.
Defined.

Lemma nonneg_mk (f tr h p u o : Q) :
  Forall (fun v => 0 <= v) (categoryValues (CategoryTotals.mk f tr h p u o))
  <-> 0 <= f /\ 0 <= tr /\ 0 <= h /\ 0 <= p /\ 0 <= u /\ 0 <= o.
Proof.
  unfold categoryValues.
  cbn [CategoryTotals.FOOD CategoryTotals.TRANSPORT CategoryTotals.HOTEL
       CategoryTotals.PARKING CategoryTotals.FUEL CategoryTotals.OTHER].
  split.
  - intro HT.
    inversion HT as [|? ? H1 HT1]; subst. inversion HT1 as [|? ? H2 HT2]; subst.
    inversion HT2 as [|? ? H3 HT3]; subst. inversion HT3 as [|? ? H4 HT4]; subst.
    inversion HT4 as [|? ? H5 HT5]; subst. inversion HT5 as [|? ? H6 HT6]; subst.
    tauto.
  - intros (H1 & H2 & H3 & H4 & H5 & H6). repeat constructor; assumption.
Qed.

Lemma addToCategory_nonneg (T : CategoryTotals.t Q) (t : TransactionSummary.t Q) :
  0 <= TransactionSummary.amount t ->
  Forall (fun v => 0 <= v) (categoryValues T) ->
  Forall (fun v => 0 <= v) (categoryValues (addToCategory T t)).
Proof.
  intro Ha. destruct T as [f tr h p u o]. rewrite nonneg_mk.
  intros (H1 & H2 & H3 & H4 & H5 & H6).
  category_cases t; apply nonneg_mk;
    repeat split; try assumption; apply round2_nonneg;
    change (@add Q Q_Number) with Qplus; lra.
Qed.

Lemma fold_addToCategory_nonneg (txs : list (TransactionSummary.t Q))
    (T : CategoryTotals.t Q) :
  Forall (fun t => 0 <= TransactionSummary.amount t) txs ->
  Forall (fun v => 0 <= v) (categoryValues T) ->
  Forall (fun v => 0 <= v) (categoryValues (fold_left addToCategory txs T)).
Proof.
  intro Htxs. revert T.
  induction Htxs as [|t l Ht _ IH]; intros T HT; [exact HT|].
  cbn [fold_left]. apply IH, addToCategory_nonneg; assumption.
Qed.

Lemma sumQ_nonneg (l : list Q) : Forall (fun v => 0 <= v) l -> 0 <= sumQ l.
Proof.
  induction 1 as [|x l Hx _ IH]; [discriminate|].
  unfold sumQ in *. cbn [fold_right]. lra.
Qed.

Lemma calculateTripHours_nonneg (now : Date) (project : Project.t Q) :
  0 <= calculateTripHours now project.
Proof. unfold calculateTripHours. apply Q.le_max_l. Qed.

(** X13.  No negative figure comes from amounts that are not negative
    (exact arithmetic): when no valid transaction has a negative amount,
    the expenses total, the combined hotel figure, the hotel overage,
    the average daily expense and every category total are at least
    0. *)
Theorem expense_figures_nonneg (nowDiet nowStats : Date)
    (input : ProjectBalanceInput.t Q) (r : ProjectBalanceResult.t Q) :
  calculateProjectBalance nowDiet nowStats input = Return r ->
  Forall (fun t => 0 <= TransactionSummary.amount t)
         (filter isValid (ProjectBalanceInput.transactions input)) ->
  Forall (fun v => 0 <= v)
    (ProjectBalanceResult.expensesTotal r
     :: ProjectBalanceResult.hotelCombined r
     :: ProjectBalanceResult.hotelOverage r
     :: ProjectBalanceResult.averageDailyExpense r
     :: categoryValues (ProjectBalanceResult.categoryTotals r)).
Proof.
  intros Hr Hvalid.
  destruct (calculateProjectBalance_Return _ _ _ _ Hr)
    as (_ & _ & Htotals & Hhotel & Hfig & _).
  destruct (calculateProjectBalance_totals _ _ _ _ Hr)
    as (_ & Hexp & Havg & _).
  change (fun t : TransactionSummary.t Q =>
            negb (TransactionSummary.isPrivate t)
            && negb (TransactionSummary.excludedFromProject t))
    with (@isValid Q) in Htotals.
  set (totals := ProjectBalanceResult.categoryTotals r) in *.
  assert (HT : Forall (fun v => 0 <= v) (categoryValues totals)).
  { rewrite Htotals. apply fold_addToCategory_nonneg; [exact Hvalid|].
    repeat constructor; discriminate. }
  assert (Hexp0 : 0 <= ProjectBalanceResult.expensesTotal r).
  { rewrite Hexp. apply round2_nonneg.
    rewrite categoryValues_sum. apply sumQ_nonneg, HT. }
  constructor; [exact Hexp0|].
  constructor.
  { rewrite Hhotel. apply round2_nonneg.
    destruct totals as [f tr h p u o]. apply nonneg_mk in HT.
    cbn [CategoryTotals.HOTEL CategoryTotals.PARKING].
    change (@add Q Q_Number) with Qplus. lra. }
  constructor.
  { assert (E : ProjectBalanceResult.hotelOverage r
                = snd (ProjectBalanceResult.hotelStatus r,
                       ProjectBalanceResult.hotelOverage r)) by reflexivity.
    rewrite E, Hfig.
    destruct (_ >? _)%js; [|discriminate].
    destruct (ProjectBalanceResult.hotelCombined r
              <=? ProjectBalanceResult.hotelLimit r)%js eqn:Hle;
      cbn [snd]; [discriminate|].
    apply round2_nonneg. apply Q_leb_gt in Hle.
    change (@sub Q Q_Number) with Qminus. lra. }
  constructor; [|exact HT].
  rewrite Havg.
  set (tripDays := (calculateTripHours nowStats _ / ofZ 24)%js).
  destruct (tripDays >? ofZ 0)%js eqn:Hpos; [|discriminate].
  apply round2_nonneg. apply Q_ltb_lt in Hpos.
  apply Qle_shift_div_l; [exact Hpos|]. change (ofZ 0) with 0 in Hpos. lra.
Qed.

Lemma expense_figures_nonneg_witness :
  exists r,
    calculateProjectBalance 0%Z 0%Z hotelOverLimit = Return r
    /\ 0 <= ProjectBalanceResult.hotelOverage r.
Proof.
  eexists. split; [vm_compute; reflexivity|].
  pose proof (expense_figures_nonneg 0%Z 0%Z hotelOverLimit _
                ltac:(vm_compute; reflexivity)
                ltac:(repeat constructor; discriminate)) as Hall.
  inversion Hall as [|? ? _ H1]; subst.
  inversion H1 as [|? ? _ H2]; subst.
  inversion H2 as [|? ? Hover _]; subst.
  exact Hover.
Defined.

Section StatisticsPeriod.
Context {num : Type} `{Number num}.
Local Open Scope js_scope.


End StatisticsPeriod.




(** ** The salary calculator *)

Section SalarySteps.
Context {num : Type} `{Number num}.
Local Open Scope js_scope.

(** The steps of [calculateSalaryNet], each figure of the result in terms
    of the figures before it. *)
Lemma calculateSalaryNet_steps (input : SalaryInput.t num) :
  let r := calculateSalaryNet input in
  let rates := ratesOf input in
  let brutto := SalaryInput.brutto input in
  SalaryResult.brutto r = brutto
  /\ SalaryResult.pensionContribution r
     = round2 (brutto * TaxRates.pensionRate rates)
  /\ SalaryResult.disabilityContribution r
     = round2 (brutto * TaxRates.disabilityRate rates)
  /\ SalaryResult.sicknessContribution r
     = (if SalaryInput.voluntarySocialSecurity input
        then round2 (brutto * TaxRates.sicknessRate rates) else ofZ 0)
  /\ SalaryResult.totalSocialSecurity r
     = SalaryResult.pensionContribution r
       + SalaryResult.disabilityContribution r
       + SalaryResult.sicknessContribution r
  /\ SalaryResult.healthInsuranceBase r
     = round2 (brutto - SalaryResult.totalSocialSecurity r)
  /\ SalaryResult.healthInsurance r
     = round2 (SalaryResult.healthInsuranceBase r
               * TaxRates.healthInsuranceRate rates)
  /\ SalaryResult.incomeBase r = SalaryResult.healthInsuranceBase r
  /\ SalaryResult.costOfIncome r
     = Math_min (round2 (SalaryResult.incomeBase r * TaxRates.costOfIncome rates))
                (TaxRates.maxCostOfIncome rates)
  /\ SalaryResult.taxBase r
     = Math_round (Math_max (ofZ 0)
                     (SalaryResult.incomeBase r - SalaryResult.costOfIncome r))
  /\ SalaryResult.taxBeforeDeduction r
     = round2 (SalaryResult.taxBase r * TaxRates.incomeTaxRate rates)
  /\ SalaryResult.taxFreeDeduction r
     = Math_min (SalaryResult.taxBeforeDeduction r) (TaxRates.taxFreeMonthly rates)
  /\ SalaryResult.incomeTax r
     = Math_max (ofZ 0)
         (round2 (SalaryResult.taxBeforeDeduction r
                  - SalaryResult.taxFreeDeduction r))
  /\ SalaryResult.ppkEmployee r
     = (if SalaryInput.ppkEnabled input
        then round2 (brutto * (SalaryInput.ppkPercentage input / ofZ 100))
        else ofZ 0)
  /\ SalaryResult.netto r
     = round2 (brutto - SalaryResult.totalSocialSecurity r
               - SalaryResult.healthInsurance r - SalaryResult.incomeTax r
               - SalaryResult.ppkEmployee r).
Proof. cbv zeta. repeat split. Qed.

End SalarySteps.

Ltac salary_steps input r rates :=
  cbv zeta;
  generalize (calculateSalaryNet_steps input); cbv zeta;
  generalize (calculateSalaryNet input) (ratesOf input);
  intros r rates
    (Hbrutto & Hpension & Hdisability & Hsickness & Hsocial & HhealthBase
     & Hhealth & HincomeBase & Hcost & HtaxBase & Hbefore & Hfree & Htax
     & Hppk & Hnetto);
  cbv beta iota delta [add sub mul div Math_min Math_max Math_round ofZ ofQ
                       Q_Number] in *;
  change (inject_Z 0) with 0 in *;
  change (inject_Z 100) with 100 in *.


Lemma wholeCents_Qeq (x y : Q) : x == y -> wholeCents x = wholeCents y.
Proof.
  intro E. destruct (wholeCents y) eqn:Hy.
  - apply wholeCents_iff in Hy. apply wholeCents_iff.
    destruct Hy as [k Hk]. exists k. now rewrite E.
  - destruct (wholeCents x) eqn:Hx; [|reflexivity].
    apply wholeCents_iff in Hx. destruct Hx as [k Hk].
    assert (Hy' : wholeCents y = true)
      by (apply wholeCents_iff; exists k; now rewrite <- E).
    congruence.
Qed.

Lemma wholeCents_max0 (x : Q) :
  wholeCents x = true -> wholeCents (Qmax 0 x) = true.
Proof.
  intro Hx. destruct (Q.max_spec 0 x) as [[_ E]|[_ E]];
    rewrite (wholeCents_Qeq _ _ E); [exact Hx|reflexivity].
Qed.

(** X15.  The bounds of the income tax, for any input and any rates
    (exact arithmetic).  The income tax is never negative; the tax-free
    deduction exceeds neither the tax before deduction nor the monthly
    tax-free amount; the cost of income never exceeds its cap; the tax
    base is a whole number, not negative; when the tax before deduction
    is within the tax-free amount no income tax is due; and the income
    tax exceeds the tax above the tax-free amount by at most half a
    cent. *)
Theorem income_tax_bounds (input : SalaryInput.t Q) :
  let r := calculateSalaryNet input in
  let rates := ratesOf input in
  0 <= SalaryResult.incomeTax r
  /\ SalaryResult.taxFreeDeduction r <= SalaryResult.taxBeforeDeduction r
  /\ SalaryResult.taxFreeDeduction r <= TaxRates.taxFreeMonthly rates
  /\ SalaryResult.costOfIncome r <= TaxRates.maxCostOfIncome rates
  /\ (exists k : Z, (0 <= k)%Z /\ SalaryResult.taxBase r = inject_Z k)
  /\ (SalaryResult.taxBeforeDeduction r <= TaxRates.taxFreeMonthly rates ->
      SalaryResult.incomeTax r == 0)
  /\ SalaryResult.incomeTax r
     <= Qmax 0 (SalaryResult.taxBeforeDeduction r
                - TaxRates.taxFreeMonthly rates) + (1 # 200).
Proof.
  salary_steps input r rates.
  set (before := SalaryResult.taxBeforeDeduction r) in *.
  set (free := TaxRates.taxFreeMonthly rates) in *.
  clearbody before free.
  rewrite Htax, Hfree, Hcost.
  split; [apply Q.le_max_l|].
  split; [apply Q.le_min_l|].
  split; [apply Q.le_min_r|].
  split; [apply Q.le_min_r|].
  split.
  { rewrite HtaxBase. unfold Q_round. eexists. split; [|reflexivity].
    apply (Qfloor_resp_le 0).
    match goal with
    | |- 0 <= Qmax 0 ?x + _ =>
        pose proof (Q.le_max_l 0 x) as Hmax;
        set (m := Qmax 0 x) in *; clearbody m
    end.
    lra. }
  clear - before free.
  split.
  { intro Hle.
    assert (E : before - Qmin before free == 0)
      by (rewrite (Q.min_l _ _ Hle); ring).
    rewrite (round2_Qeq _ _ E). reflexivity. }
  pose proof (Q.le_max_l 0 (before - free)) as Hmax0.
  pose proof (Q.le_max_r 0 (before - free)) as Hmax1.
  set (m := Qmax 0 (before - free)) in *. clearbody m.
  destruct (Q.min_spec before free) as [[Hlt E]|[Hle E]].
  - assert (E' : before - Qmin before free == 0) by (rewrite E; ring).
    rewrite (round2_Qeq _ _ E').
    apply Q.max_lub; [lra|]. apply Qle_trans with 0; [discriminate|lra].
  - assert (E' : before - Qmin before free == before - free)
      by (rewrite E; ring).
    rewrite (round2_Qeq _ _ E').
    apply Q.max_lub; [lra|].
    apply Qle_trans with (before - free + (1 # 200)); [|lra].
    rewrite round2_Q. unfold Q_round.
    pose proof (Qfloor_le ((before - free) * 100 + (1 # 2))) as Hfl.
    set (fl := inject_Z (Qfloor _)) in *. clearbody fl.
    apply Qle_shift_div_r; [reflexivity|]. lra.
Qed.

(** X16.  The payslip adds up (exact arithmetic).  For a gross salary
    in whole cents, and any rates, the net salary is exactly the gross
    salary less the three social contributions, the health insurance,
    the income tax and the PPK contribution of the same result; the
    health-insurance base is exactly gross less social security, and
    the income base is the same figure. *)
Theorem payslip_adds_up (input : SalaryInput.t Q) :
  wholeCents (SalaryInput.brutto input) = true ->
  let r := calculateSalaryNet input in
  SalaryResult.netto r
  == SalaryInput.brutto input
     - SalaryResult.pensionContribution r
     - SalaryResult.disabilityContribution r
     - SalaryResult.sicknessContribution r
     - SalaryResult.healthInsurance r
     - SalaryResult.incomeTax r
     - SalaryResult.ppkEmployee r
  /\ SalaryResult.healthInsuranceBase r
     == SalaryInput.brutto input - SalaryResult.totalSocialSecurity r
  /\ SalaryResult.incomeBase r = SalaryResult.healthInsuranceBase r.
Proof.
  intros Hcents. salary_steps input r rates.
  set (brutto := SalaryInput.brutto input) in *. clearbody brutto.
  assert (Hp : wholeCents (SalaryResult.pensionContribution r) = true)
    by (rewrite Hpension; apply wholeCents_round2).
  assert (Hd : wholeCents (SalaryResult.disabilityContribution r) = true)
    by (rewrite Hdisability; apply wholeCents_round2).
  assert (Hs : wholeCents (SalaryResult.sicknessContribution r) = true).
  { rewrite Hsickness. destruct (SalaryInput.voluntarySocialSecurity input);
      [apply wholeCents_round2|reflexivity]. }
  assert (Hh : wholeCents (SalaryResult.healthInsurance r) = true)
    by (rewrite Hhealth; apply wholeCents_round2).
  assert (Ht : wholeCents (SalaryResult.incomeTax r) = true)
    by (rewrite Htax; apply wholeCents_max0, wholeCents_round2).
  assert (Hk : wholeCents (SalaryResult.ppkEmployee r) = true).
  { rewrite Hppk. destruct (SalaryInput.ppkEnabled input);
      [apply wholeCents_round2|reflexivity]. }
  assert (Hss : wholeCents (SalaryResult.totalSocialSecurity r) = true)
    by (rewrite Hsocial; repeat apply wholeCents_plus; assumption).
  split; [|split; [|exact HincomeBase]].
  - rewrite Hnetto, round2_cents.
    + rewrite Hsocial. ring.
    + repeat apply wholeCents_minus; assumption.
  - rewrite HhealthBase. apply round2_cents.
    apply wholeCents_minus; assumption.
Qed.

Lemma payslip_adds_up_witness :
  let r := calculateSalaryNet salary1234 in
  SalaryResult.netto r
  == 1234.56
     - SalaryResult.pensionContribution r
     - SalaryResult.disabilityContribution r
     - SalaryResult.sicknessContribution r
     - SalaryResult.healthInsurance r
     - SalaryResult.incomeTax r
     - SalaryResult.ppkEmployee r.
Proof.
  exact (proj1 (payslip_adds_up salary1234 ltac:(reflexivity))).
Defined.

Lemma round2_upper (x : Q) : round2 x <= x + (1 # 200).
Proof.
  rewrite round2_Q. unfold Q_round.
  pose proof (Qfloor_le (x * 100 + (1 # 2))) as Hfl.
  set (fl := inject_Z (Qfloor _)) in *. clearbody fl.
  apply Qle_shift_div_r; [reflexivity|]. lra.
Qed.

Lemma round2_small (x : Q) : 0 <= x -> x < 1 # 200 -> round2 x == 0.
Proof.
  intros H0 Hx. rewrite round2_Q. unfold Q_round.
  rewrite (Qfloor_unique (x * 100 + (1 # 2)) 0).
  - reflexivity.
  - change (inject_Z 0) with 0. lra.
  - change (inject_Z (0 + 1)) with 1. lra.
Qed.

Lemma round2_above (x : Q) : - (1 # 200) <= x -> 0 <= round2 x.
Proof.
  intro Hx. rewrite round2_Q. unfold Q_round.
  apply Qle_shift_div_l; [reflexivity|]. rewrite Qmult_0_l.
  change 0 with (inject_Z 0). rewrite <- Zle_Qle.
  apply (Qfloor_resp_le 0). lra.
Qed.


(** X18.  At the rates of 2024-2025, for a gross salary and a PPK
    percentage that are not negative, no figure of the payslip is
    negative, the health-insurance base included (the contributions
    never exceed the gross salary by a cent), and the net salary does
    not exceed the gross salary rounded to the cent (exact
    arithmetic). *)
Theorem statutory_deductions_nonneg (input : SalaryInput.t Q) :
  ratesOf input = TAX_RATES_2024_2025 ->
  0 <= SalaryInput.brutto input ->
  0 <= SalaryInput.ppkPercentage input ->
  let r := calculateSalaryNet input in
  Forall (fun v => 0 <= v)
    [ SalaryResult.pensionContribution r;
      SalaryResult.disabilityContribution r;
      SalaryResult.sicknessContribution r;
      SalaryResult.totalSocialSecurity r;
      SalaryResult.healthInsuranceBase r;
      SalaryResult.healthInsurance r;
      SalaryResult.costOfIncome r;
      SalaryResult.taxBase r;
      SalaryResult.taxBeforeDeduction r;
      SalaryResult.taxFreeDeduction r;
      SalaryResult.incomeTax r;
      SalaryResult.ppkEmployee r ]
  /\ SalaryResult.netto r <= round2 (SalaryInput.brutto input).
Proof.
  intros Hrates Hb Hp. revert Hrates. salary_steps input r rates.
  intros ->.
  cbn [TAX_RATES_2024_2025 TaxRates.pensionRate TaxRates.disabilityRate
       TaxRates.sicknessRate TaxRates.healthInsuranceRate
       TaxRates.incomeTaxRate TaxRates.taxFreeMonthly TaxRates.costOfIncome
       TaxRates.maxCostOfIncome] in *.
  cbv beta iota delta [ofZ ofQ Q_Number] in *.
  change (inject_Z 300) with 300 in *. change (inject_Z 250) with 250 in *.
  set (b := SalaryInput.brutto input) in *. clearbody b.
  set (pct := SalaryInput.ppkPercentage input) in *. clearbody pct.
  assert (Hpension0 : 0 <= SalaryResult.pensionContribution r)
    by (rewrite Hpension; apply round2_nonneg; nra).
  assert (Hdisability0 : 0 <= SalaryResult.disabilityContribution r)
    by (rewrite Hdisability; apply round2_nonneg; nra).
  assert (Hsickness0 : 0 <= SalaryResult.sicknessContribution r).
  { rewrite Hsickness. destruct (SalaryInput.voluntarySocialSecurity input);
      [apply round2_nonneg; nra|discriminate]. }
  assert (Hsocial0 : 0 <= SalaryResult.totalSocialSecurity r)
    by (rewrite Hsocial; lra).
  assert (Hbase0 : 0 <= SalaryResult.healthInsuranceBase r).
  { rewrite HhealthBase. apply round2_above.
    destruct (Qlt_le_dec b (1 # 50)) as [Hsmall|Hbig].
    - assert (E1 : SalaryResult.pensionContribution r == 0)
        by (rewrite Hpension; apply round2_small; nra).
      assert (E2 : SalaryResult.disabilityContribution r == 0)
        by (rewrite Hdisability; apply round2_small; nra).
      assert (E3 : SalaryResult.sicknessContribution r == 0).
      { rewrite Hsickness. destruct (SalaryInput.voluntarySocialSecurity input);
          [apply round2_small; nra|reflexivity]. }
      rewrite Hsocial, E1, E2, E3. lra.
    - assert (U1 : SalaryResult.pensionContribution r
                   <= b * 0.0976 + (1 # 200))
        by (rewrite Hpension; apply round2_upper).
      assert (U2 : SalaryResult.disabilityContribution r
                   <= b * 0.015 + (1 # 200))
        by (rewrite Hdisability; apply round2_upper).
      assert (U3 : SalaryResult.sicknessContribution r
                   <= b * 0.0245 + (1 # 200)).
      { rewrite Hsickness. destruct (SalaryInput.voluntarySocialSecurity input);
          [apply round2_upper|nra]. }
      rewrite Hsocial.
      set (p := SalaryResult.pensionContribution r) in *.
      set (d := SalaryResult.disabilityContribution r) in *.
      set (s := SalaryResult.sicknessContribution r) in *.
      clearbody p d s. lra. }
  assert (Hhealth0 : 0 <= SalaryResult.healthInsurance r)
    by (rewrite Hhealth; apply round2_nonneg; nra).
  assert (Hcost0 : 0 <= SalaryResult.costOfIncome r).
  { rewrite Hcost. apply Q.min_glb; [|discriminate].
    apply round2_nonneg. rewrite HincomeBase. nra. }
  assert (HtaxBase0 : 0 <= SalaryResult.taxBase r).
  { rewrite HtaxBase. apply Q_round_nonneg, Q.le_max_l. }
  assert (Hbefore0 : 0 <= SalaryResult.taxBeforeDeduction r)
    by (rewrite Hbefore; apply round2_nonneg; nra).
  assert (Hfree0 : 0 <= SalaryResult.taxFreeDeduction r)
    by (rewrite Hfree; apply Q.min_glb; [exact Hbefore0|discriminate]).
  assert (Htax0 : 0 <= SalaryResult.incomeTax r)
    by (rewrite Htax; apply Q.le_max_l).
  assert (Hppk0 : 0 <= SalaryResult.ppkEmployee r).
  { rewrite Hppk. destruct (SalaryInput.ppkEnabled input); [|discriminate].
    apply round2_nonneg.
    assert (E : pct / 100 == pct * (1 # 100)) by field. rewrite E. nra. }
  split; [repeat constructor; assumption|].
  rewrite Hnetto. apply round2_mono.
  set (s := SalaryResult.totalSocialSecurity r) in *.
  set (h := SalaryResult.healthInsurance r) in *.
  set (t := SalaryResult.incomeTax r) in *.
  set (k := SalaryResult.ppkEmployee r) in *.
  clearbody s h t k. lra.
Qed.

Lemma statutory_deductions_nonneg_witness :
  SalaryResult.netto (calculateSalaryNet salary1234) <= round2 1234.56.
Proof.
  exact (proj2 (statutory_deductions_nonneg salary1234 eq_refl
                  ltac:(discriminate) ltac:(discriminate))).
Defined.

(** ** The country table *)

Lemma mapGet_In {V : Type} (key : string) (entries : list (string * V)) (v : V) :
  mapGet key entries = Some v -> In (key, v) entries.
Proof.
  induction entries as [|[k x] rest IH]; cbn [mapGet]; [discriminate|].
  destruct (mapGet key rest) as [later|].
  - intro E. right. apply IH. exact E.
  - destruct (String.eqb_spec k key) as [->|]; [|discriminate].
    intro E. injection E as ->. left. reflexivity.
Qed.

Lemma mapGet_None {V : Type} (key : string) (entries : list (string * V)) :
  mapGet key entries = None -> forall v, ~ In (key, v) entries.
Proof.
  induction entries as [|[k x] rest IH]; cbn [mapGet]; [intros _ v []|].
  destruct (mapGet key rest) as [later|]; [discriminate|].
  destruct (String.eqb_spec k key) as [->|Hk]; [discriminate|].
  intros _ v [E|Hin].
  - injection E as E _. contradiction.
  - exact (IH eq_refl v Hin).
Qed.

Lemma getCountryByCode_Some (code : string) (c : CountryDiet.t Q) :
  @getCountryByCode Q _ code = Some c ->
  In c (@COUNTRIES Q _) /\ CountryDiet.code c = toUpperCase code.
Proof.
  intro Hget. apply mapGet_In in Hget. unfold COUNTRIES_BY_CODE in Hget.
  apply in_map_iff in Hget. destruct Hget as (c' & E & Hin).
  injection E as Ecode ->. split; assumption.
Qed.

Lemma getCountryByCode_None (code : string) :
  @getCountryByCode Q _ code = None ->
  forall c : CountryDiet.t Q,
    In c (@COUNTRIES Q _) -> CountryDiet.code c <> toUpperCase code.
Proof.
  intros Hget c Hin Hcode.
  apply (mapGet_None _ _ Hget c). unfold COUNTRIES_BY_CODE.
  apply in_map_iff. exists c. split; [|exact Hin]. now rewrite Hcode.
Qed.


Lemma COUNTRIES_found :
  Forall (fun c : CountryDiet.t Q =>
            @getCountryByCode Q _ (CountryDiet.code c) = Some c) (@COUNTRIES Q _).
Proof.
  unfold COUNTRIES at 1.
  repeat (constructor; [vm_compute; reflexivity|]). constructor.
Qed.

Lemma COUNTRIES_found_lower :
  Forall (fun c : CountryDiet.t Q =>
            @getCountryByCode Q _ (toLowerCase (CountryDiet.code c)) = Some c)
         (@COUNTRIES Q _).
Proof.
  unfold COUNTRIES at 1.
  repeat (constructor; [vm_compute; reflexivity|]). constructor.
Qed.

(** X19.  Looking a country up by its code.  A code that is found gives
    an entry of the table whose code is the upper-cased argument; a code
    that is not found is the code of no entry.  Every entry of the table
    is found by its own code, written in capitals or in small letters:
    no two entries share a code. *)
Theorem country_lookup (code : string) :
  match @getCountryByCode Q _ code with
  | Some c => In c (@COUNTRIES Q _) /\ CountryDiet.code c = toUpperCase code
  | None =>
      forall c : CountryDiet.t Q,
        In c (@COUNTRIES Q _) -> CountryDiet.code c <> toUpperCase code
  end
  /\ forall c : CountryDiet.t Q,
       In c (@COUNTRIES Q _) ->
       @getCountryByCode Q _ (CountryDiet.code c) = Some c
       /\ @getCountryByCode Q _ (toLowerCase (CountryDiet.code c)) = Some c.
Proof.
  split.
  - destruct (@getCountryByCode Q _ code) as [c|] eqn:Hget.
    + exact (getCountryByCode_Some code c Hget).
    + exact (getCountryByCode_None code Hget).
  - intros c Hin. split.
    + exact (proj1 (Forall_forall _ _) COUNTRIES_found c Hin).
    + exact (proj1 (Forall_forall _ _) COUNTRIES_found_lower c Hin).
Qed.




